(** * Task management API

    A shallow embedding of the request-validation, query-construction and
    error-translation code of the task management API
    (validators/taskValidator.js, validators/validateMiddleware.js,
    controllers/taskController.js, utils/errorHandler.js,
    middleware/errorMiddleware.js, models/taskModel.js, routes/taskRoutes.js),
    followed by the properties of its specification.

    Conventions.
    - JavaScript strings are [string]s, read as sequences of code units;
      white space is classified on the ASCII range.
    - Numbers are integers of [Z]: status codes, page numbers and limits,
      and instants in milliseconds since the epoch.
    - A request body is a mapping from field names to JSON values and a
      query string a mapping from parameter names to strings, both [gmap]s
      (the parser of Express also yields arrays and objects: [qvalue]);
      objects of a fixed shape are records; JSON payloads are values of
      [json], objects keeping the order of their properties.
    - [undefined] is [None]; code that can throw returns a [completion].
    - The clock is explicit: an operation takes the value [Date.now()] has
      when it runs.  The identifier of a new document is explicit as well.
    - The store is the list of the documents of the collection, in insertion
      order, with the log of the model operations invoked on it.
    - The code runs on top of Joi, Mongoose and Express.  Their behaviour on
      the constructs that the repository uses is modelled here; what cannot
      be read off the repository (date parsing, built-in message templates,
      identifier syntax, coercions across types, traces) is a parameter,
      collected in the [Platform] interface. *)

From Stdlib Require Import ZArith String Ascii List Bool Lia DecimalString.
From stdpp Require Import base option gmap strings list sorting.
Import ListNotations.

Local Open Scope string_scope.
Local Open Scope list_scope.

Set Warnings "-register-all,-clear-no-such-hyp".

(** ** JSON values *)

(** [JDate t] is a Date instance at [t] milliseconds since the epoch (it is
    what Joi and Mongoose produce for date fields; in a response it is
    serialised by its ISO rendering). *)
Inductive json : Type :=
  | JNull
  | JBool (b : bool)
  | JNum (n : Z)
  | JStr (s : string)
  | JDate (t : Z)
  | JArr (xs : list json)
  | JObj (kvs : list (string * json)).

(** An object literal in which a property whose value is [undefined] is left
    out, as [JSON.stringify] does. *)
Definition jsonObject (props : list (string * option json)) : json :=
  JObj (omap (fun p => pair (fst p) <$> snd p) props).

Definition getProp (k : string) (j : json) : option json :=
  match j with
  | JObj kvs => snd <$> List.find (fun p => String.eqb (fst p) k) kvs
  | _ => None
  end.

(** ** The Task entity (models/taskModel.js)

    A stored document: the six business fields, the identifier, the two
    timestamps that [timestamps: true] maintains and Mongoose's version key.
    [description] is the only path that is neither required nor defaulted. *)
Record task := {
  _id : string;
  title : string;
  description : option string;
  category : string;
  priority : string;
  deadline : Z;
  completed : bool;
  createdAt : Z;
  updatedAt : Z;
  __v : Z
}.

(** ** What the libraries contribute *)

Class Platform := {
  (** Joi's date coercion [internals.parse value format] on a number or a
      string: the instant denoted, or [None] where Joi yields [null]. *)
  joi_parse_date : option string -> json -> option Z;
  (** Joi's built-in message template of an error code, rendered for a label
      (used only for codes a schema does not override). *)
  joi_default_message : string -> string -> string;
  (** The match of the quoted-substring pattern of handleDuplicateFieldError
      in a message: the first quoted substring with its quotes, or [None]
      when [String.prototype.match] returns [null]. *)
  regexp_first_quoted : string -> option string;
  (** Whether a string is a well-formed ObjectId for the store. *)
  objectid_valid : string -> bool;
  (** Mongoose's coercion of a value that is not already of the schema type
      of its path; [None] is a cast failure. *)
  mongoose_cast_string : json -> option string;
  mongoose_cast_date : json -> option Z;
  mongoose_cast_boolean : json -> option bool;
  (** The message of the CastError raised for a value at a path. *)
  mongoose_cast_message : string -> json -> string;
  (** Mongoose's cast of one exact-match condition [key = text] of a filter
      into a test on documents; [None] is a cast failure. *)
  mongoose_cast_condition : string -> string -> option (task -> bool);
  (** The text [`${value}`] of a date, an array or an object interpolated in
      a template literal. *)
  js_to_string : json -> string;
  (** The stack trace captured when an error with a given message is built. *)
  capture_stack : string -> string
}.

(** ** JavaScript string primitives *)

Module JsString.

(** [String.prototype.trim]; white space is classified on the ASCII range. *)
Fixpoint trimStart (s : string) : string :=
  match s with
  | String c s' => if Ascii.is_space c then trimStart s' else s
  | EmptyString => EmptyString
  end.

Fixpoint trimEnd (s : string) : string :=
  match s with
  | EmptyString => EmptyString
  | String c s' =>
      match trimEnd s' with
      | EmptyString => if Ascii.is_space c then EmptyString else String c EmptyString
      | r => String c r
      end
  end.

Definition trim (s : string) : string := trimEnd (trimStart s).

(** [s.split(sep)] for a one-character separator. *)
Fixpoint split (sep : ascii) (s : string) : list string :=
  match s with
  | EmptyString => [EmptyString]
  | String c s' =>
      if Ascii.eqb c sep then EmptyString :: split sep s'
      else match split sep s' with
           | w :: ws => String c w :: ws
           | [] => [String c EmptyString]
           end
  end.

(** [xs.join(sep)]. *)
Fixpoint join (sep : string) (xs : list string) : string :=
  match xs with
  | [] => EmptyString
  | [x] => x
  | x :: rest => x +:+ sep +:+ join sep rest
  end.

Definition lowerChar (c : ascii) : ascii :=
  let n := nat_of_ascii c in
  if (65 <=? n)%nat && (n <=? 90)%nat then ascii_of_nat (n + 32) else c.

Fixpoint toLowerCase (s : string) : string :=
  match s with
  | EmptyString => EmptyString
  | String c s' => String (lowerChar c) (toLowerCase s')
  end.

Definition startsWith (p s : string) : bool := String.prefix p s.

(** [`${n}`] for an integer. *)
Definition ofInt (n : Z) : string := NilZero.string_of_int (Z.to_int n).

(** [parseInt(s, 10)]: [None] is NaN.  Leading white space, an optional
    sign, then the longest prefix of decimal digits. *)
Fixpoint digits (acc : Z) (seen : bool) (s : string) : option Z :=
  match s with
  | String c s' =>
      match Ascii.is_nat c with
      | Some d => digits (10 * acc + Z.of_nat d) true s'
      | None => if seen then Some acc else None
      end
  | EmptyString => if seen then Some acc else None
  end.

Definition parseInt (s : string) : option Z :=
  match trimStart s with
  | String "-"%char r => Z.opp <$> digits 0 false r
  | String "+"%char r => digits 0 false r
  | r => digits 0 false r
  end.

(** A string is truthy when it is not empty. *)
Definition truthy (s : string) : bool := negb (String.eqb s EmptyString).

End JsString.

(** ** HTTP responses *)

(** What [res.status(code).json(payload)] hands to Express. *)
Record response := { res_status : Z; res_json : json }.

(** The body Express writes: [res.send] drops it for 204 and 304. *)
Definition wireBody (r : response) : option json :=
  if bool_decide (res_status r = 204%Z) || bool_decide (res_status r = 304%Z)
  then None else Some (res_json r).

(** ** Joi: declarative schemas and their validation *)

Module Joi.

Inductive baseType := TString | TDate | TBoolean.

(** The argument of [min]/[max]: a length for strings, ['now'] for dates. *)
Inductive limit := Len (n : nat) | Now.

Inductive rule := RTrim | RMin (l : limit) | RMax (l : limit).

Record schema := {
  s_type : baseType;
  s_rules : list rule;
  s_format : option string;
  s_valids : list string;
  s_only : bool;
  s_required : bool;
  s_default : option json;
  s_messages : list (string * string)
}.

Definition any (t : baseType) : schema :=
  {| s_type := t; s_rules := []; s_format := None; s_valids := [];
     s_only := false; s_required := false; s_default := None;
     s_messages := [] |}.

Definition string := any TString.
Definition date := any TDate.
Definition boolean := any TBoolean.

Definition addRule (r : rule) (s : schema) : schema :=
  {| s_type := s_type s; s_rules := s_rules s ++ [r]; s_format := s_format s;
     s_valids := s_valids s; s_only := s_only s; s_required := s_required s;
     s_default := s_default s; s_messages := s_messages s |}.

Definition trim : schema -> schema := addRule RTrim.
Definition min (l : limit) : schema -> schema := addRule (RMin l).
Definition max (l : limit) : schema -> schema := addRule (RMax l).

Definition iso (s : schema) : schema :=
  {| s_type := s_type s; s_rules := s_rules s; s_format := Some "iso";
     s_valids := s_valids s; s_only := s_only s; s_required := s_required s;
     s_default := s_default s; s_messages := s_messages s |}.

Definition allow (vs : list String.string) (s : schema) : schema :=
  {| s_type := s_type s; s_rules := s_rules s; s_format := s_format s;
     s_valids := s_valids s ++ vs; s_only := s_only s;
     s_required := s_required s; s_default := s_default s;
     s_messages := s_messages s |}.

Definition valid (vs : list String.string) (s : schema) : schema :=
  {| s_type := s_type s; s_rules := s_rules s; s_format := s_format s;
     s_valids := s_valids s ++ vs; s_only := true;
     s_required := s_required s; s_default := s_default s;
     s_messages := s_messages s |}.

Definition required (s : schema) : schema :=
  {| s_type := s_type s; s_rules := s_rules s; s_format := s_format s;
     s_valids := s_valids s; s_only := s_only s; s_required := true;
     s_default := s_default s; s_messages := s_messages s |}.

Definition default (v : json) (s : schema) : schema :=
  {| s_type := s_type s; s_rules := s_rules s; s_format := s_format s;
     s_valids := s_valids s; s_only := s_only s; s_required := s_required s;
     s_default := Some v; s_messages := s_messages s |}.

Definition messages (ms : list (String.string * String.string)) (s : schema) : schema :=
  {| s_type := s_type s; s_rules := s_rules s; s_format := s_format s;
     s_valids := s_valids s; s_only := s_only s; s_required := s_required s;
     s_default := s_default s; s_messages := ms ++ s_messages s |}.

(** [Joi.object({...})], optionally with [.min(n)] and [.messages]. *)
Record objectSchema := {
  o_keys : list (String.string * schema);
  o_min : option nat;
  o_messages : list (String.string * String.string)
}.

Definition object (ks : list (String.string * schema)) : objectSchema :=
  {| o_keys := ks; o_min := None; o_messages := [] |}.

Definition objectMin (n : nat) (o : objectSchema) : objectSchema :=
  {| o_keys := o_keys o; o_min := Some n; o_messages := o_messages o |}.

Definition objectMessages (ms : list (String.string * String.string))
    (o : objectSchema) : objectSchema :=
  {| o_keys := o_keys o; o_min := o_min o; o_messages := ms ++ o_messages o |}.

(** The validation options the code passes. *)
Record prefs := { abortEarly : bool; stripUnknown : bool }.

(** An entry of [error.details]. *)
Record detail := {
  path : list String.string;
  type : String.string;
  message : String.string
}.

(** The outcome [{ error, value }] of [schema.validate]. *)
Record result := {
  error : option (list detail);
  value : gmap String.string json
}.

Definition lookupMessage (ms : list (String.string * String.string))
    (code : String.string) : option String.string :=
  snd <$> List.find (fun p => String.eqb (fst p) code) ms.

Section Validation.
Context `{Platform}.

(** The moment [Date.now()] returns while the payload is validated. *)
Variable now : Z.

Definition createError (ms : list (String.string * String.string))
    (p : list String.string) (label code : String.string) : detail :=
  {| path := p; type := code;
     message := from_option id (joi_default_message code label)
                  (lookupMessage ms code) |}.

Definition hasTrim (s : schema) : bool :=
  existsb (fun r => match r with RTrim => true | _ => false end) (s_rules s).

Definition hasMinZero (s : schema) : bool :=
  existsb (fun r => match r with RMin (Len O) => true | _ => false end)
          (s_rules s).

(** The coercion step (the [convert] preference is left at its default). *)
Definition coerce (s : schema) (v : json) : json :=
  match s_type s, v with
  | TString, JStr x => if hasTrim s then JStr (JsString.trim x) else v
  | TDate, (JStr _ | JNum _) =>
      match joi_parse_date (s_format s) v with
      | Some t => JDate t
      | None => v
      end
  | TBoolean, JStr x =>
      let n := JsString.toLowerCase x in
      if String.eqb n "true" then JBool true
      else if String.eqb n "false" then JBool false
      else v
  | _, _ => v
  end.

Definition inValids (s : schema) (v : json) : bool :=
  match v with
  | JStr x => bool_decide (x ∈ s_valids s)
  | _ => false
  end.

(** The base check of the type; a failure ends the field's validation. *)
Definition baseError (s : schema) (v : json) : option String.string :=
  match s_type s, v with
  | TString, JStr x =>
      if String.eqb x "" && negb (hasMinZero s) then Some "string.empty"
      else None
  | TString, _ => Some "string.base"
  | TDate, JDate _ => None
  | TDate, JStr _ =>
      match s_format s with
      | Some _ => Some "date.format"
      | None => Some "date.base"
      end
  | TDate, _ => Some "date.base"
  | TBoolean, JBool _ => None
  | TBoolean, _ => Some "boolean.base"
  end.

Definition ruleError (s : schema) (r : rule) (v : json) : option String.string :=
  match r, v with
  | RMin (Len n), JStr x =>
      if (String.length x <? n)%nat then Some "string.min" else None
  | RMax (Len n), JStr x =>
      if (n <? String.length x)%nat then Some "string.max" else None
  | RMin Now, JDate t => if (t <? now)%Z then Some "date.min" else None
  | RMax Now, JDate t => if (now <? t)%Z then Some "date.max" else None
  | _, _ => None
  end.

(** The rules in declaration order; with [abortEarly] the first failure
    ends the loop, otherwise every failure is collected. *)
Fixpoint runRules (p : prefs) (s : schema) (k : String.string)
    (rs : list rule) (v : json) (errors : list detail) : list detail :=
  match rs with
  | [] => errors
  | r :: rest =>
      match ruleError s r v with
      | Some code =>
          let e := createError (s_messages s) [k] k code in
          if abortEarly p then [e]
          else runRules p s k rest v (errors ++ [e])
      | None => runRules p s k rest v errors
      end
  end.

(** Validation of one key: the resulting value ([None] is [undefined])
    and the errors raised for it. *)
Definition validateKey (p : prefs) (k : String.string) (s : schema)
    (item : option json) : option json * list detail :=
  match item with
  | None =>
      if s_required s
      then (None, [createError (s_messages s) [k] k "any.required"])
      else (s_default s, [])
  | Some raw =>
      let v := coerce s raw in
      if inValids s v then (Some v, [])
      else
        let errors :=
          if s_only s then [createError (s_messages s) [k] k "any.only"]
          else [] in
        if s_only s && abortEarly p then (Some v, errors)
        else
          match baseError s v with
          | Some code =>
              (Some v, errors ++ [createError (s_messages s) [k] k code])
          | None => (Some v, runRules p s k (s_rules s) v errors)
          end
  end.

(** The loop over the declared keys of an object schema: [value] is the
    clone being rewritten, [unprocessed] the keys of the input not yet
    visited.  [None] signals the early return taken under [abortEarly]. *)
Fixpoint validateKeys (p : prefs) (ks : list (String.string * schema))
    (value : gmap String.string json) (unprocessed : gset String.string)
    (errors : list detail)
    : gmap String.string json * gset String.string * list detail * bool :=
  match ks with
  | [] => (value, unprocessed, errors, false)
  | (k, s) :: rest =>
      let unprocessed' := unprocessed ∖ {[k]} in
      let '(v, es) := validateKey p k s (value !! k) in
      match es with
      | _ :: _ =>
          if abortEarly p then (value, unprocessed', es, true)
          else
            let value' :=
              match v with Some x => <[k := x]> value | None => value end in
            validateKeys p rest value' unprocessed' (errors ++ es)
      | [] =>
          let value' :=
            match v with
            | Some x => <[k := x]> value
            | None => delete k value
            end in
          validateKeys p rest value' unprocessed' errors
      end
  end.

(** Keys of the input that the schema does not declare: removed under
    [stripUnknown], reported otherwise. *)
Definition unknownKeys (p : prefs) (o : objectSchema)
    (value : gmap String.string json) (unprocessed : gset String.string)
    : gmap String.string json * list detail :=
  if stripUnknown p
  then (filter (fun kv => fst kv ∉ unprocessed) value, [])
  else (value,
        (fun k => createError (o_messages o) [k] k "object.unknown")
          <$> elements unprocessed).

(** [schema.validate(input, prefs)] for an object schema. *)
Definition validate (o : objectSchema) (input : gmap String.string json)
    (p : prefs) : result :=
  let '(value, unprocessed, errors, early) :=
    validateKeys p (o_keys o) input (dom input) [] in
  if early then {| error := Some errors; value := value |}
  else
    let '(value', unknown) := unknownKeys p o value unprocessed in
    match errors ++ (if abortEarly p then List.firstn 1 unknown else unknown) with
    | (_ :: _) as es => {| error := Some es; value := value' |}
    | [] =>
        match o_min o with
        | Some n =>
            if (size value' <? n)%nat
            then {| error := Some [createError (o_messages o) [] "value"
                                     "object.min"];
                    value := value' |}
            else {| error := None; value := value' |}
        | None => {| error := None; value := value' |}
        end
    end.

End Validation.

End Joi.

Notation "s |> f" := (f s) (at level 45, left associativity, only parsing).

(** ** validators/taskValidator.js *)

Definition createTaskSchema : Joi.objectSchema :=
  Joi.object [
    ("title",
      Joi.string |> Joi.trim |> Joi.min (Joi.Len 3) |> Joi.max (Joi.Len 100)
        |> Joi.required
        |> Joi.messages [
             ("string.base", "Title must be a string");
             ("string.empty", "Title is required");
             ("string.min", "Title must be at least 3 characters long");
             ("string.max", "Title cannot be more than 100 characters");
             ("any.required", "Title is required") ]);
    ("description",
      Joi.string |> Joi.trim |> Joi.max (Joi.Len 500) |> Joi.allow [""]
        |> Joi.messages [
             ("string.base", "Description must be a string");
             ("string.max", "Description cannot be more than 500 characters") ]);
    ("category",
      Joi.string |> Joi.trim
        |> Joi.valid ["Work"; "Personal"; "Study"; "Health"; "Other"]
        |> Joi.required
        |> Joi.messages [
             ("string.base", "Category must be a string");
             ("string.empty", "Category is required");
             ("any.required", "Category is required");
             ("any.only",
              "Category must be one of: Work, Personal, Study, Health, Other") ]);
    ("priority",
      Joi.string |> Joi.trim |> Joi.valid ["Low"; "Medium"; "High"]
        |> Joi.required
        |> Joi.messages [
             ("string.base", "Priority must be a string");
             ("string.empty", "Priority is required");
             ("any.required", "Priority is required");
             ("any.only", "Priority must be one of: Low, Medium, High") ]);
    ("deadline",
      Joi.date |> Joi.iso |> Joi.min Joi.Now |> Joi.required
        |> Joi.messages [
             ("date.base", "Deadline must be a valid date");
             ("date.format", "Deadline must be in ISO format (YYYY-MM-DD)");
             ("date.min", "Deadline must be in the future");
             ("any.required", "Deadline is required") ]);
    ("completed",
      Joi.boolean |> Joi.default (JBool false)
        |> Joi.messages [
             ("boolean.base", "Completed must be a boolean value") ])
  ].

Definition updateTaskSchema : Joi.objectSchema :=
  Joi.object [
    ("title",
      Joi.string |> Joi.trim |> Joi.min (Joi.Len 3) |> Joi.max (Joi.Len 100)
        |> Joi.messages [
             ("string.base", "Title must be a string");
             ("string.empty", "Title cannot be empty");
             ("string.min", "Title must be at least 3 characters long");
             ("string.max", "Title cannot be more than 100 characters") ]);
    ("description",
      Joi.string |> Joi.trim |> Joi.max (Joi.Len 500) |> Joi.allow [""]
        |> Joi.messages [
             ("string.base", "Description must be a string");
             ("string.max", "Description cannot be more than 500 characters") ]);
    ("category",
      Joi.string |> Joi.trim
        |> Joi.valid ["Work"; "Personal"; "Study"; "Health"; "Other"]
        |> Joi.messages [
             ("string.base", "Category must be a string");
             ("any.only",
              "Category must be one of: Work, Personal, Study, Health, Other") ]);
    ("priority",
      Joi.string |> Joi.trim |> Joi.valid ["Low"; "Medium"; "High"]
        |> Joi.messages [
             ("string.base", "Priority must be a string");
             ("any.only", "Priority must be one of: Low, Medium, High") ]);
    ("deadline",
      Joi.date |> Joi.iso |> Joi.min Joi.Now
        |> Joi.messages [
             ("date.base", "Deadline must be a valid date");
             ("date.format", "Deadline must be in ISO format (YYYY-MM-DD)");
             ("date.min", "Deadline must be in the future") ]);
    ("completed",
      Joi.boolean
        |> Joi.messages [
             ("boolean.base", "Completed must be a boolean value") ])
  ] |> Joi.objectMin 1
    |> Joi.objectMessages [
         ("object.min", "At least one field must be provided for update") ].

(** ** validators/validateMiddleware.js *)

(** What a middleware does with a request: it answers, or it calls [next()]
    with the (possibly replaced) request property. *)
Inductive middlewareOutcome :=
  | Responded (r : response)
  | Next (property : gmap string json).

Definition validationPrefs : Joi.prefs :=
  {| Joi.abortEarly := false; Joi.stripUnknown := true |}.

Definition formatDetail (d : Joi.detail) : json :=
  JObj [("field", JStr (JsString.join "." (Joi.path d)));
        ("message", JStr (Joi.message d))].

Section Middleware.
Context `{Platform}.

Definition validateRequest (schema : Joi.objectSchema) (now : Z)
    (property : gmap string json) : middlewareOutcome :=
  let r := Joi.validate now schema property validationPrefs in
  match Joi.error r with
  | Some details =>
      Responded {| res_status := 400;
                   res_json := JObj [("status", JStr "error");
                                     ("message", JStr "Validation error");
                                     ("errors", JArr (formatDetail <$> details))] |}
  | None => Next (Joi.value r)
  end.

End Middleware.

(** ** Error objects *)

Module JsError.

(** The class an error is an instance of, as far as [instanceof] tests and
    object spreading can tell. *)
Inductive class :=
  | Error | AppError | CastError | ValidationError | MongoServerError
  | SyntaxError | PlainObject.

(** The properties of an error object that the code reads; [None] is
    [undefined]. *)
Record t := {
  class_of : class;
  message : option string;
  stack : option string;
  statusCode : option Z;
  status : option json;
  isOperational : bool;
  code : option Z;
  body : option string;
  path : option json;
  value : option json;
  errors : option json;
  errmsg : option string
}.

Definition plain (c : class) (m : string) (trace : string) : t :=
  {| class_of := c; message := Some m; stack := Some trace;
     statusCode := None; status := None; isOperational := false;
     code := None; body := None; path := None; value := None;
     errors := None; errmsg := None |}.

End JsError.

Definition truthyJson (v : json) : bool :=
  match v with
  | JNull | JBool false => false
  | JNum n => negb (n =? 0)%Z
  | JStr s => JsString.truthy s
  | _ => true
  end.

(** What a piece of code leaves behind: a value, or a thrown exception. *)
Inductive completion (A : Type) :=
  | Return (x : A)
  | Throw (e : JsError.t).
Arguments Return {A} x.
Arguments Throw {A} e.

(** ** utils/errorHandler.js *)

Section ErrorHandler.
Context `{Platform}.

(** A value interpolated in a template literal. *)
Definition toText (o : option json) : string :=
  match o with
  | None => "undefined"
  | Some JNull => "null"
  | Some (JBool true) => "true"
  | Some (JBool false) => "false"
  | Some (JNum n) => JsString.ofInt n
  | Some (JStr s) => s
  | Some v => js_to_string v
  end.

Definition typeError (m : string) : JsError.t :=
  JsError.plain JsError.Error m (capture_stack m).

Definition AppError (message : string) (statusCode : Z) : JsError.t :=
  {| JsError.class_of := JsError.AppError;
     JsError.message := Some message;
     JsError.stack := Some (capture_stack message);
     JsError.statusCode := Some statusCode;
     JsError.status :=
       Some (JStr (if JsString.startsWith "4" (JsString.ofInt statusCode)
                   then "fail" else "error"));
     JsError.isOperational := true;
     JsError.code := None; JsError.body := None; JsError.path := None;
     JsError.value := None; JsError.errors := None;
     JsError.errmsg := None |}.

(** [res.status(code)] with an undefined code makes the write throw. *)
Definition send (code : option Z) (payload : json) : completion response :=
  match code with
  | Some c => Return {| res_status := c; res_json := payload |}
  | None => Throw (typeError "Invalid status code: undefined")
  end.

Definition handleError (NODE_ENV : option string) (err : JsError.t)
    : completion response :=
  let statusCode := default 500%Z (JsError.statusCode err) in
  let message := default "Something went wrong" (JsError.message err) in
  let status :=
    match JsError.status err with
    | Some s => if truthyJson s then s else JStr "error"
    | None => JStr "error"
    end in
  let errors :=
    match JsError.errors err with
    | Some es => if truthyJson es then Some es else None
    | None => None
    end in
  let trace :=
    if bool_decide (NODE_ENV = Some "development")
    then JStr <$> JsError.stack err else None in
  send (Some statusCode)
       (jsonObject [("status", Some status); ("message", Some (JStr message));
                    ("errors", errors); ("stack", trace)]).

Definition handleCastError (err : JsError.t) : JsError.t :=
  let message :=
    "Invalid " +:+ toText (JsError.path err) +:+ ": "
      +:+ toText (JsError.value err) in
  AppError message 400.

(** The text of an element in [Array.prototype.join]: [undefined] and
    [null] give the empty string. *)
Definition joinText (o : option json) : string :=
  match o with
  | None | Some JNull => ""
  | Some v => toText (Some v)
  end.

(** [Object.values(err.errors).map(val => val.message)], each message as
    [join] renders it; [None] when [Object.values] throws. *)
Definition subMessages (errors : option json) : option (list string) :=
  match errors with
  | Some (JObj kvs) => Some ((fun kv => joinText (getProp "message" (snd kv))) <$> kvs)
  | Some (JArr xs) => Some ((fun x => joinText (getProp "message" x)) <$> xs)
  | Some (JStr s) => Some (replicate (String.length s) "")
  | Some (JNum _ | JBool _ | JDate _) => Some []
  | Some JNull | None => None
  end.

Definition handleValidationError (err : JsError.t) : completion JsError.t :=
  match subMessages (JsError.errors err) with
  | Some errors =>
      let message := "Invalid input data: " +:+ JsString.join ". " errors in
      Return (AppError message 400)
  | None => Throw (typeError "Cannot convert undefined or null to object")
  end.

Definition handleDuplicateFieldError (err : JsError.t) : completion JsError.t :=
  match JsError.errmsg err with
  | Some errmsg =>
      match regexp_first_quoted errmsg with
      | Some value =>
          let message :=
            "Duplicate field value: " +:+ value
              +:+ ". Please use another value." in
          Return (AppError message 400)
      | None => Throw (typeError "Cannot read properties of null (reading '0')")
      end
  | None =>
      Throw (typeError "Cannot read properties of undefined (reading 'match')")
  end.

(** ** middleware/errorMiddleware.js *)

(** [{ ...err }] followed by [error.message = err.message]: a plain object
    with the own enumerable properties; an error's [stack] is not one. *)
Definition spread (err : JsError.t) : JsError.t :=
  {| JsError.class_of := JsError.PlainObject;
     JsError.message := JsError.message err;
     JsError.stack := None;
     JsError.statusCode := JsError.statusCode err;
     JsError.status := JsError.status err;
     JsError.isOperational := JsError.isOperational err;
     JsError.code := JsError.code err;
     JsError.body := JsError.body err;
     JsError.path := JsError.path err;
     JsError.value := JsError.value err;
     JsError.errors := JsError.errors err;
     JsError.errmsg := None |}.

Definition instanceOf (err : JsError.t) (c : JsError.class) : bool :=
  match JsError.class_of err, c with
  | JsError.CastError, JsError.CastError
  | JsError.ValidationError, JsError.ValidationError
  | JsError.SyntaxError, JsError.SyntaxError => true
  | _, _ => false
  end.

Definition errorHandler (NODE_ENV : option string) (err : JsError.t)
    : completion response :=
  let error := spread err in
  let error :=
    if instanceOf err JsError.CastError then handleCastError err else error in
  match (if instanceOf err JsError.ValidationError
         then handleValidationError err else Return error) with
  | Throw e => Throw e
  | Return error =>
      match (if bool_decide (JsError.code err = Some 11000%Z)
             then handleDuplicateFieldError err else Return error) with
      | Throw e => Throw e
      | Return error =>
          if instanceOf err JsError.SyntaxError
             && match JsError.status err with
                | Some (JNum n) => (n =? 400)%Z
                | _ => false
                end
             && bool_decide (is_Some (JsError.body err))
          then
            send (Some 400%Z)
                 (jsonObject
                    [("status", Some (JStr "error"));
                     ("message",
                      Some (JStr ("Invalid JSON: "
                                    +:+ toText (JStr <$> JsError.message err))))])
          else if JsError.isOperational err
          then
            send (JsError.statusCode err)
                 (jsonObject [("status", JsError.status err);
                              ("message", JStr <$> JsError.message err)])
          else handleError NODE_ENV error
      end
  end.

(** The error that [notFound] hands to [next] for an unmatched URL. *)
Definition notFound (originalUrl : string) : JsError.t :=
  let m := "Not Found - " +:+ originalUrl in
  {| JsError.class_of := JsError.Error;
     JsError.message := Some m;
     JsError.stack := Some (capture_stack m);
     JsError.statusCode := Some 404%Z;
     JsError.status := None; JsError.isOperational := false;
     JsError.code := None; JsError.body := None; JsError.path := None;
     JsError.value := None; JsError.errors := None;
     JsError.errmsg := None |}.

End ErrorHandler.

(** ** models/taskModel.js: the Mongoose schema and the Task model *)

(** The collection, with the log of the model operations invoked on it. *)
Record store := {
  documents : list task;
  operations : list string
}.

Definition logged (op : string) (st : store) : store :=
  {| documents := documents st; operations := operations st ++ [op] |}.

Module Schema.

(** The options of a String path; a message accompanies each validator. *)
Record stringPath := {
  required : option string;
  trim : bool;
  maxlength : option (nat * string);
  enum : option (list string * string)
}.

Definition title : stringPath :=
  {| required := Some "Task title is required";
     trim := true;
     maxlength := Some (100, "Task title cannot be more than 100 characters");
     enum := None |}.

Definition description : stringPath :=
  {| required := None;
     trim := true;
     maxlength :=
       Some (500, "Task description cannot be more than 500 characters");
     enum := None |}.

Definition category : stringPath :=
  {| required := Some "Task category is required";
     trim := true;
     maxlength := None;
     enum := Some (["Work"; "Personal"; "Study"; "Health"; "Other"],
                   "Category must be one of: Work, Personal, Study, Health, Other") |}.

Definition priority : stringPath :=
  {| required := Some "Task priority is required";
     trim := false;
     maxlength := None;
     enum := Some (["Low"; "Medium"; "High"],
                   "Priority must be one of: Low, Medium, High") |}.

Definition deadlineRequired : string := "Task deadline is required".
Definition deadlineMessage : string := "Deadline must be a future date".

(** [validator: function(value) { return this.isNew ? value > Date.now() : true; }] *)
Definition deadlineValidator (isNew : bool) (now value : Z) : bool :=
  if isNew then (now <? value)%Z else true.

Definition completedDefault : bool := false.

(** What casting and validating one path yields. *)
Inductive outcome (A : Type) :=
  | Ok (x : A)
  | CastFailure (v : json)
  | Rejected (message : string).
Arguments Ok {A} x.
Arguments CastFailure {A} v.
Arguments Rejected {A} message.

End Schema.

Section TaskModel.
Context `{Platform}.

Definition castString (v : json) : option string :=
  match v with JStr s => Some s | _ => mongoose_cast_string v end.

Definition castDate (v : json) : option Z :=
  match v with JDate t => Some t | _ => mongoose_cast_date v end.

Definition castBoolean (v : json) : option bool :=
  match v with JBool b => Some b | _ => mongoose_cast_boolean v end.

(** The message of the first validator that fails. *)
Fixpoint firstFailure (checks : list (bool * string)) : option string :=
  match checks with
  | [] => None
  | (passed, m) :: rest => if passed then firstFailure rest else Some m
  end.

Definition stringValidators (p : Schema.stringPath) (s : string)
    : list (bool * string) :=
  match Schema.required p with
  | Some m => [(negb (String.eqb s ""), m)]
  | None => []
  end
  ++ match Schema.maxlength p with
     | Some (n, m) => [((String.length s <=? n)%nat, m)]
     | None => []
     end
  ++ match Schema.enum p with
     | Some (vs, m) => [(bool_decide (s ∈ vs), m)]
     | None => []
     end.

(** A String path: cast, setter ([trim]), then the validators in order
    (required, maxlength, enum), stopping at the first that fails.  A
    [null] is treated as a missing value. *)
Definition checkString (p : Schema.stringPath) (v : option json)
    : Schema.outcome (option string) :=
  match v with
  | None | Some JNull =>
      match Schema.required p with
      | Some m => Schema.Rejected m
      | None => Schema.Ok None
      end
  | Some j =>
      match castString j with
      | None => Schema.CastFailure j
      | Some s =>
          let s := if Schema.trim p then JsString.trim s else s in
          match firstFailure (stringValidators p s) with
          | Some m => Schema.Rejected m
          | None => Schema.Ok (Some s)
          end
      end
  end.

Definition checkDeadline (isNew : bool) (now : Z) (v : option json)
    : Schema.outcome (option Z) :=
  match v with
  | None | Some JNull => Schema.Rejected Schema.deadlineRequired
  | Some j =>
      match castDate j with
      | None => Schema.CastFailure j
      | Some t =>
          if Schema.deadlineValidator isNew now t then Schema.Ok (Some t)
          else Schema.Rejected Schema.deadlineMessage
      end
  end.

Definition checkCompleted (v : option json) : Schema.outcome (option bool) :=
  match v with
  | None | Some JNull => Schema.Ok None
  | Some j =>
      match castBoolean j with
      | None => Schema.CastFailure j
      | Some b => Schema.Ok (Some b)
      end
  end.

(** The entry of [ValidationError.errors] for a path that failed. *)
Definition failure {A} (name : string) (o : Schema.outcome A)
    : list (string * json) :=
  match o with
  | Schema.Ok _ => []
  | Schema.CastFailure v =>
      [(name, JObj [("message", JStr (mongoose_cast_message name v))])]
  | Schema.Rejected m => [(name, JObj [("message", JStr m)])]
  end.

Definition validationError (prefix : string) (errors : list (string * json))
    : JsError.t :=
  let m :=
    prefix +:+ ": "
      +:+ JsString.join ", "
            ((fun kv => fst kv +:+ ": " +:+ toText (getProp "message" (snd kv)))
               <$> errors) in
  {| JsError.class_of := JsError.ValidationError;
     JsError.message := Some m;
     JsError.stack := Some (capture_stack m);
     JsError.statusCode := None; JsError.status := None;
     JsError.isOperational := false; JsError.code := None;
     JsError.body := None; JsError.path := None; JsError.value := None;
     JsError.errors := Some (JObj errors);
     JsError.errmsg := None |}.

Definition castError (name : string) (v : json) : JsError.t :=
  let m := mongoose_cast_message name v in
  {| JsError.class_of := JsError.CastError;
     JsError.message := Some m;
     JsError.stack := Some (capture_stack m);
     JsError.statusCode := None; JsError.status := None;
     JsError.isOperational := false; JsError.code := None;
     JsError.body := None; JsError.path := Some (JStr name);
     JsError.value := Some v; JsError.errors := None;
     JsError.errmsg := None |}.

Definition mongoServerError (code : Z) (m : string) : JsError.t :=
  {| JsError.class_of := JsError.MongoServerError;
     JsError.message := Some m;
     JsError.stack := Some (capture_stack m);
     JsError.statusCode := None; JsError.status := None;
     JsError.isOperational := false; JsError.code := Some code;
     JsError.body := None; JsError.path := None; JsError.value := None;
     JsError.errors := None;
     JsError.errmsg := Some m |}.

Definition hasId (id : string) (t : task) : bool := String.eqb (_id t) id.

(** [Task.create(fields)] at time [now], the driver having generated the
    identifier [oid]. *)
Definition Task_create (st : store) (oid : string) (now : Z)
    (fields : gmap string json) : store * completion task :=
  let st := logged "create" st in
  let t := checkString Schema.title (fields !! "title") in
  let d := checkString Schema.description (fields !! "description") in
  let c := checkString Schema.category (fields !! "category") in
  let p := checkString Schema.priority (fields !! "priority") in
  let dl := checkDeadline true now (fields !! "deadline") in
  let co := checkCompleted (fields !! "completed") in
  match t, d, c, p, dl, co with
  | Schema.Ok (Some t), Schema.Ok d, Schema.Ok (Some c), Schema.Ok (Some p),
    Schema.Ok (Some dl), Schema.Ok co =>
      if existsb (hasId oid) (documents st)
      then (st, Throw (mongoServerError 11000
                         ("E11000 duplicate key error collection: tasks index: _id_ dup key: { _id: ObjectId('"
                            +:+ oid +:+ "') }")))
      else
        let doc :=
          {| _id := oid; title := t; description := d; category := c;
             priority := p; deadline := dl;
             completed := default Schema.completedDefault co;
             createdAt := now; updatedAt := now; __v := 0 |} in
        ({| documents := documents st ++ [doc];
            operations := operations st |}, Return doc)
  | _, _, _, _, _, _ =>
      (st, Throw (validationError "Task validation failed"
                    (failure "title" t ++ failure "description" d
                       ++ failure "category" c ++ failure "priority" p
                       ++ failure "deadline" dl ++ failure "completed" co)))
  end.

(** [Task.findById(id)]. *)
Definition Task_findById (st : store) (id : string)
    : store * completion (option task) :=
  let st := logged "findById" st in
  if objectid_valid id
  then (st, Return (List.find (hasId id) (documents st)))
  else (st, Throw (castError "_id" (JStr id))).

(** [Task.findByIdAndDelete(id)]. *)
Definition Task_findByIdAndDelete (st : store) (id : string)
    : store * completion (option task) :=
  let st := logged "findByIdAndDelete" st in
  if objectid_valid id
  then
    match List.find (hasId id) (documents st) with
    | Some t =>
        ({| documents :=
              List.filter (fun d => negb (hasId id d)) (documents st);
            operations := operations st |}, Return (Some t))
    | None => (st, Return None)
    end
  else (st, Throw (castError "_id" (JStr id))).

(** A path of an update: untouched when the update does not name it. *)
Definition updated {A} (check : option json -> Schema.outcome A)
    (v : option json) : Schema.outcome (option A) :=
  match v with
  | None => Schema.Ok None
  | Some _ =>
      match check v with
      | Schema.Ok x => Schema.Ok (Some x)
      | Schema.CastFailure j => Schema.CastFailure j
      | Schema.Rejected m => Schema.Rejected m
      end
  end.

Definition castFailure {A} (name : string) (o : Schema.outcome A)
    : list JsError.t :=
  match o with
  | Schema.CastFailure v => [castError name v]
  | _ => []
  end.

Fixpoint replaceFirst (id : string) (t' : task) (docs : list task) : list task :=
  match docs with
  | [] => []
  | d :: rest => if hasId id d then t' :: rest else d :: replaceFirst id t' rest
  end.

(** [Task.findByIdAndUpdate(id, update, { new: true, runValidators: true })]
    at time [now]: the identifier and the update are cast, the validators
    of the paths being set run (with [this.isNew] not set), and the first
    matching document is rewritten and returned. *)
Definition Task_findByIdAndUpdate (st : store) (now : Z) (id : string)
    (update : gmap string json) : store * completion (option task) :=
  let st := logged "findByIdAndUpdate" st in
  if negb (objectid_valid id) then (st, Throw (castError "_id" (JStr id)))
  else
    let t := updated (checkString Schema.title) (update !! "title") in
    let d := updated (checkString Schema.description) (update !! "description") in
    let c := updated (checkString Schema.category) (update !! "category") in
    let p := updated (checkString Schema.priority) (update !! "priority") in
    let dl := updated (checkDeadline false now) (update !! "deadline") in
    let co := updated checkCompleted (update !! "completed") in
    match castFailure "title" t ++ castFailure "description" d
            ++ castFailure "category" c ++ castFailure "priority" p
            ++ castFailure "deadline" dl ++ castFailure "completed" co with
    | e :: _ => (st, Throw e)
    | [] =>
        match t, d, c, p, dl, co with
        | Schema.Ok t, Schema.Ok d, Schema.Ok c, Schema.Ok p, Schema.Ok dl,
          Schema.Ok co =>
            match List.find (hasId id) (documents st) with
            | None => (st, Return None)
            | Some old =>
                let doc :=
                  {| _id := _id old;
                     title := default (title old) (mjoin t);
                     description := default (description old) d;
                     category := default (category old) (mjoin c);
                     priority := default (priority old) (mjoin p);
                     deadline := default (deadline old) (mjoin dl);
                     completed := default (completed old) (mjoin co);
                     createdAt := createdAt old;
                     updatedAt := now;
                     __v := __v old |} in
                ({| documents := replaceFirst id doc (documents st);
                    operations := operations st |}, Return (Some doc))
            end
        | _, _, _, _, _, _ =>
            (st, Throw (validationError "Validation failed"
                          (failure "title" t ++ failure "description" d
                             ++ failure "category" c ++ failure "priority" p
                             ++ failure "deadline" dl ++ failure "completed" co)))
        end
    end.

(** [doc.toJSON()]. *)
Definition toJSON (t : task) : json :=
  jsonObject [
    ("_id", Some (JStr (_id t)));
    ("title", Some (JStr (title t)));
    ("description", JStr <$> description t);
    ("category", Some (JStr (category t)));
    ("priority", Some (JStr (priority t)));
    ("deadline", Some (JDate (deadline t)));
    ("completed", Some (JBool (completed t)));
    ("createdAt", Some (JDate (createdAt t)));
    ("updatedAt", Some (JDate (updatedAt t)));
    ("__v", Some (JNum (__v t)))
  ].

End TaskModel.

(** ** Queries: [Task.find(...).sort(...).select(...).skip(...).limit(...)] *)

Module Query.

Record t := {
  conditions : gmap string string;
  sortArg : option string;
  selectArg : option string;
  skipArg : option Z;
  limitArg : option Z
}.

Definition find (conditions : gmap string string) : t :=
  {| conditions := conditions; sortArg := None; selectArg := None;
     skipArg := None; limitArg := None |}.

Definition sort (arg : string) (q : t) : t :=
  {| conditions := conditions q; sortArg := Some arg;
     selectArg := selectArg q; skipArg := skipArg q; limitArg := limitArg q |}.

Definition select (arg : string) (q : t) : t :=
  {| conditions := conditions q; sortArg := sortArg q;
     selectArg := Some arg; skipArg := skipArg q; limitArg := limitArg q |}.

Definition skip (n : Z) (q : t) : t :=
  {| conditions := conditions q; sortArg := sortArg q;
     selectArg := selectArg q; skipArg := Some n; limitArg := limitArg q |}.

Definition limit (n : Z) (q : t) : t :=
  {| conditions := conditions q; sortArg := sortArg q;
     selectArg := selectArg q; skipArg := skipArg q; limitArg := Some n |}.

Inductive sortOrder := Ascending | Descending.

(** A space-separated sort argument: a leading [-] asks for descending
    order. *)
Definition parseSort (arg : string) : list (string * sortOrder) :=
  (fun w => match w with
            | String "-"%char f => (f, Descending)
            | _ => (w, Ascending)
            end) <$> String.words arg.

Definition compareOption {A} (cmp : A -> A -> comparison)
    (x y : option A) : comparison :=
  match x, y with
  | None, None => Eq
  | None, Some _ => Lt
  | Some _, None => Gt
  | Some a, Some b => cmp a b
  end.

(** The order of the store on the values of one field; a field that no
    document has compares equal. *)
Definition compareField (f : string) (a b : task) : comparison :=
  if String.eqb f "_id" then String.compare (_id a) (_id b)
  else if String.eqb f "title" then String.compare (title a) (title b)
  else if String.eqb f "description"
  then compareOption String.compare (description a) (description b)
  else if String.eqb f "category" then String.compare (category a) (category b)
  else if String.eqb f "priority" then String.compare (priority a) (priority b)
  else if String.eqb f "deadline" then Z.compare (deadline a) (deadline b)
  else if String.eqb f "completed"
  then Bool.compare (completed a) (completed b)
  else if String.eqb f "createdAt" then Z.compare (createdAt a) (createdAt b)
  else if String.eqb f "updatedAt" then Z.compare (updatedAt a) (updatedAt b)
  else if String.eqb f "__v" then Z.compare (__v a) (__v b)
  else Eq.

Fixpoint compareBy (spec : list (string * sortOrder)) (a b : task) : comparison :=
  match spec with
  | [] => Eq
  | (f, o) :: rest =>
      match (match o with
             | Ascending => compareField f a b
             | Descending => CompOpp (compareField f a b)
             end) with
      | Eq => compareBy rest a b
      | c => c
      end
  end.

Definition precedes (spec : list (string * sortOrder)) (a b : task) : Prop :=
  compareBy spec a b <> Gt.

#[global] Instance precedes_dec spec : RelDecision (precedes spec).
Proof. intros a b. unfold precedes. solve_decision. Defined.

(** A space-separated projection argument: either names to leave out
    (leading [-]) or names to keep ([_id] stays unless left out); the
    store refuses any other mix. *)
Definition parseSelect (arg : string) : option (list (string * json) -> list (string * json)) :=
  let ws := String.words arg in
  let excluded :=
    omap (fun w => match w with String "-"%char f => Some f | _ => None end) ws in
  let included :=
    List.filter (fun w => negb (JsString.startsWith "-" w)) ws in
  match included with
  | [] => Some (List.filter (fun kv => negb (bool_decide (fst kv ∈ excluded))))
  | _ :: _ =>
      if forallb (fun f => String.eqb f "_id") excluded
      then Some (List.filter (fun kv =>
                   bool_decide (fst kv ∈ included)
                   || (String.eqb (fst kv) "_id"
                         && negb (bool_decide ("_id" ∈ excluded)))))
      else None
  end.

Definition project (keep : list (string * json) -> list (string * json))
    (doc : json) : json :=
  match doc with
  | JObj kvs => JObj (keep kvs)
  | _ => doc
  end.

Section Exec.
Context `{Platform}.

(** The conditions of a filter, cast one by one. *)
Fixpoint castConditions (cs : list (string * string))
    : (string * string) + list (task -> bool) :=
  match cs with
  | [] => inr []
  | (k, v) :: rest =>
      match mongoose_cast_condition k v with
      | None => inl (k, v)
      | Some test =>
          match castConditions rest with
          | inl bad => inl bad
          | inr tests => inr (test :: tests)
          end
      end
  end.

Definition window (skipArg limitArg : option Z) (docs : list task) : list task :=
  let rest := List.skipn (Z.to_nat (default 0%Z skipArg)) docs in
  match limitArg with
  | None | Some 0%Z => rest
  | Some n => List.firstn (Z.to_nat (Z.abs n)) rest
  end.

(** [await query]: the documents that satisfy every condition, in the
    requested order (documents that the order does not tell apart come as
    merge sort leaves them), after skipping and limiting, each projected.
    The store refuses a negative skip and reads a negative limit as its
    absolute value. *)
Definition exec (st : store) (q : t) : store * completion (list json) :=
  let st := logged "find" st in
  match castConditions (map_to_list (conditions q)) with
  | inl (k, v) => (st, Throw (castError k (JStr v)))
  | inr tests =>
      match parseSelect (default "" (selectArg q)) with
      | None =>
          (st, Throw (mongoServerError 31254
                        "Cannot mix inclusion and exclusion in projection"))
      | Some keep =>
          if (default 0 (skipArg q) <? 0)%Z
          then (st, Throw (mongoServerError 51024
                             "BSON field 'skip' value must be >= 0"))
          else
            let matching :=
              List.filter (fun d => forallb (fun test => test d) tests)
                          (documents st) in
            let sorted :=
              merge_sort (precedes (parseSort (default "" (sortArg q))))
                         matching in
            (st, Return (project keep ∘ toJSON
                           <$> window (skipArg q) (limitArg q) sorted))
      end
  end.

End Exec.

End Query.

(** ** controllers/taskController.js

    A controller runs under [asyncHandler]: it leaves a response, or an error
    that is handed to [next] (whether thrown, or raised by a rejected model
    operation, or passed explicitly).  Both cases are a [completion]. *)

Section Controllers.
Context `{Platform}.

Definition success (extra : list (string * option json)) (data : json) : json :=
  jsonObject ([("status", Some (JStr "success"))] ++ extra ++ [("data", Some data)]).

(** POST /tasks *)
Definition createTask (st : store) (oid : string) (now : Z)
    (body : gmap string json) : store * completion response :=
  match Task_create st oid now body with
  | (st, Throw e) => (st, Throw e)
  | (st, Return task) =>
      (st, send (Some 201%Z) (success [] (JObj [("task", toJSON task)])))
  end.

Definition excludedFields : list string := ["page"; "sort"; "limit"; "fields"].

(** [a || b] on the result of [parseInt]: NaN and 0 are falsy. *)
Definition orElse (n : option Z) (d : Z) : Z :=
  match n with
  | None | Some 0%Z => d
  | Some v => v
  end.

(** The query that [getAllTasks] builds from [req.query]. *)
Definition buildQuery (query : gmap string string) : Query.t :=
  let queryObj := foldl (fun obj field => delete field obj) query excludedFields in
  let q := Query.find queryObj in
  let q :=
    match query !! "sort" with
    | Some s =>
        if JsString.truthy s
        then Query.sort (JsString.join " " (JsString.split "," s)) q
        else Query.sort "deadline" q
    | None => Query.sort "deadline" q
    end in
  let q :=
    match query !! "fields" with
    | Some s =>
        if JsString.truthy s
        then Query.select (JsString.join " " (JsString.split "," s)) q
        else Query.select "-__v" q
    | None => Query.select "-__v" q
    end in
  let page := orElse (query !! "page" ≫= JsString.parseInt) 1 in
  let limit := orElse (query !! "limit" ≫= JsString.parseInt) 10 in
  let skip := ((page - 1) * limit)%Z in
  q |> Query.skip skip |> Query.limit limit.

(** GET /tasks *)
Definition getAllTasks (st : store) (query : gmap string string)
    : store * completion response :=
  match Query.exec st (buildQuery query) with
  | (st, Throw e) => (st, Throw e)
  | (st, Return tasks) =>
      (st, send (Some 200%Z)
                (success [("results", Some (JNum (Z.of_nat (length tasks))))]
                         (JObj [("tasks", JArr tasks)])))
  end.

(** GET /tasks/:id *)
Definition getTaskById (st : store) (id : string) : store * completion response :=
  match Task_findById st id with
  | (st, Throw e) => (st, Throw e)
  | (st, Return None) => (st, Throw (AppError "Task not found" 404))
  | (st, Return (Some task)) =>
      (st, send (Some 200%Z) (success [] (JObj [("task", toJSON task)])))
  end.

(** PUT /tasks/:id *)
Definition updateTask (st : store) (now : Z) (id : string)
    (body : gmap string json) : store * completion response :=
  match Task_findByIdAndUpdate st now id body with
  | (st, Throw e) => (st, Throw e)
  | (st, Return None) => (st, Throw (AppError "Task not found" 404))
  | (st, Return (Some task)) =>
      (st, send (Some 200%Z) (success [] (JObj [("task", toJSON task)])))
  end.

(** DELETE /tasks/:id *)
Definition deleteTask (st : store) (id : string) : store * completion response :=
  match Task_findByIdAndDelete st id with
  | (st, Throw e) => (st, Throw e)
  | (st, Return None) => (st, Throw (AppError "Task not found" 404))
  | (st, Return (Some _)) => (st, send (Some 204%Z) (success [] JNull))
  end.

(** ** routes/taskRoutes.js and app.js

    A request goes through the route's middleware and controller; an error
    handed to [next] reaches [errorHandler], installed last.  [validatedAt]
    is the time at which the body is validated and [now] the time at which
    the model operation runs. *)

Definition handled (NODE_ENV : option string) (r : store * completion response)
    : store * completion response :=
  match r with
  | (st, Throw e) => (st, errorHandler NODE_ENV e)
  | (st, Return res) => (st, Return res)
  end.

(** router.post('/', validateRequest(createTaskSchema), createTask) *)
Definition postTasks (NODE_ENV : option string) (st : store) (oid : string)
    (validatedAt now : Z) (body : gmap string json) : store * completion response :=
  match validateRequest createTaskSchema validatedAt body with
  | Responded res => (st, Return res)
  | Next body => handled NODE_ENV (createTask st oid now body)
  end.

(** router.get('/', getAllTasks) *)
Definition getTasks (NODE_ENV : option string) (st : store)
    (query : gmap string string) : store * completion response :=
  handled NODE_ENV (getAllTasks st query).

(** router.get('/:id', getTaskById) *)
Definition getTask (NODE_ENV : option string) (st : store) (id : string)
    : store * completion response :=
  handled NODE_ENV (getTaskById st id).

(** router.put('/:id', validateRequest(updateTaskSchema), updateTask) *)
Definition putTask (NODE_ENV : option string) (st : store) (id : string)
    (validatedAt now : Z) (body : gmap string json) : store * completion response :=
  match validateRequest updateTaskSchema validatedAt body with
  | Responded res => (st, Return res)
  | Next body => handled NODE_ENV (updateTask st now id body)
  end.

(** router.delete('/:id', deleteTask) *)
Definition deleteTaskRoute (NODE_ENV : option string) (st : store) (id : string)
    : store * completion response :=
  handled NODE_ENV (deleteTask st id).

(** The errors that reach [errorHandler] from outside the controllers: a
    body that [express.json()] cannot parse, and an unmatched URL. *)
Definition malformedJson (m : string) (raw : string) : JsError.t :=
  {| JsError.class_of := JsError.SyntaxError;
     JsError.message := Some m;
     JsError.stack := Some (capture_stack m);
     JsError.statusCode := Some 400%Z;
     JsError.status := Some (JNum 400);
     JsError.isOperational := false;
     JsError.code := None; JsError.body := Some raw; JsError.path := None;
     JsError.value := None; JsError.errors := None;
     JsError.errmsg := None |}.

End Controllers.

(** ** Express: the parsed query string

    Express 4 parses the query string with its default (extended) parser: a
    parameter given once is a string, a repeated parameter is an array and
    a bracketed one ([priority[$ne]=Low]) an object. *)

Inductive qvalue : Type :=
  | QStr (s : string)
  | QArr (items : list qvalue)
  | QObj (props : list (string * qvalue)).



Module ListQuery.

(** The query under construction, with the filter as the controller hands
    it to [Task.find]. *)
Record t := {
  conditions : gmap string qvalue;
  sortArg : option string;
  selectArg : option string;
  skipArg : option Z;
  limitArg : option Z
}.

Definition find (conditions : gmap string qvalue) : t :=
  {| conditions := conditions; sortArg := None; selectArg := None;
     skipArg := None; limitArg := None |}.

Definition sort (arg : string) (q : t) : t :=
  {| conditions := conditions q; sortArg := Some arg;
     selectArg := selectArg q; skipArg := skipArg q; limitArg := limitArg q |}.

Definition select (arg : string) (q : t) : t :=
  {| conditions := conditions q; sortArg := sortArg q;
     selectArg := Some arg; skipArg := skipArg q; limitArg := limitArg q |}.

Definition skip (n : Z) (q : t) : t :=
  {| conditions := conditions q; sortArg := sortArg q;
     selectArg := selectArg q; skipArg := Some n; limitArg := limitArg q |}.

Definition limit (n : Z) (q : t) : t :=
  {| conditions := conditions q; sortArg := sortArg q;
     selectArg := selectArg q; skipArg := skipArg q; limitArg := Some n |}.


End ListQuery.

Section ParsedQuery.
Context `{Platform}.



End ParsedQuery.

(** ** Rejected model operations

    A model operation is a promise.  The definitions of the Task model
    above are those of a store that carries the operation out; the driver
    can also reject the promise (no connection, a time-out, a server
    error), and the controller, which awaits it under [asyncHandler],
    then hands the driver's error to [next]. *)



Section Awaiting.
Context `{Platform}.











End Awaiting.

(** ** A concrete platform and concrete requests

    One way of filling the [Platform] interface, on which the operations can
    be run: two ISO dates are recognised, identifiers are 24 hexadecimal
    digits, and no value is coerced across types. *)

Module Sample.

Definition isHex (c : ascii) : bool :=
  let n := nat_of_ascii c in
  ((48 <=? n) && (n <=? 57) || (97 <=? n) && (n <=? 102)
     || (65 <=? n) && (n <=? 70))%nat.

Fixpoint allHex (s : string) : bool :=
  match s with
  | EmptyString => true
  | String c s' => isHex c && allHex s'
  end.

Fixpoint upTo (q : ascii) (s : string) : option string :=
  match s with
  | EmptyString => None
  | String c s' =>
      if Ascii.eqb c q then Some (String c EmptyString)
      else String c <$> upTo q s'
  end.

Fixpoint firstQuoted (s : string) : option string :=
  match s with
  | EmptyString => None
  | String c s' =>
      if Ascii.eqb c "'"%char || Ascii.eqb c (ascii_of_nat 34)
      then match upTo c s' with
           | Some r => Some (String c r)
           | None => firstQuoted s'
           end
      else firstQuoted s'
  end.

Definition platform : Platform :=
  {| joi_parse_date := fun _ v =>
       match v with
       | JStr "2030-01-01T00:00:00.000Z" => Some 1893456000000%Z
       | JStr "2020-01-01T00:00:00.000Z" => Some 1577836800000%Z
       | _ => None
       end;
     joi_default_message := fun code label => label +:+ " is invalid (" +:+ code +:+ ")";
     regexp_first_quoted := firstQuoted;
     objectid_valid := fun s => (String.length s =? 24)%nat && allHex s;
     mongoose_cast_string := fun _ => None;
     mongoose_cast_date := fun _ => None;
     mongoose_cast_boolean := fun _ => None;
     mongoose_cast_message := fun name _ => "Cast failed at path " +:+ name;
     mongoose_cast_condition := fun k v =>
       if String.eqb k "category" then Some (fun t => String.eqb (category t) v)
       else if String.eqb k "priority" then Some (fun t => String.eqb (priority t) v)
       else Some (fun _ => false);
     js_to_string := fun _ => "[object]";
     capture_stack := fun m => "Error: " +:+ m +:+ " at <anonymous>" |}.

(** 2026-01-01T00:00:00.000Z *)
Definition now : Z := 1767225600000.

Definition taskDue (id title : string) (deadline : Z) : task :=
  {| _id := id; title := title; description := None; category := "Work";
     priority := "Medium"; deadline := deadline; completed := false;
     createdAt := 1700000000000; updatedAt := 1700000000000; __v := 0 |}.

Definition id1 : string := "65a000000000000000000001".
Definition id2 : string := "65a000000000000000000002".

Definition emptyStore : store := {| documents := []; operations := [] |}.

Definition oneTask : store :=
  {| documents := [taskDue id1 "Test Task" 1893456000000]; operations := [] |}.

(** Eleven tasks with deadlines 11, 10, ..., 1 days after [now]. *)
Definition elevenTasks : store :=
  {| documents :=
       (fun n => taskDue ("65a0000000000000000000" +:+ JsString.ofInt (Z.of_nat (n + 10)))
                      "Task" (now + Z.of_nat (11 - n) * 86400000)%Z)
         <$> seq 0 11;
     operations := [] |}.

Definition validBody : gmap string json :=
  {[ "title" := JStr "  Test Task ";
     "description" := JStr "This is a test task";
     "category" := JStr "Work";
     "priority" := JStr "Medium";
     "deadline" := JStr "2030-01-01T00:00:00.000Z";
     "owner" := JStr "nobody" ]}.

Definition badPriorityBody : gmap string json :=
  <["priority" := JStr "InvalidPriority"]> validBody.

Definition pastDeadlineUpdate : gmap string json :=
  {[ "title" := JStr "Updated Task";
     "deadline" := JStr "2020-01-01T00:00:00.000Z" ]}.

End Sample.

(** * Vocabulary of the statements *)

(** The errors that the keys of a schema raise on an input, each key judged
    on its own, in declaration order. *)
Definition keyErrors `{Platform} (now : Z) (p : Joi.prefs)
    (input : gmap string json) (ks : list (string * Joi.schema)) : list Joi.detail :=
  flat_map (fun ks => snd (Joi.validateKey now p (fst ks) (snd ks) (input !! fst ks))) ks.

(** The schema declared for a key. *)
Definition lookupKey (ks : list (string * Joi.schema)) (k : string) : option Joi.schema :=
  snd <$> List.find (fun p => String.eqb (fst p) k) ks.

(** The 400 response of the middleware for a list of error details. *)
Definition validationFailure (details : list Joi.detail) : response :=
  {| res_status := 400;
     res_json := JObj [("status", JStr "error");
                       ("message", JStr "Validation error");
                       ("errors", JArr (formatDetail <$> details))] |}.

(** The schema a key is declared with. *)
Definition keySchema (o : Joi.objectSchema) (k : string) : Joi.schema :=
  default Joi.string (lookupKey (Joi.o_keys o) k).

Definition taskKeys : list string :=
  ["title"; "description"; "category"; "priority"; "deadline"; "completed"].

(** Membership of a literal key in a literal list of keys. *)
Ltac key_in := apply (bool_decide_unpack _); vm_compute; exact I.

(** The instant a submitted deadline denotes for Joi's ISO date type. *)
Definition deadlineInstant `{Platform} (v : json) : option Z :=
  match v with
  | JDate t => Some t
  | JStr _ | JNum _ => joi_parse_date (Some "iso") v
  | _ => None
  end.

(** The boolean a submitted flag denotes for Joi's boolean type. *)
Definition completedFlag (v : json) : option bool :=
  match v with
  | JBool b => Some b
  | JStr x =>
      let n := JsString.toLowerCase x in
      if String.eqb n "true" then Some true
      else if String.eqb n "false" then Some false
      else None
  | _ => None
  end.

Definition categories : list string := ["Work"; "Personal"; "Study"; "Health"; "Other"].
Definition priorities : list string := ["Low"; "Medium"; "High"].

(** A create payload that meets the data model at a given time: a title of
    3 to 100 characters and, if any, a description of at most 500
    characters, both once trimmed; a category and a priority of their
    enumerations; a deadline strictly after that time; and, if any, a
    completion flag that reads as a boolean. *)
Definition validCreate `{Platform} (now : Z) (body : gmap string json) : bool :=
  match body !! "title" with
  | Some (JStr s) =>
      (3 <=? String.length (JsString.trim s))%nat
      && (String.length (JsString.trim s) <=? 100)%nat
  | _ => false
  end
  && match body !! "description" with
     | None => true
     | Some (JStr s) => (String.length (JsString.trim s) <=? 500)%nat
     | Some _ => false
     end
  && match body !! "category" with
     | Some (JStr s) => bool_decide (JsString.trim s ∈ categories)
     | _ => false
     end
  && match body !! "priority" with
     | Some (JStr s) => bool_decide (JsString.trim s ∈ priorities)
     | _ => false
     end
  && match body !! "deadline" ≫= deadlineInstant with
     | Some t => (now <? t)%Z
     | None => false
     end
  && match body !! "completed" with
     | None => true
     | Some flag => bool_decide (is_Some (completedFlag flag))
     end.

Definition taskSchemaFor (forUpdate : bool) : Joi.objectSchema :=
  if forUpdate then updateTaskSchema else createTaskSchema.

(** The errors a task payload raises for one key of the schema. *)
Definition violations `{Platform} (now : Z) (forUpdate : bool)
    (raw : gmap string json) (k : string) : list Joi.detail :=
  snd (Joi.validateKey now validationPrefs k
         (keySchema (taskSchemaFor forUpdate) k) (raw !! k)).

(** The entry of the [errors] array for a field and a message. *)
Definition errorEntry (field message : string) : json :=
  JObj [("field", JStr field); ("message", JStr message)].

(** The errors that the translation recognises: a cast error, a storage
    validation error, a duplicate key whose message quotes the value, and an
    operational error built by [AppError] with an HTTP status code. *)
Inductive translated `{Platform} : JsError.t -> Prop :=
  | translated_cast name v : translated (castError name v)
  | translated_validation prefix errors :
      translated (validationError prefix errors)
  | translated_duplicate m :
      is_Some (regexp_first_quoted m) -> translated (mongoServerError 11000 m)
  | translated_operational m c :
      (100 <= c <= 999)%Z -> translated (AppError m c).

Definition is4xx (code : Z) : Prop := (400 <= code <= 499)%Z.

Definition notFoundResponse : response :=
  {| res_status := 404;
     res_json := JObj [("status", JStr "fail"); ("message", JStr "Task not found")] |}.

Definition taskResponse `{Platform} (code : Z) (t : task) : response :=
  {| res_status := code;
     res_json := JObj [("status", JStr "success");
                       ("data", JObj [("task", toJSON t)])] |}.

Definition deletedResponse : response :=
  {| res_status := 204;
     res_json := JObj [("status", JStr "success"); ("data", JNull)] |}.

(** The answer to a lookup by identifier: 404 when the repository returns
    nothing, the success envelope with the task otherwise. *)
Definition answer `{Platform} (o : option task) : response :=
  match o with
  | None => notFoundResponse
  | Some t => taskResponse 200 t
  end.

Definition reserved : list string := ["page"; "sort"; "limit"; "fields"].

(** A control parameter counts as given when it has a non-empty value. *)
Definition given (o : option string) : option string :=
  match o with
  | Some s => if decide (s = "") then None else Some s
  | None => None
  end.

(** A comma-separated list handed over as a space-separated one. *)
Fixpoint commaSeparated (s : string) : string :=
  match s with
  | EmptyString => EmptyString
  | String c s' =>
      String (if Ascii.eqb c ","%char then " "%char else c) (commaSeparated s')
  end.


(** The non-empty items of a comma-separated list. *)
Definition items (s : string) : list string :=
  List.filter JsString.truthy (JsString.split "," s).



(** A number given in base 10, or the default when it is missing, not a
    number, or zero. *)
Definition numberOr (d : Z) (o : option string) : Z :=
  let n := default 0%Z (o ≫= JsString.parseInt) in
  if (n =? 0)%Z then d else n.

(** The list query in the specification's words: the filter is the query
    mapping without the reserved keys, the sort and the projection are the
    comma-separated values given or else [deadline] and everything but the
    version key, and skip is (page - 1) * limit with page 1 and limit 10 by
    default. *)
Definition specifiedQuery (query : gmap string string) : Query.t :=
  let page := numberOr 1 (query !! "page") in
  let limit := numberOr 10 (query !! "limit") in
  {| Query.conditions := filter (fun kv => fst kv ∉ reserved) query;
     Query.sortArg :=
       Some (from_option commaSeparated "deadline" (given (query !! "sort")));
     Query.selectArg :=
       Some (from_option commaSeparated "-__v" (given (query !! "fields")));
     Query.skipArg := Some ((page - 1) * limit)%Z;
     Query.limitArg := Some limit |}.

(** A task as the default projection lists it: every field but [__v]. *)
Definition listed (t : task) : json :=
  jsonObject [
    ("_id", Some (JStr (_id t)));
    ("title", Some (JStr (title t)));
    ("description", JStr <$> description t);
    ("category", Some (JStr (category t)));
    ("priority", Some (JStr (priority t)));
    ("deadline", Some (JDate (deadline t)));
    ("completed", Some (JBool (completed t)));
    ("createdAt", Some (JDate (createdAt t)));
    ("updatedAt", Some (JDate (updatedAt t)))
  ].

Definition listResponse (page : list task) : response :=
  {| res_status := 200;
     res_json := JObj [("status", JStr "success");
                       ("results", JNum (Z.of_nat (length page)));
                       ("data", JObj [("tasks", JArr (listed <$> page))])] |}.

(** The sort that the list controller asks for by default. *)
Definition byDeadline : list (string * Query.sortOrder) :=
  [("deadline", Query.Ascending)].

(** ** Vocabulary of the further properties *)

(** An error response with the status string [fail], a status code and a
    message. *)
Definition failsWith (code : Z) (message : string) (res : response) : Prop :=
  res_status res = code
  /\ getProp "status" (res_json res) = Some (JStr "fail")
  /\ getProp "message" (res_json res) = Some (JStr message).

(** The answer of the generic handler to an error that was translated into
    a 400: the trace is part of the body in development. *)
Definition badRequest `{Platform} (NODE_ENV : option string)
    (message : string) : response :=
  {| res_status := 400;
     res_json :=
       jsonObject [("status", Some (JStr "fail"));
                   ("message", Some (JStr message));
                   ("stack", if bool_decide (NODE_ENV = Some "development")
                             then Some (JStr (capture_stack message)) else None)] |}.

(** The answer to a request whose identifier is not a well-formed one. *)
Definition malformedIdResponse `{Platform} (NODE_ENV : option string)
    (id : string) : response :=
  badRequest NODE_ENV ("Invalid _id: " +:+ id).

(** The refusal of the middleware with the given entries. *)
Definition refusedWith (entries : list json) : response :=
  {| res_status := 400;
     res_json := JObj [("status", JStr "error");
                       ("message", JStr "Validation error");
                       ("errors", JArr entries)] |}.

(** The middleware refuses a payload and reports a message for a field. *)
Definition reports `{Platform} (now : Z) (forUpdate : bool)
    (body : gmap string json) (field message : string) : Prop :=
  exists entries,
    validateRequest (taskSchemaFor forUpdate) now body
    = Responded (refusedWith entries)
    /\ errorEntry field message ∈ entries.

(** The string fields, each with the message of the entry reported when its
    value is not a string. *)
Definition stringFields : list (string * string) :=
  [("title", "Title must be a string");
   ("description", "Description must be a string");
   ("category", "Category must be a string");
   ("priority", "Priority must be a string")].

(** The fields a create payload must carry, each with the message of the
    entry reported when it is missing. *)
Definition requiredFields : list (string * string) :=
  [("title", "Title is required"); ("category", "Category is required");
   ("priority", "Priority is required"); ("deadline", "Deadline is required")].

(** What the storage schema guarantees of a stored task. *)
Definition conforming (t : task) : Prop :=
  title t <> "" /\ (String.length (title t) <= 100)%nat
  /\ JsString.trim (title t) = title t
  /\ (forall d, description t = Some d ->
        (String.length d <= 500)%nat /\ JsString.trim d = d)
  /\ category t ∈ categories
  /\ priority t ∈ priorities.

(** The identifiers of the stored documents. *)
Definition identifiers (st : store) : list string := _id <$> documents st.

(** The documents that a list request with the given parameters takes out
    of the documents that match, once sorted. *)
Definition pageOf (query : gmap string string) (sorted : list task) : list task :=
  Query.window (Query.skipArg (buildQuery query))
               (Query.limitArg (buildQuery query)) sorted.

(** The success envelope of a list of projected tasks. *)
Definition listEnvelope (tasks : list json) : response :=
  {| res_status := 200;
     res_json := JObj [("status", JStr "success");
                       ("results", JNum (Z.of_nat (length tasks)));
                       ("data", JObj [("tasks", JArr tasks)])] |}.

(** The entry of [ValidationError.errors] for a path and the message of the
    validator that failed on it. *)
Definition pathFailure (pm : string * string) : string * json :=
  (fst pm, JObj [("message", JStr (snd pm))]).





(** The task that a response carries in [data.task], and a property of
    it. *)
Definition taskOf (res : response) : option json :=
  getProp "data" (res_json res) ≫= getProp "task".

Definition taskField (k : string) (res : response) : option json :=
  taskOf res ≫= getProp k.

(** ** The validation contract in the specification's words

    What the specification asks of each field of a task payload, stated
    without reference to the validation engine: the messages of the
    problems of a field, in the order they are reported, and the value
    that goes on when the field has no problem. *)

Definition requiredProblem (forUpdate : bool) (label : string) : list string :=
  if forUpdate then [] else [label +:+ " is required"].

(** A title is a string of 3 to 100 characters once trimmed. *)
Definition titleProblems (forUpdate : bool) (v : option json) : list string :=
  match v with
  | None => requiredProblem forUpdate "Title"
  | Some (JStr s) =>
      let t := JsString.trim s in
      if String.eqb t ""
      then [if forUpdate then "Title cannot be empty" else "Title is required"]
      else (if (String.length t <? 3)%nat
            then ["Title must be at least 3 characters long"] else [])
           ++ (if (100 <? String.length t)%nat
               then ["Title cannot be more than 100 characters"] else [])
  | Some _ => ["Title must be a string"]
  end.

(** A description is optional: a string of at most 500 characters once
    trimmed, possibly empty. *)
Definition descriptionProblems (v : option json) : list string :=
  match v with
  | None => []
  | Some (JStr s) =>
      if (500 <? String.length (JsString.trim s))%nat
      then ["Description cannot be more than 500 characters"] else []
  | Some _ => ["Description must be a string"]
  end.

(** A category or a priority is, once trimmed, a member of its enumeration;
    an empty one is reported twice on create, and on update with the
    built-in message of the engine for the second entry. *)
Definition choiceProblems `{Platform} (forUpdate : bool) (k label listing : string)
    (choices : list string) (v : option json) : list string :=
  match v with
  | None => requiredProblem forUpdate label
  | Some (JStr s) =>
      let t := JsString.trim s in
      if bool_decide (t ∈ choices) then []
      else (label +:+ " must be one of: " +:+ listing)
           :: (if String.eqb t ""
               then [if forUpdate then joi_default_message "string.empty" k
                     else label +:+ " is required"]
               else [])
  | Some _ => [label +:+ " must be one of: " +:+ listing;
               label +:+ " must be a string"]
  end.

(** A deadline is a date in ISO format, not before the time of validation. *)
Definition deadlineProblems `{Platform} (now : Z) (forUpdate : bool)
    (v : option json) : list string :=
  match v with
  | None => requiredProblem forUpdate "Deadline"
  | Some raw =>
      match deadlineInstant raw with
      | Some t => if (t <? now)%Z then ["Deadline must be in the future"] else []
      | None =>
          [match raw with
           | JStr _ => "Deadline must be in ISO format (YYYY-MM-DD)"
           | _ => "Deadline must be a valid date"
           end]
      end
  end.

(** A completion flag is optional: a boolean, or the text of one. *)
Definition completedProblems (v : option json) : list string :=
  match v with
  | None => []
  | Some raw =>
      match completedFlag raw with
      | Some _ => []
      | None => ["Completed must be a boolean value"]
      end
  end.

Definition specifiedProblems `{Platform} (now : Z) (forUpdate : bool)
    (k : string) (v : option json) : list string :=
  if String.eqb k "title" then titleProblems forUpdate v
  else if String.eqb k "description" then descriptionProblems v
  else if String.eqb k "category"
  then choiceProblems forUpdate k "Category"
         "Work, Personal, Study, Health, Other" categories v
  else if String.eqb k "priority"
  then choiceProblems forUpdate k "Priority" "Low, Medium, High" priorities v
  else if String.eqb k "deadline" then deadlineProblems now forUpdate v
  else if String.eqb k "completed" then completedProblems v
  else [].

(** The sanitized value of a field: strings trimmed, the deadline as a
    date, the flag as a boolean, [false] by default on create; a key
    outside the schema is dropped. *)
Definition specifiedValue `{Platform} (forUpdate : bool) (k : string)
    (v : option json) : option json :=
  if String.eqb k "deadline" then JDate <$> (v ≫= deadlineInstant)
  else if String.eqb k "completed"
  then match v with
       | None => if forUpdate then None else Some (JBool false)
       | Some raw => JBool <$> completedFlag raw
       end
  else if bool_decide (k ∈ taskKeys)
  then match v with
       | Some (JStr s) => Some (JStr (JsString.trim s))
       | _ => None
       end
  else None.

(** The entries of a refusal: one for every problem of every field, in the
    order of the schema; when no field has a problem, an update that names
    no field of the schema has the single entry of the payload as a
    whole. *)
Definition specifiedEntries `{Platform} (now : Z) (forUpdate : bool)
    (raw : gmap string json) : list json :=
  match flat_map (fun k => errorEntry k <$> specifiedProblems now forUpdate k (raw !! k))
                 taskKeys with
  | [] =>
      if forUpdate
         && forallb (fun k => match raw !! k with None => true | Some _ => false end)
                    taskKeys
      then [errorEntry "" "At least one field must be provided for update"]
      else []
  | es => es
  end.

(** * Properties *)

(** ** JavaScript strings *)

Lemma trimEnd_idempotent (s : string) :
  JsString.trimEnd (JsString.trimEnd s) = JsString.trimEnd s.
Proof.
  induction s as [|c s IH]; simpl; [reflexivity|].
  destruct (JsString.trimEnd s) as [|d r] eqn:E.
  - destruct (Ascii.is_space c) eqn:Hc; simpl; [reflexivity|].
    rewrite Hc. reflexivity.
  - change (JsString.trimEnd (String c (String d r)))
      with (match JsString.trimEnd (String d r) with
            | EmptyString =>
                if Ascii.is_space c then EmptyString else String c EmptyString
            | r' => String c r'
            end).
    rewrite IH. reflexivity.
Qed.

Lemma trimStart_unspaced (c : ascii) (s : string) :
  Ascii.is_space c = false -> JsString.trimStart (String c s) = String c s.
Proof. intros Hc. simpl. rewrite Hc. reflexivity. Qed.

Lemma trimStart_head (s : string) :
  JsString.trimStart s = EmptyString
  \/ exists c r, JsString.trimStart s = String c r /\ Ascii.is_space c = false.
Proof.
  induction s as [|c s IH]; simpl; [left; reflexivity|].
  destruct (Ascii.is_space c) eqn:Hc; [exact IH|].
  right. exists c, s. split; [reflexivity | exact Hc].
Qed.

Lemma trimEnd_head (c : ascii) (s : string) :
  Ascii.is_space c = false ->
  exists r, JsString.trimEnd (String c s) = String c r.
Proof.
  intros Hc. simpl. destruct (JsString.trimEnd s) as [|d r].
  - rewrite Hc. eexists. reflexivity.
  - eexists. reflexivity.
Qed.

(** Trimming a trimmed string changes nothing. *)
Lemma trim_idempotent (s : string) :
  JsString.trim (JsString.trim s) = JsString.trim s.
Proof.
  unfold JsString.trim.
  destruct (trimStart_head s) as [E | (c & r & E & Hc)]; rewrite E.
  - reflexivity.
  - destruct (trimEnd_head c r Hc) as [r' E'].
    rewrite E', (trimStart_unspaced c r' Hc), <- E'.
    apply trimEnd_idempotent.
Qed.

(** ** Joi: every key is judged, whatever the others did *)

Section JoiFacts.
Context `{Platform}.
Variable now : Z.

Lemma lookupKey_cons (k k' : string) (s : Joi.schema) ks :
  lookupKey ((k, s) :: ks) k' = if decide (k = k') then Some s else lookupKey ks k'.
Proof.
  unfold lookupKey. simpl. destruct (String.eqb_spec k k') as [->|Hne].
  - rewrite decide_True by reflexivity. reflexivity.
  - rewrite decide_False by exact Hne. reflexivity.
Qed.

Lemma lookupKey_None ks k : lookupKey ks k = None <-> k ∉ ks.*1.
Proof.
  induction ks as [|[k' s] ks IH].
  - split; [intros _; apply not_elem_of_nil | reflexivity].
  - rewrite lookupKey_cons, fmap_cons, not_elem_of_cons. simpl.
    destruct (decide (k' = k)) as [->|Hne].
    + split; [discriminate | intros [Hk _]; contradiction].
    + rewrite IH. split; [intros Hk; split; [congruence | exact Hk] | tauto].
Qed.

Lemma lookupKey_Some ks k s :
  NoDup ks.*1 -> (k, s) ∈ ks -> lookupKey ks k = Some s.
Proof.
  induction ks as [|[k' s'] ks IH]; intros Hnd Hin.
  - inversion Hin.
  - rewrite fmap_cons in Hnd. apply NoDup_cons in Hnd as [Hk' Hnd].
    rewrite lookupKey_cons. apply elem_of_cons in Hin as [Heq | Hin].
    + simplify_eq. rewrite decide_True by reflexivity. reflexivity.
    + destruct (decide (k' = k)) as [->|Hne]; [|apply IH; assumption].
      exfalso. apply Hk'. simpl.
      apply list_elem_of_fmap. exists (k, s). split; [reflexivity | exact Hin].
Qed.

Lemma lookupKey_elem ks k s : lookupKey ks k = Some s -> (k, s) ∈ ks.
Proof.
  induction ks as [|[k' s'] ks IH]; [discriminate|].
  rewrite lookupKey_cons. destruct (decide (k' = k)) as [->|Hne].
  - intros [= ->]. apply elem_of_cons. left. reflexivity.
  - intros Hk. apply elem_of_cons. right. apply IH, Hk.
Qed.

Lemma validateKey_present p k s raw :
  exists x es, Joi.validateKey now p k s (Some raw) = (Some x, es).
Proof.
  unfold Joi.validateKey.
  destruct (Joi.inValids s (Joi.coerce s raw)); [eauto|].
  destruct (Joi.s_only s && Joi.abortEarly p); [eauto|].
  destruct (Joi.baseError s (Joi.coerce s raw)); eauto.
Qed.

Lemma keyErrors_ext p (m m' : gmap string json) ks :
  (forall k, k ∈ ks.*1 -> m' !! k = m !! k) ->
  keyErrors now p m' ks = keyErrors now p m ks.
Proof.
  induction ks as [|[k s] ks IH]; intros Hm; [reflexivity|].
  unfold keyErrors in *. simpl. rewrite Hm.
  - f_equal. apply IH. intros k' Hk'. apply Hm.
    rewrite fmap_cons. apply elem_of_cons. right. exact Hk'.
  - rewrite fmap_cons. apply elem_of_cons. left. reflexivity.
Qed.

(** The loop over the keys, without [abortEarly]: it never returns early,
    it reports exactly the errors of every key judged on the original
    input, and it leaves under each declared key the value computed for
    it. *)
Lemma validateKeys_collects p ks :
  Joi.abortEarly p = false -> NoDup ks.*1 ->
  forall (m : gmap string json) (u : gset string) (es : list Joi.detail),
  exists m',
    Joi.validateKeys now p ks m u es
      = (m', u ∖ list_to_set ks.*1, es ++ keyErrors now p m ks, false)
    /\ forall k, m' !! k = match lookupKey ks k with
                           | Some s => fst (Joi.validateKey now p k s (m !! k))
                           | None => m !! k
                           end.
Proof.
  intros Hp. induction ks as [|[k s] ks IH]; intros Hnd m u es.
  - exists m. simpl. split; [|intros k; reflexivity].
    rewrite difference_empty_L, app_nil_r. reflexivity.
  - rewrite fmap_cons in Hnd. apply NoDup_cons in Hnd as [Hk Hnd]. simpl in Hk.
    specialize (IH Hnd).
    assert (Hset : forall u' : gset string,
               u' ∖ {[k]} ∖ list_to_set ks.*1
               = u' ∖ list_to_set (((k, s) :: ks).*1)).
    { intros u'. rewrite fmap_cons. simpl. set_solver. }
    simpl Joi.validateKeys.
    destruct (Joi.validateKey now p k s (m !! k)) as [v e1] eqn:E.
    set (m1 := match e1, v with
               | [], Some x | _ :: _, Some x => <[k := x]> m
               | [], None => delete k m
               | _ :: _, None => m
               end).
    assert (Hother : forall k', k' <> k -> m1 !! k' = m !! k').
    { intros k' Hne. unfold m1.
      destruct e1, v; try reflexivity;
        first [ apply lookup_insert_ne; congruence
              | apply lookup_delete_ne; congruence ]. }
    assert (Hself : m1 !! k = v).
    { unfold m1. destruct e1 as [|d e1], v as [x|];
        try apply lookup_insert_eq; try apply lookup_delete_eq.
      destruct (m !! k) as [raw|] eqn:Hm.
      - destruct (validateKey_present p k s raw) as (x & es' & E').
        rewrite E' in E. discriminate.
      - reflexivity. }
    destruct (IH m1 (u ∖ {[k]}) (es ++ e1)) as (m' & Hrun & Hval).
    exists m'. split.
    + assert (Hrun' : Joi.validateKeys now p ks m1 (u ∖ {[k]}) (es ++ e1)
                      = (m', u ∖ list_to_set (((k, s) :: ks).*1),
                         es ++ keyErrors now p m ((k, s) :: ks), false)).
      { rewrite Hrun, Hset. f_equal. f_equal.
        rewrite <- app_assoc. f_equal.
        unfold keyErrors at 2. simpl. rewrite E. simpl. f_equal.
        apply keyErrors_ext. intros k' Hk'. apply Hother.
        intros ->. contradiction. }
      unfold m1 in Hrun'. destruct e1 as [|d e1].
      * rewrite app_nil_r in Hrun'. destruct v; exact Hrun'.
      * rewrite Hp. destruct v; exact Hrun'.
    + intros k'. rewrite Hval, lookupKey_cons.
      destruct (decide (k = k')) as [<-|Hne].
      * apply lookupKey_None in Hk. rewrite Hk, Hself, E. reflexivity.
      * rewrite Hother by congruence. reflexivity.
Qed.

(** The whole validation as the middleware runs it: the value keeps the
    declared keys only, each with the value computed for it, and the error
    lists the errors of all the keys (or, when there are none, the failure
    of the object-level key count). *)
Lemma validate_outcome (o : Joi.objectSchema) (input : gmap string json) :
  NoDup (Joi.o_keys o).*1 ->
  let r := Joi.validate now o input validationPrefs in
  (forall k, Joi.value r !! k
             = match lookupKey (Joi.o_keys o) k with
               | Some s => fst (Joi.validateKey now validationPrefs k s (input !! k))
               | None => None
               end)
  /\ Joi.error r
     = match keyErrors now validationPrefs input (Joi.o_keys o) with
       | (_ :: _) as es => Some es
       | [] =>
           match Joi.o_min o with
           | Some n =>
               if (size (Joi.value r) <? n)%nat
               then Some [Joi.createError (Joi.o_messages o) [] "value" "object.min"]
               else None
           | None => None
           end
       end.
Proof.
  intros Hnd.
  destruct (validateKeys_collects validationPrefs (Joi.o_keys o) eq_refl Hnd
              input (dom input) []) as (m' & Hrun & Hval).
  unfold Joi.validate. rewrite Hrun. simpl.
  set (value' := filter (fun kv : string * json =>
                           fst kv ∉ dom input ∖ list_to_set (Joi.o_keys o).*1) m').
  assert (Hvalue : forall k,
             value' !! k
             = match lookupKey (Joi.o_keys o) k with
               | Some s => fst (Joi.validateKey now validationPrefs k s (input !! k))
               | None => None
               end).
  { intros k. unfold value'. rewrite map_lookup_filter, Hval.
    destruct (lookupKey (Joi.o_keys o) k) as [s|] eqn:Hk.
    - destruct (fst (Joi.validateKey now validationPrefs k s (input !! k)))
        as [x|]; [|reflexivity].
      simpl. rewrite option_guard_True; [reflexivity|].
      simpl. apply lookupKey_elem in Hk.
      assert (k ∈ (Joi.o_keys o).*1).
      { apply list_elem_of_fmap. exists (k, s). split; [reflexivity | exact Hk]. }
      set_solver.
    - destruct (input !! k) as [x|] eqn:Hin; [|reflexivity].
      simpl. rewrite option_guard_False; [reflexivity|].
      simpl. apply lookupKey_None in Hk.
      assert (k ∈ dom input) by (apply elem_of_dom; eauto).
      set_solver. }
  rewrite app_nil_r.
  destruct (keyErrors now validationPrefs input (Joi.o_keys o)) as [|d es];
    simpl.
  - destruct (Joi.o_min o) as [n|]; simpl.
    + destruct (size value' <? n)%nat eqn:Hsize; simpl; rewrite ?Hsize; auto.
    + auto.
  - auto.
Qed.

End JoiFacts.

(** ** The validation middleware *)

Section MiddlewareFacts.
Context `{Platform}.
Variable now : Z.

Lemma taskKeys_NoDup : NoDup taskKeys.
Proof. apply (bool_decide_unpack _). vm_compute. exact I. Qed.

Lemma keyErrors_nil p (input : gmap string json) ks :
  keyErrors now p input ks = [] <->
  forall k s, (k, s) ∈ ks -> snd (Joi.validateKey now p k s (input !! k)) = [].
Proof.
  unfold keyErrors. induction ks as [|[k s] ks IH]; simpl.
  - split; [intros _ k s Hin; inversion Hin | reflexivity].
  - split.
    + intros Hnil. apply app_eq_nil in Hnil as [Hk Hrest].
      intros k' s' Hin. apply elem_of_cons in Hin as [Heq | Hin].
      * simplify_eq. exact Hk.
      * apply IH; assumption.
    + intros Hall. rewrite (Hall k s) by (apply elem_of_cons; left; reflexivity).
      apply IH. intros k' s' Hin. apply Hall, elem_of_cons. right. exact Hin.
Qed.

Lemma keyErrors_elem p (input : gmap string json) ks d :
  d ∈ keyErrors now p input ks <->
  exists k s, (k, s) ∈ ks /\ d ∈ snd (Joi.validateKey now p k s (input !! k)).
Proof.
  unfold keyErrors. rewrite list_elem_of_In, in_flat_map. split.
  - intros ([k s] & Hin & Hd). exists k, s.
    split; apply list_elem_of_In; assumption.
  - intros (k & s & Hin & Hd). exists (k, s).
    split; apply list_elem_of_In; assumption.
Qed.

Lemma validateRequest_unfold (o : Joi.objectSchema) (body : gmap string json) :
  validateRequest o now body
  = match Joi.error (Joi.validate now o body validationPrefs) with
    | Some details => Responded (validationFailure details)
    | None => Next (Joi.value (Joi.validate now o body validationPrefs))
    end.
Proof. reflexivity. Qed.

(** A payload goes through exactly when no key raises an error (and the
    key count is met); what goes on is the value computed for each
    declared key and nothing else. *)
Lemma validateRequest_Next (o : Joi.objectSchema) (body sanitized : gmap string json) :
  NoDup (Joi.o_keys o).*1 ->
  validateRequest o now body = Next sanitized ->
  (forall k s, (k, s) ∈ Joi.o_keys o ->
     Joi.validateKey now validationPrefs k s (body !! k) = (sanitized !! k, []))
  /\ (forall k, k ∉ (Joi.o_keys o).*1 -> sanitized !! k = None).
Proof.
  intros Hnd. rewrite validateRequest_unfold.
  destruct (validate_outcome now o body Hnd) as [Hvalue Herror].
  destruct (Joi.error (Joi.validate now o body validationPrefs)) as [details|];
    [discriminate|].
  intros [= <-].
  destruct (keyErrors now validationPrefs body (Joi.o_keys o)) eqn:Hes;
    [|discriminate].
  split.
  - intros k s Hin. rewrite Hvalue, (lookupKey_Some _ _ _ Hnd Hin).
    pose proof (proj1 (keyErrors_nil _ _ _) Hes k s Hin) as Hk.
    destruct (Joi.validateKey now validationPrefs k s (body !! k)).
    simpl in *. subst. reflexivity.
  - intros k Hk. rewrite Hvalue.
    apply lookupKey_None in Hk. rewrite Hk. reflexivity.
Qed.

(** A payload is refused with the errors of all its keys, or, when no key
    raises any, with the single error of the object-level key count. *)
Lemma validateRequest_Responded (o : Joi.objectSchema) (body : gmap string json) res :
  NoDup (Joi.o_keys o).*1 ->
  validateRequest o now body = Responded res ->
  exists details,
    res = validationFailure details /\ details <> []
    /\ (details = keyErrors now validationPrefs body (Joi.o_keys o)
        \/ keyErrors now validationPrefs body (Joi.o_keys o) = []
           /\ details = [Joi.createError (Joi.o_messages o) [] "value" "object.min"]
           /\ is_Some (Joi.o_min o)).
Proof.
  intros Hnd. rewrite validateRequest_unfold.
  destruct (validate_outcome now o body Hnd) as [_ Herror].
  destruct (Joi.error (Joi.validate now o body validationPrefs)) as [details|];
    [|discriminate].
  intros [= <-]. exists details. split; [reflexivity|].
  destruct (keyErrors now validationPrefs body (Joi.o_keys o)) as [|d es] eqn:Hes.
  - destruct (Joi.o_min o) as [n|]; [|discriminate].
    destruct (size _ <? n)%nat; [|discriminate].
    injection Herror as ->. split; [discriminate|].
    right. split; [reflexivity|]. split; [reflexivity | eauto].
  - injection Herror as ->. split; [discriminate | left; reflexivity].
Qed.

End MiddlewareFacts.

(** ** What the task schemas accept *)

Section SchemaFacts.
Context `{Platform}.
Variable now : Z.

Local Arguments Nat.ltb : simpl never.
Local Arguments Nat.leb : simpl never.
Local Arguments Z.ltb : simpl never.
Local Arguments JsString.trim : simpl never.
Local Arguments JsString.toLowerCase : simpl never.
Local Arguments Joi.createError : simpl never.

(** Replace the schema of a key by the record it evaluates to. *)
Ltac reduce_schema :=
  repeat match goal with
         | |- context [keySchema ?o ?k] =>
             let s := eval vm_compute in (keySchema o k) in
             change (keySchema o k) with s
         end.

(** Run the validation of one key on a value of known shape and split on
    every test it makes. *)
Ltac run_key :=
  unfold taskSchemaFor; reduce_schema; cbn; intros; simplify_eq;
  repeat (case_match; simplify_eq).

Lemma taskSchemaFor_NoDup u : NoDup (Joi.o_keys (taskSchemaFor u)).*1.
Proof. destruct u; apply taskKeys_NoDup. Qed.

Lemma taskSchemaFor_key u k :
  k ∈ taskKeys -> (k, keySchema (taskSchemaFor u) k) ∈ Joi.o_keys (taskSchemaFor u).
Proof.
  intros Hk. apply lookupKey_elem. unfold taskKeys in Hk.
  repeat (apply elem_of_cons in Hk as [->|Hk]; [destruct u; reflexivity|]).
  inversion Hk.
Qed.

Lemma taskSchemaFor_elem u k s :
  (k, s) ∈ Joi.o_keys (taskSchemaFor u) ->
  k ∈ taskKeys /\ s = keySchema (taskSchemaFor u) k.
Proof.
  intros Hin. assert (Hk : k ∈ taskKeys).
  { replace taskKeys with (Joi.o_keys (taskSchemaFor u)).*1 by (destruct u; reflexivity).
    apply list_elem_of_fmap. exists (k, s). split; [reflexivity | exact Hin]. }
  split; [exact Hk|].
  pose proof (lookupKey_Some _ _ _ (taskSchemaFor_NoDup u) Hin) as E1.
  unfold keySchema. rewrite E1. reflexivity.
Qed.

Lemma title_clean u item v :
  Joi.validateKey now validationPrefs "title"
    (keySchema (taskSchemaFor u) "title") item = (v, []) ->
  (u = true /\ item = None /\ v = None)
  \/ exists s, item = Some (JStr s) /\ v = Some (JStr (JsString.trim s))
               /\ (3 <= String.length (JsString.trim s) <= 100)%nat.
Proof.
  destruct u, item as [[]|]; run_key; eauto;
    right; eexists; (split; [reflexivity|]); (split; [reflexivity|]);
    repeat match goal with
           | E : (_ <? _)%nat = false |- _ => apply Nat.ltb_ge in E
           end; lia.
Qed.

Lemma description_clean u item v :
  Joi.validateKey now validationPrefs "description"
    (keySchema (taskSchemaFor u) "description") item = (v, []) ->
  (item = None /\ v = None)
  \/ exists s, item = Some (JStr s) /\ v = Some (JStr (JsString.trim s))
               /\ (String.length (JsString.trim s) <= 500)%nat.
Proof.
  destruct u, item as [[]|]; run_key; eauto;
    right; eexists; (split; [reflexivity|]); (split; [reflexivity|]);
    repeat match goal with
           | E : (_ <? _)%nat = false |- _ => apply Nat.ltb_ge in E
           | E : bool_decide (_ ∈ [ _ ]) = true |- _ =>
               apply bool_decide_eq_true, list_elem_of_singleton in E;
               rewrite E; simpl
           end; lia.
Qed.

Lemma category_clean u item v :
  Joi.validateKey now validationPrefs "category"
    (keySchema (taskSchemaFor u) "category") item = (v, []) ->
  (u = true /\ item = None /\ v = None)
  \/ exists s, item = Some (JStr s) /\ v = Some (JStr (JsString.trim s))
               /\ JsString.trim s ∈ categories.
Proof.
  destruct u, item as [[]|]; run_key; eauto;
    right; eexists; (split; [reflexivity|]); (split; [reflexivity|]);
    match goal with
    | E : bool_decide _ = true |- _ => apply bool_decide_eq_true in E; exact E
    end.
Qed.

Lemma priority_clean u item v :
  Joi.validateKey now validationPrefs "priority"
    (keySchema (taskSchemaFor u) "priority") item = (v, []) ->
  (u = true /\ item = None /\ v = None)
  \/ exists s, item = Some (JStr s) /\ v = Some (JStr (JsString.trim s))
               /\ JsString.trim s ∈ priorities.
Proof.
  destruct u, item as [[]|]; run_key; eauto;
    right; eexists; (split; [reflexivity|]); (split; [reflexivity|]);
    match goal with
    | E : bool_decide _ = true |- _ => apply bool_decide_eq_true in E; exact E
    end.
Qed.

Lemma deadline_clean u item v :
  Joi.validateKey now validationPrefs "deadline"
    (keySchema (taskSchemaFor u) "deadline") item = (v, []) ->
  (u = true /\ item = None /\ v = None)
  \/ exists raw t, item = Some raw /\ deadlineInstant raw = Some t
                   /\ v = Some (JDate t) /\ (now <= t)%Z.
Proof.
  destruct u, item as [[]|]; run_key; eauto;
    right; do 2 eexists; (split; [reflexivity|]);
    (split; [simpl; first [eassumption | reflexivity]|]);
    (split; [reflexivity|]);
    match goal with
    | E : (_ <? _)%Z = false |- _ => apply Z.ltb_ge in E; exact E
    end.
Qed.

Lemma completed_clean u item v :
  Joi.validateKey now validationPrefs "completed"
    (keySchema (taskSchemaFor u) "completed") item = (v, []) ->
  (item = None /\ v = if u then None else Some (JBool false))
  \/ exists raw b, item = Some raw /\ completedFlag raw = Some b
                   /\ v = Some (JBool b).
Proof.
  destruct u, item as [[]|]; run_key; eauto;
    right; do 2 eexists; (split; [reflexivity|]);
    (split; [|reflexivity]); simpl;
    repeat match goal with
           | E : String.eqb _ _ = _ |- _ => rewrite E
           end; reflexivity.
Qed.

(** A deadline before the time of validation is refused, by both
    schemas, with the message of the [date.min] rule. *)
Lemma deadline_past u raw t :
  deadlineInstant raw = Some t -> (t < now)%Z ->
  Joi.validateKey now validationPrefs "deadline"
    (keySchema (taskSchemaFor u) "deadline") (Some raw)
  = (Some (JDate t),
     [{| Joi.path := ["deadline"]; Joi.type := "date.min";
         Joi.message := "Deadline must be in the future" |}]).
Proof.
  intros Hraw Hlt. apply Z.ltb_lt in Hlt.
  destruct u, raw; simpl in Hraw; simplify_eq;
    unfold taskSchemaFor; reduce_schema; cbn; rewrite ?Hraw; cbn;
    rewrite Hlt; reflexivity.
Qed.

(** A priority outside the enumeration is refused, by both schemas, with
    the message of the [any.only] check. *)
Lemma priority_unknown u s :
  JsString.trim s ∉ priorities ->
  {| Joi.path := ["priority"]; Joi.type := "any.only";
     Joi.message := "Priority must be one of: Low, Medium, High" |}
  ∈ snd (Joi.validateKey now validationPrefs "priority"
           (keySchema (taskSchemaFor u) "priority") (Some (JStr s))).
Proof.
  intros Hs. apply (bool_decide_eq_false_2 _) in Hs.
  destruct u; unfold taskSchemaFor; reduce_schema; cbn;
    unfold priorities in Hs; rewrite Hs;
    repeat case_match; simpl; apply elem_of_cons; left; reflexivity.
Qed.

(** What the data model asks of a field is enough for the schema. *)

Ltac absurd_test :=
  exfalso;
  repeat match goal with
         | E : _ && true = _ |- _ => rewrite andb_true_r in E
         | E : String.eqb _ _ = true |- _ => apply String.eqb_eq in E
         | E : (_ <? _)%nat = true |- _ => apply Nat.ltb_lt in E
         | E : (_ <? _)%Z = true |- _ => apply Z.ltb_lt in E
         | E : bool_decide _ = false |- _ => apply bool_decide_eq_false in E
         | E : JsString.trim _ = _ |- _ => rewrite E in *
         end;
  simpl in *; first [lia | contradiction | discriminate | congruence | set_solver].

Lemma title_accept u s :
  (3 <= String.length (JsString.trim s) <= 100)%nat ->
  Joi.validateKey now validationPrefs "title"
    (keySchema (taskSchemaFor u) "title") (Some (JStr s))
  = (Some (JStr (JsString.trim s)), []).
Proof. intros Hlen. destruct u; run_key; first [reflexivity | absurd_test]. Qed.

Lemma description_accept u s :
  (String.length (JsString.trim s) <= 500)%nat ->
  Joi.validateKey now validationPrefs "description"
    (keySchema (taskSchemaFor u) "description") (Some (JStr s))
  = (Some (JStr (JsString.trim s)), []).
Proof. intros Hlen. destruct u; run_key; first [reflexivity | absurd_test]. Qed.

Lemma category_accept u s :
  JsString.trim s ∈ categories ->
  Joi.validateKey now validationPrefs "category"
    (keySchema (taskSchemaFor u) "category") (Some (JStr s))
  = (Some (JStr (JsString.trim s)), []).
Proof.
  intros Hin. unfold categories in Hin.
  destruct u; run_key; first [reflexivity | absurd_test].
Qed.

Lemma priority_accept u s :
  JsString.trim s ∈ priorities ->
  Joi.validateKey now validationPrefs "priority"
    (keySchema (taskSchemaFor u) "priority") (Some (JStr s))
  = (Some (JStr (JsString.trim s)), []).
Proof.
  intros Hin. unfold priorities in Hin.
  destruct u; run_key; first [reflexivity | absurd_test].
Qed.

Lemma deadline_accept u raw t :
  deadlineInstant raw = Some t -> (now <= t)%Z ->
  Joi.validateKey now validationPrefs "deadline"
    (keySchema (taskSchemaFor u) "deadline") (Some raw)
  = (Some (JDate t), []).
Proof.
  intros Hraw Hle.
  destruct u, raw; simpl in Hraw; simplify_eq;
    unfold taskSchemaFor; reduce_schema; cbn; rewrite ?Hraw; cbn;
    (destruct (Z.ltb_spec t now); [lia | reflexivity]).
Qed.

Lemma completed_accept u raw b :
  completedFlag raw = Some b ->
  Joi.validateKey now validationPrefs "completed"
    (keySchema (taskSchemaFor u) "completed") (Some raw)
  = (Some (JBool b), []).
Proof.
  intros Hraw.
  destruct u, raw; simpl in Hraw; simplify_eq; try reflexivity;
    unfold taskSchemaFor; reduce_schema; cbn;
    repeat (case_match; simplify_eq); reflexivity.
Qed.

End SchemaFacts.

Section ErrorEntries.
Context `{Platform}.
Variable now : Z.

Lemma runRules_path p s k rs v es :
  Forall (fun d => Joi.path d = [k]) es ->
  Forall (fun d => Joi.path d = [k]) (Joi.runRules now p s k rs v es).
Proof.
  revert es. induction rs as [|r rs IH]; intros es Hes; simpl; [exact Hes|].
  destruct (Joi.ruleError now s r v) as [code|]; [|apply IH, Hes].
  destruct (Joi.abortEarly p).
  - repeat constructor.
  - apply IH, Forall_app. split; [exact Hes | repeat constructor].
Qed.

(** Every error raised for a key carries that key as its path. *)
Lemma validateKey_path p k s item :
  Forall (fun d => Joi.path d = [k]) (snd (Joi.validateKey now p k s item)).
Proof.
  unfold Joi.validateKey. destruct item as [raw|].
  - destruct (Joi.inValids s (Joi.coerce s raw)); [constructor|].
    assert (Hon : Forall (fun d => Joi.path d = [k])
                    (if Joi.s_only s
                     then [Joi.createError (Joi.s_messages s) [k] k "any.only"]
                     else [])).
    { destruct (Joi.s_only s); repeat constructor. }
    destruct (Joi.s_only s && Joi.abortEarly p); [exact Hon|].
    destruct (Joi.baseError s (Joi.coerce s raw)); simpl.
    + apply Forall_app. split; [exact Hon | repeat constructor].
    + apply runRules_path, Hon.
  - destruct (Joi.s_required s); repeat constructor.
Qed.

Lemma formatDetail_entry k d :
  Joi.path d = [k] -> formatDetail d = errorEntry k (Joi.message d).
Proof. intros Hd. unfold formatDetail. rewrite Hd. reflexivity. Qed.

(** A refusal of the middleware on a task schema: every entry names a key
    of the schema that raised it, and every key that raised an error has
    an entry. *)
Lemma refusal_entries u (raw : gmap string json) res :
  validateRequest (taskSchemaFor u) now raw = Responded res ->
  exists entries,
    res = {| res_status := 400;
             res_json := JObj [("status", JStr "error");
                               ("message", JStr "Validation error");
                               ("errors", JArr entries)] |}
    /\ entries <> []
    /\ (forall k d, k ∈ taskKeys -> d ∈ violations now u raw k ->
          errorEntry k (Joi.message d) ∈ entries)
    /\ ((exists k, k ∈ taskKeys /\ violations now u raw k <> []) ->
        forall e, e ∈ entries ->
          exists k d, k ∈ taskKeys /\ d ∈ violations now u raw k
                      /\ e = errorEntry k (Joi.message d)).
Proof.
  intros Hres.
  destruct (validateRequest_Responded now _ _ _ (taskSchemaFor_NoDup u) Hres)
    as (details & -> & Hne & Hdetails).
  exists (formatDetail <$> details). split; [reflexivity|].
  split; [destruct details; [contradiction | discriminate]|].
  assert (Hall : keyErrors now validationPrefs raw (Joi.o_keys (taskSchemaFor u)) = []
                 -> forall k, k ∈ taskKeys -> violations now u raw k = []).
  { intros Hnil k Hk. unfold violations.
    apply (proj1 (keyErrors_nil now _ _ _) Hnil), taskSchemaFor_key, Hk. }
  split.
  - intros k d Hk Hd.
    assert (Hpath : Joi.path d = [k]).
    { pose proof (validateKey_path validationPrefs k
                    (keySchema (taskSchemaFor u) k) (raw !! k)) as Hp.
      rewrite Forall_forall in Hp. apply Hp, Hd. }
    rewrite <- (formatDetail_entry k d Hpath).
    apply list_elem_of_fmap_2.
    destruct Hdetails as [-> | (Hnil & _ & _)].
    + apply keyErrors_elem. exists k, (keySchema (taskSchemaFor u) k).
      split; [apply taskSchemaFor_key, Hk | exact Hd].
    + rewrite (Hall Hnil k Hk) in Hd. inversion Hd.
  - intros (k0 & Hk0 & Hviol) e He.
    destruct Hdetails as [-> | (Hnil & _ & _)];
      [|contradiction Hviol; apply Hall; assumption].
    apply list_elem_of_fmap in He as (d & -> & Hd).
    apply keyErrors_elem in Hd as (k & s & Hin & Hd).
    apply taskSchemaFor_elem in Hin as [Hk ->].
    exists k, d. split; [exact Hk|]. split; [exact Hd|].
    apply formatDetail_entry.
    pose proof (validateKey_path validationPrefs k
                  (keySchema (taskSchemaFor u) k) (raw !! k)) as Hp.
    rewrite Forall_forall in Hp. apply Hp, Hd.
Qed.

(** A payload with a violated key is refused. *)
Lemma violation_refused u (raw : gmap string json) k :
  k ∈ taskKeys -> violations now u raw k <> [] ->
  exists res, validateRequest (taskSchemaFor u) now raw = Responded res.
Proof.
  intros Hk Hviol.
  destruct (validateRequest (taskSchemaFor u) now raw) as [res|sanitized] eqn:E;
    [eauto|].
  destruct (validateRequest_Next now _ _ _ (taskSchemaFor_NoDup u) E) as [Hkeys _].
  contradiction Hviol. unfold violations.
  rewrite (Hkeys k _ (taskSchemaFor_key u k Hk)). reflexivity.
Qed.

End ErrorEntries.

(** ** The claims about validation *)

Section ValidationClaims.
Context `{Platform}.

(** C6.  A create request one of whose fields violates the create schema
    is answered 400 by the middleware: the list of errors has an entry
    naming that field, every entry names a field that raised it, and the
    store comes back as it was, its log of model operations included, so
    no repository operation ran and no record was added. *)
Theorem invalid_create_leaves_store_untouched (NODE_ENV : option string)
    (st : store) (oid : string) (validatedAt now : Z)
    (body : gmap string json) (k : string) :
  k ∈ taskKeys -> violations validatedAt false body k <> [] ->
  exists entries,
    postTasks NODE_ENV st oid validatedAt now body
    = (st, Return {| res_status := 400;
                     res_json := JObj [("status", JStr "error");
                                       ("message", JStr "Validation error");
                                       ("errors", JArr entries)] |})
    /\ (exists message, errorEntry k message ∈ entries)
    /\ (forall e, e ∈ entries ->
          exists k' d, k' ∈ taskKeys /\ d ∈ violations validatedAt false body k'
                       /\ e = errorEntry k' (Joi.message d))
    /\ (forall s, body !! "priority" = Some (JStr s) ->
          JsString.trim s ∉ priorities ->
          errorEntry "priority" "Priority must be one of: Low, Medium, High"
            ∈ entries).
Proof.
  intros Hk Hviol.
  destruct (violation_refused validatedAt false body k Hk Hviol) as [res Hres].
  destruct (refusal_entries validatedAt false body res Hres)
    as (entries & -> & _ & Hall & Honly).
  exists entries. split; [|split; [|split]].
  - unfold postTasks. change createTaskSchema with (taskSchemaFor false).
    rewrite Hres. reflexivity.
  - destruct (violations validatedAt false body k) as [|d ds] eqn:Hd;
      [contradiction|].
    exists (Joi.message d). apply Hall; [exact Hk|].
    rewrite Hd. apply elem_of_cons. left. reflexivity.
  - apply Honly. exists k. split; assumption.
  - intros s Hs Hout.
    apply (Hall "priority"
             {| Joi.path := ["priority"]; Joi.type := "any.only";
                Joi.message := "Priority must be one of: Low, Medium, High" |});
      [key_in|].
    unfold violations. rewrite Hs. apply priority_unknown, Hout.
Qed.

(** C1 (as the code has it).  An update payload whose deadline denotes an
    instant before the time of validation is refused by the middleware
    with status 400 and the entry of the deadline; the controller is not
    reached and the store comes back as it was.  It is the storage layer
    alone that does not check the deadline of an update against the
    clock. *)
Theorem update_with_past_deadline_is_refused (NODE_ENV : option string)
    (st : store) (id : string) (validatedAt now : Z)
    (body : gmap string json) (raw : json) (t : Z) :
  body !! "deadline" = Some raw -> deadlineInstant raw = Some t ->
  (t < validatedAt)%Z ->
  exists entries,
    validateRequest updateTaskSchema validatedAt body
    = Responded {| res_status := 400;
                   res_json := JObj [("status", JStr "error");
                                     ("message", JStr "Validation error");
                                     ("errors", JArr entries)] |}
    /\ putTask NODE_ENV st id validatedAt now body
       = (st, Return {| res_status := 400;
                        res_json := JObj [("status", JStr "error");
                                          ("message", JStr "Validation error");
                                          ("errors", JArr entries)] |})
    /\ errorEntry "deadline" "Deadline must be in the future" ∈ entries
    /\ checkDeadline false now (Some (JDate t)) = Schema.Ok (Some t).
Proof.
  intros Hbody Hraw Hlt.
  assert (Hviol : violations validatedAt true body "deadline"
                  = [{| Joi.path := ["deadline"]; Joi.type := "date.min";
                        Joi.message := "Deadline must be in the future" |}]).
  { unfold violations. rewrite Hbody, (deadline_past validatedAt true raw t Hraw Hlt).
    reflexivity. }
  destruct (violation_refused validatedAt true body "deadline") as [res Hres];
    [key_in | rewrite Hviol; discriminate |].
  destruct (refusal_entries validatedAt true body res Hres)
    as (entries & -> & _ & Hall & _).
  exists entries. split; [exact Hres|]. split; [|split; [|reflexivity]].
  - unfold putTask. change updateTaskSchema with (taskSchemaFor true).
    rewrite Hres. reflexivity.
  - apply (Hall "deadline"
             {| Joi.path := ["deadline"]; Joi.type := "date.min";
                Joi.message := "Deadline must be in the future" |});
      [key_in|].
    rewrite Hviol. apply elem_of_cons. left. reflexivity.
Qed.

End ValidationClaims.

(** ** The claims about errors *)

Section ErrorClaims.
Context `{Platform}.

(** The decimal rendering of a three-digit code starts with 4 exactly for
    the codes 400 to 499. *)
Lemma startsWith4 (c : Z) :
  (100 <= c <= 999)%Z ->
  JsString.startsWith "4" (JsString.ofInt c) = bool_decide (is4xx c).
Proof.
  intros Hc.
  assert (Hall : forallb (fun n =>
                    Bool.eqb (JsString.startsWith "4" (JsString.ofInt (100 + Z.of_nat n)))
                             (bool_decide (is4xx (100 + Z.of_nat n))))
                   (seq 0 900) = true) by (vm_compute; reflexivity).
  rewrite forallb_forall in Hall.
  specialize (Hall (Z.to_nat (c - 100))).
  replace (100 + Z.of_nat (Z.to_nat (c - 100)))%Z with c in Hall by lia.
  apply Bool.eqb_prop, Hall, in_seq. lia.
Qed.

(** An error replaced by [AppError message 400] and passed to the generic
    handler is answered 400 with status [fail]. *)
Lemma handleError_400 NODE_ENV m :
  exists res, handleError NODE_ENV (AppError m 400) = Return res
              /\ res_status res = 400%Z
              /\ getProp "status" (res_json res) = Some (JStr "fail").
Proof.
  unfold handleError. simpl.
  destruct (bool_decide (NODE_ENV = Some "development"));
    eexists; (split; [reflexivity|]); split; reflexivity.
Qed.

(** C3 (as the code has it).  For a cast error, a storage validation
    error, a duplicate key and an operational error, the error handler
    answers, and the status string of the answer is [fail] exactly when
    the status code is 4xx and [error] otherwise.  A malformed JSON body
    is answered 400 with the status string [error], and an unclassified
    error that has no status property of its own is answered with the
    status string [error] under its own status code, or 500: an unmatched
    URL gets 404 with [error]. *)
Theorem error_status_string (NODE_ENV : option string) :
  (forall err, translated err ->
     exists res,
       errorHandler NODE_ENV err = Return res
       /\ (getProp "status" (res_json res) = Some (JStr "fail")
             /\ is4xx (res_status res)
           \/ getProp "status" (res_json res) = Some (JStr "error")
              /\ ~ is4xx (res_status res)))
  /\ (forall m raw,
        errorHandler NODE_ENV (malformedJson m raw)
        = Return {| res_status := 400;
                    res_json := JObj [("status", JStr "error");
                                      ("message", JStr ("Invalid JSON: " +:+ m))] |})
  /\ (forall err,
        JsError.class_of err = JsError.Error ->
        JsError.code err <> Some 11000%Z ->
        JsError.isOperational err = false ->
        JsError.status err = None ->
        exists res,
          errorHandler NODE_ENV err = Return res
          /\ res_status res = default 500%Z (JsError.statusCode err)
          /\ getProp "status" (res_json res) = Some (JStr "error"))
  /\ (forall url,
        errorHandler NODE_ENV (notFound url)
        = Return {| res_status := 404;
                    res_json := JObj [("status", JStr "error");
                                      ("message", JStr ("Not Found - " +:+ url))] |}).
Proof.
  split; [|split; [|split]].
  - intros err Herr. destruct Herr as [name v | prefix errors | m [q Hq] | m c Hc].
    + destruct (handleError_400 NODE_ENV
                  ("Invalid " +:+ name +:+ ": " +:+ toText (Some v)))
        as (res & Hres & Hcode & Hstatus).
      exists res. split; [exact Hres|].
      left. split; [exact Hstatus|]. rewrite Hcode. unfold is4xx. lia.
    + destruct (handleError_400 NODE_ENV
                  ("Invalid input data: "
                     +:+ JsString.join ". "
                           ((fun kv => joinText (getProp "message" (snd kv)))
                              <$> errors)))
        as (res & Hres & Hcode & Hstatus).
      exists res. split; [exact Hres|].
      left. split; [exact Hstatus|]. rewrite Hcode. unfold is4xx. lia.
    + destruct (handleError_400 NODE_ENV
                  ("Duplicate field value: " +:+ q
                     +:+ ". Please use another value."))
        as (res & Hres & Hcode & Hstatus).
      exists res. split.
      * unfold errorHandler, handleDuplicateFieldError. simpl.
        rewrite Hq. exact Hres.
      * left. split; [exact Hstatus|]. rewrite Hcode. unfold is4xx. lia.
    + eexists. split.
      * unfold errorHandler. simpl. unfold send, jsonObject. simpl.
        rewrite (startsWith4 c Hc). reflexivity.
      * simpl. destruct (bool_decide (is4xx c)) eqn:E.
        -- left. split; [reflexivity | apply bool_decide_eq_true in E; exact E].
        -- right. split; [reflexivity | apply bool_decide_eq_false in E; exact E].
  - intros m raw. reflexivity.
  - intros err Hclass Hcode Hop Hstatus.
    unfold errorHandler, instanceOf. rewrite Hclass, Hop. simpl.
    rewrite (bool_decide_eq_false_2 _ Hcode).
    unfold handleError, send, spread. simpl. rewrite Hstatus.
    eexists. split; [reflexivity|]. split; reflexivity.
  - intros url. unfold errorHandler, handleError. simpl.
    destruct (bool_decide (NODE_ENV = Some "development")); reflexivity.
Qed.

(** C10.  For an error whose [isOperational] is set, the answer of the
    error handler does not depend on NODE_ENV, and its body has no other
    property than [status] and [message]: no errors array, no stack.  For
    an error built by [AppError] the body is exactly the status string and
    the message, under the error's status code. *)
Theorem operational_error_body_ignores_environment
    (env1 env2 : option string) (err : JsError.t) :
  JsError.isOperational err = true ->
  errorHandler env1 err = errorHandler env2 err
  /\ (forall res, errorHandler env1 err = Return res ->
        exists kvs, res_json res = JObj kvs
                    /\ forall k, k ∈ kvs.*1 -> k = "status" \/ k = "message")
  /\ (forall m c, err = AppError m c ->
        errorHandler env1 err
        = Return {| res_status := c;
                    res_json :=
                      JObj [("status",
                             JStr (if JsString.startsWith "4" (JsString.ofInt c)
                                   then "fail" else "error"));
                            ("message", JStr m)] |}).
Proof.
  intros Hop. split; [|split].
  - unfold errorHandler. rewrite Hop.
    repeat case_match; reflexivity.
  - intros res. unfold errorHandler. rewrite Hop.
    destruct (if instanceOf err JsError.ValidationError
              then handleValidationError err
              else Return _) as [e1|]; [|discriminate].
    destruct (if bool_decide (JsError.code err = Some 11000%Z)
              then handleDuplicateFieldError err
              else Return e1) as [e2|]; [|discriminate].
    destruct (instanceOf err JsError.SyntaxError && _ && _).
    + intros [= <-]. eexists. split; [reflexivity|]. simpl. set_solver.
    + unfold send. destruct (JsError.statusCode err); [|discriminate].
      intros [= <-]. unfold jsonObject. simpl.
      destruct (JsError.status err), (JsError.message err); simpl;
        eexists; (split; [reflexivity|]); simpl; set_solver.
  - intros m c ->. reflexivity.
Qed.

End ErrorClaims.

(** ** The storage layer accepts what the schemas let through *)

Section StorageAccepts.
Context `{Platform}.

Lemma trimmed_not_empty n (s : string) :
  (n <= String.length s)%nat -> (0 < n)%nat -> String.eqb s "" = false.
Proof. destruct s; simpl; [lia | reflexivity]. Qed.

Lemma listed_not_empty (s : string) (values : list string) :
  s ∈ values -> "" ∉ values -> String.eqb s "" = false.
Proof.
  intros Hs Hno. destruct (String.eqb_spec s ""); [subst; contradiction | reflexivity].
Qed.

(** The storage layer accepts what the create schema lets through. *)
Lemma checkString_title (s : string) :
  (3 <= String.length (JsString.trim s) <= 100)%nat ->
  checkString Schema.title (Some (JStr (JsString.trim s)))
  = Schema.Ok (Some (JsString.trim s)).
Proof.
  intros [Hmin Hmax]. unfold checkString, stringValidators. simpl.
  rewrite trim_idempotent, (trimmed_not_empty 3) by lia. simpl.
  apply Nat.leb_le in Hmax. rewrite Hmax. reflexivity.
Qed.

Lemma checkString_description (s : string) :
  (String.length (JsString.trim s) <= 500)%nat ->
  checkString Schema.description (Some (JStr (JsString.trim s)))
  = Schema.Ok (Some (JsString.trim s)).
Proof.
  intros Hmax. unfold checkString, stringValidators. simpl.
  rewrite trim_idempotent. apply Nat.leb_le in Hmax. rewrite Hmax. reflexivity.
Qed.

Lemma checkString_category (s : string) :
  JsString.trim s ∈ categories ->
  checkString Schema.category (Some (JStr (JsString.trim s)))
  = Schema.Ok (Some (JsString.trim s)).
Proof.
  intros Hin. unfold checkString, stringValidators. simpl.
  rewrite trim_idempotent.
  rewrite (listed_not_empty _ categories Hin)
    by (apply (bool_decide_unpack _); vm_compute; exact I).
  simpl. unfold categories in Hin. rewrite (bool_decide_eq_true_2 _ Hin).
  reflexivity.
Qed.

Lemma checkString_priority (s : string) :
  JsString.trim s ∈ priorities ->
  checkString Schema.priority (Some (JStr (JsString.trim s)))
  = Schema.Ok (Some (JsString.trim s)).
Proof.
  intros Hin. unfold checkString, stringValidators. simpl.
  rewrite (listed_not_empty _ priorities Hin)
    by (apply (bool_decide_unpack _); vm_compute; exact I).
  simpl. unfold priorities in Hin. rewrite (bool_decide_eq_true_2 _ Hin).
  reflexivity.
Qed.

(** An update that the update schema lets through is not refused by the
    model: the repository returns the updated task, or nothing when no
    document carries the identifier. *)
Lemma update_accepted (st : store) (validatedAt now : Z) (id : string)
    (body sanitized : gmap string json) :
  objectid_valid id = true ->
  validateRequest updateTaskSchema validatedAt body = Next sanitized ->
  exists st' o,
    Task_findByIdAndUpdate st now id sanitized = (st', Return o)
    /\ (o = None <-> List.find (hasId id) (documents st) = None).
Proof.
  intros Hid Hvalid.
  destruct (validateRequest_Next validatedAt _ _ _ (taskSchemaFor_NoDup true) Hvalid)
    as [Hkeys _].
  assert (Hkey : forall k, k ∈ taskKeys ->
            Joi.validateKey validatedAt validationPrefs k
              (keySchema (taskSchemaFor true) k) (body !! k)
            = (sanitized !! k, [])).
  { intros k Hk. apply Hkeys, (taskSchemaFor_key true), Hk. }
  assert (Ht : exists x, updated (checkString Schema.title) (sanitized !! "title")
                         = Schema.Ok x).
  { pose proof (Hkey "title" ltac:(key_in)) as Hk.
    apply title_clean in Hk as [(_ & _ & ->) | (s & _ & -> & Hlen)];
      [eexists; reflexivity|].
    unfold updated. rewrite (checkString_title s Hlen). eauto. }
  assert (Hd : exists x, updated (checkString Schema.description)
                           (sanitized !! "description") = Schema.Ok x).
  { pose proof (Hkey "description" ltac:(key_in)) as Hk.
    apply description_clean in Hk as [(_ & ->) | (s & _ & -> & Hlen)];
      [eexists; reflexivity|].
    unfold updated. rewrite (checkString_description s Hlen). eauto. }
  assert (Hc : exists x, updated (checkString Schema.category)
                           (sanitized !! "category") = Schema.Ok x).
  { pose proof (Hkey "category" ltac:(key_in)) as Hk.
    apply category_clean in Hk as [(_ & _ & ->) | (s & _ & -> & Hin)];
      [eexists; reflexivity|].
    unfold updated. rewrite (checkString_category s Hin). eauto. }
  assert (Hp : exists x, updated (checkString Schema.priority)
                           (sanitized !! "priority") = Schema.Ok x).
  { pose proof (Hkey "priority" ltac:(key_in)) as Hk.
    apply priority_clean in Hk as [(_ & _ & ->) | (s & _ & -> & Hin)];
      [eexists; reflexivity|].
    unfold updated. rewrite (checkString_priority s Hin). eauto. }
  assert (Hdl : exists x, updated (checkDeadline false now)
                            (sanitized !! "deadline") = Schema.Ok x).
  { pose proof (Hkey "deadline" ltac:(key_in)) as Hk.
    apply deadline_clean in Hk as [(_ & _ & ->) | (raw & t & _ & _ & -> & _)];
      eexists; reflexivity. }
  assert (Hco : exists x, updated checkCompleted (sanitized !! "completed")
                          = Schema.Ok x).
  { pose proof (Hkey "completed" ltac:(key_in)) as Hk.
    apply completed_clean in Hk as [(_ & ->) | (raw & b & _ & _ & ->)];
      eexists; reflexivity. }
  destruct Ht as [xt Ht], Hd as [xd Hd], Hc as [xc Hc], Hp as [xp Hp],
    Hdl as [xdl Hdl], Hco as [xco Hco].
  unfold Task_findByIdAndUpdate. rewrite Hid, Ht, Hd, Hc, Hp, Hdl, Hco.
  simpl. destruct (List.find (hasId id) (documents st)) as [old|];
    do 2 eexists; (split; [reflexivity|]); split; congruence.
Qed.

End StorageAccepts.

(** ** The claims about the controllers *)

Section ControllerClaims.
Context `{Platform}.

Lemma find_existing (id : string) (docs : list task) :
  (exists t, t ∈ docs /\ _id t = id) ->
  exists t, List.find (hasId id) docs = Some t /\ _id t = id.
Proof.
  intros (t & Hin & Hid).
  destruct (List.find (hasId id) docs) as [t'|] eqn:E.
  - exists t'. split; [reflexivity|].
    apply find_some in E as [_ E]. apply String.eqb_eq, E.
  - exfalso. apply list_elem_of_In in Hin.
    pose proof (find_none _ _ E t Hin) as Hno.
    unfold hasId in Hno. rewrite Hid, String.eqb_refl in Hno. discriminate.
Qed.

(** C5.  For a structurally valid identifier, get-by-id and delete run
    their repository operation, and update runs its own on the payload that
    validation lets through; each returns a task or nothing.  When the
    repository returns nothing, the response is 404 with status [fail] and
    message [Task not found]; when it returns a task, the response is the
    success envelope: 200 with the task for get and update, 204 for
    delete. *)
Theorem absent_is_404_present_is_success (NODE_ENV : option string)
    (st : store) (validatedAt now : Z) (id : string) (body : gmap string json) :
  objectid_valid id = true ->
  (exists st' o,
     Task_findById st id = (st', Return o)
     /\ getTask NODE_ENV st id = (st', Return (answer o)))
  /\ (forall sanitized,
        validateRequest updateTaskSchema validatedAt body = Next sanitized ->
        exists st' o,
          Task_findByIdAndUpdate st now id sanitized = (st', Return o)
          /\ putTask NODE_ENV st id validatedAt now body = (st', Return (answer o)))
  /\ (exists st' o,
        Task_findByIdAndDelete st id = (st', Return o)
        /\ deleteTaskRoute NODE_ENV st id
           = (st', Return match o with
                          | None => notFoundResponse
                          | Some _ => deletedResponse
                          end)).
Proof.
  intros Hid. split; [|split].
  - unfold getTask, getTaskById, Task_findById. rewrite Hid.
    do 2 eexists. split; [reflexivity|].
    destruct (List.find (hasId id) _); reflexivity.
  - intros sanitized Hvalid.
    destruct (update_accepted st validatedAt now id body sanitized Hid Hvalid)
      as (st' & o & Hrepo & _).
    exists st', o. split; [exact Hrepo|].
    unfold putTask, updateTask. rewrite Hvalid, Hrepo.
    destruct o; reflexivity.
  - unfold deleteTaskRoute, deleteTask, Task_findByIdAndDelete. rewrite Hid.
    destruct (List.find (hasId id) _);
      do 2 eexists; (split; [reflexivity|]); reflexivity.
Qed.

(** C9.  Deleting by a structurally valid identifier that a stored task
    carries is answered with status 204, and Express writes no body for
    it; the task is gone from the store. *)
Theorem delete_existing_is_204_without_body (NODE_ENV : option string)
    (st : store) (id : string) :
  objectid_valid id = true ->
  (exists t, t ∈ documents st /\ _id t = id) ->
  exists st' res,
    deleteTaskRoute NODE_ENV st id = (st', Return res)
    /\ res_status res = 204%Z
    /\ wireBody res = None
    /\ forall t, t ∈ documents st' -> _id t <> id.
Proof.
  intros Hid Hex. apply find_existing in Hex as (t & Hfind & _).
  unfold deleteTaskRoute, deleteTask, Task_findByIdAndDelete.
  rewrite Hid. simpl. rewrite Hfind.
  do 2 eexists. split; [reflexivity|]. split; [reflexivity|].
  split; [reflexivity|].
  simpl. intros t' Hin Heq. apply list_elem_of_In, filter_In in Hin as [_ Hno].
  unfold hasId in Hno. rewrite Heq, String.eqb_refl in Hno. discriminate.
Qed.

End ControllerClaims.

(** ** The claims about listing *)

Section ListingClaims.
Context `{Platform}.

Lemma split_nonempty sep s : JsString.split sep s <> [].
Proof.
  destruct s as [|c s]; simpl; [discriminate|].
  destruct (Ascii.eqb c sep); [discriminate|].
  destruct (JsString.split sep s); discriminate.
Qed.

Lemma join_cons_char sep c w ws :
  JsString.join sep (String c w :: ws) = String c (JsString.join sep (w :: ws)).
Proof. destruct ws; reflexivity. Qed.

(** Splitting at the commas and joining with spaces replaces every comma
    by a space. *)
Lemma split_join_commaSeparated s :
  JsString.join " " (JsString.split "," s) = commaSeparated s.
Proof.
  induction s as [|c s IH]; [reflexivity|].
  simpl. destruct (Ascii.eqb c ",") eqn:Hc.
  - destruct (JsString.split "," s) as [|w ws] eqn:E;
      [exfalso; exact (split_nonempty _ _ E)|].
    change (JsString.join " " ("" :: w :: ws))
      with (String " " (JsString.join " " (w :: ws))).
    rewrite IH. reflexivity.
  - destruct (JsString.split "," s) as [|w ws] eqn:E;
      [exfalso; exact (split_nonempty _ _ E)|].
    rewrite join_cons_char, IH. reflexivity.
Qed.

Lemma truthy_given s :
  (if JsString.truthy s then Some s else None) = given (Some s).
Proof.
  unfold JsString.truthy, given.
  destruct (String.eqb_spec s ""); destruct (decide (s = "")); simpl;
    congruence.
Qed.

Lemma orElse_numberOr d o :
  orElse (o ≫= JsString.parseInt) d = numberOr d o.
Proof.
  unfold orElse, numberOr.
  destruct (o ≫= JsString.parseInt) as [[|p|p]|]; reflexivity.
Qed.

Lemma delete_reserved (query : gmap string string) :
  foldl (fun obj field => delete field obj) query excludedFields
  = filter (fun kv => fst kv ∉ reserved) query.
Proof.
  apply map_eq. intros k. unfold excludedFields, reserved. simpl.
  rewrite map_lookup_filter.
  destruct (decide (k ∈ ["page"; "sort"; "limit"; "fields"])) as [Hk|Hk].
  - transitivity (@None string).
    + repeat (apply elem_of_cons in Hk as [->|Hk]);
        [| | | |inversion Hk]; by simplify_map_eq.
    + destruct (query !! k); [|reflexivity].
      simpl. rewrite option_guard_False; [reflexivity | simpl; tauto].
  - transitivity (query !! k).
    + rewrite !lookup_delete_ne; [reflexivity|..];
        intros Heq; apply Hk; rewrite <- Heq; set_solver.
    + destruct (query !! k); [|reflexivity].
      simpl. rewrite option_guard_True; [reflexivity | exact Hk].
Qed.











(** On a query string whose parameters are all strings, the query built is
    the one the specification words. *)
Lemma buildQuery_as_specified (query : gmap string string) :
  buildQuery query = specifiedQuery query.
Proof.
  unfold buildQuery, specifiedQuery.
  rewrite delete_reserved, !orElse_numberOr.
  assert (Hsort :
    match query !! "sort" with
    | Some s =>
        if JsString.truthy s
        then Query.sort (JsString.join " " (JsString.split "," s))
               (Query.find (filter (fun kv => fst kv ∉ reserved) query))
        else Query.sort "deadline"
               (Query.find (filter (fun kv => fst kv ∉ reserved) query))
    | None => Query.sort "deadline"
                (Query.find (filter (fun kv => fst kv ∉ reserved) query))
    end
    = Query.sort
        (from_option commaSeparated "deadline" (given (query !! "sort")))
        (Query.find (filter (fun kv => fst kv ∉ reserved) query))).
  { destruct (query !! "sort") as [s|]; [|reflexivity].
    rewrite <- truthy_given, split_join_commaSeparated.
    destruct (JsString.truthy s); reflexivity. }
  rewrite Hsort. clear Hsort.
  destruct (query !! "fields") as [s|]; [|reflexivity].
  rewrite <- truthy_given, split_join_commaSeparated.
  destruct (JsString.truthy s); reflexivity.
Qed.





End ListingClaims.

Section DefaultListing.
Context `{Platform}.

Lemma precedes_deadline (a b : task) :
  Query.precedes byDeadline a b <-> (deadline a <= deadline b)%Z.
Proof.
  unfold Query.precedes, byDeadline, Query.compareBy.
  change (Query.compareField "deadline" a b)
    with (Z.compare (deadline a) (deadline b)).
  unfold Z.le. destruct (Z.compare (deadline a) (deadline b)); split; congruence.
Qed.

Lemma precedes_deadline_total : Total (Query.precedes byDeadline).
Proof. intros a b. rewrite !precedes_deadline. lia. Qed.

Lemma sorted_by_deadline (l : list task) :
  Sorted (fun a b => (deadline a <= deadline b)%Z)
         (merge_sort (Query.precedes byDeadline) l).
Proof.
  pose proof (@Sorted_merge_sort _ (Query.precedes byDeadline) _
                precedes_deadline_total l) as Hs.
  induction Hs as [|a l' _ IH Hhd]; constructor; [exact IH|].
  destruct Hhd as [|b l'' Hab]; constructor.
  apply precedes_deadline, Hab.
Qed.

Lemma filter_no_test (docs : list task) :
  List.filter (fun d => forallb (fun test : task -> bool => test d) []) docs = docs.
Proof. induction docs as [|d docs IH]; simpl in *; [reflexivity | f_equal; exact IH]. Qed.

Lemma project_default (t : task) :
  Query.project
    (List.filter (fun kv : string * json => negb (bool_decide (fst kv ∈ ["__v"]))))
    (toJSON t)
  = listed t.
Proof. unfold toJSON, listed, jsonObject. destruct (description t); reflexivity. Qed.

(** The query built for a request without parameters, run on a store. *)
Lemma exec_default (st : store) :
  Query.exec st (buildQuery ∅)
  = (logged "find" st,
     Return (listed <$> take 10 (merge_sort (Query.precedes byDeadline)
                                            (documents st)))).
Proof.
  unfold Query.exec.
  change (Query.conditions (buildQuery ∅)) with (∅ : gmap string string).
  rewrite map_to_list_empty. simpl Query.castConditions. cbv iota beta.
  change (Query.parseSelect (default "" (Query.selectArg (buildQuery ∅))))
    with (Some (List.filter (fun kv : string * json =>
                               negb (bool_decide (fst kv ∈ ["__v"]))))).
  change (default 0%Z (Query.skipArg (buildQuery ∅)) <? 0)%Z with false.
  cbv iota beta.
  change (Query.parseSort (default "" (Query.sortArg (buildQuery ∅))))
    with byDeadline.
  change (Query.window (Query.skipArg (buildQuery ∅))
                       (Query.limitArg (buildQuery ∅)))
    with (fun docs : list task => take 10 docs).
  cbv beta. simpl documents. rewrite filter_no_test.
  f_equal. f_equal. apply list_fmap_ext. intros i t _.
  apply project_default.
Qed.

(** C2 (as the code has it).  A list request with no query parameters
    returns the ten records with the earliest deadlines, in ascending
    order of deadline, or all the records when there are at most ten; the
    count reported is the number of records returned. *)
Theorem list_default_returns_first_ten_by_deadline (NODE_ENV : option string)
    (st : store) :
  exists sorted,
    sorted ≡ₚ documents st
    /\ Sorted (fun a b => (deadline a <= deadline b)%Z) sorted
    /\ getTasks NODE_ENV st ∅
       = (logged "find" st, Return (listResponse (take 10 sorted)))
    /\ length (take 10 sorted) = Nat.min 10 (length (documents st))
    /\ ((length (documents st) <= 10)%nat -> take 10 sorted = sorted).
Proof.
  exists (merge_sort (Query.precedes byDeadline) (documents st)).
  pose proof (merge_sort_Permutation (Query.precedes byDeadline) (documents st))
    as Hperm.
  split; [exact Hperm|]. split; [apply sorted_by_deadline|]. split; [|split].
  - unfold getTasks, getAllTasks. rewrite exec_default.
    unfold handled, send, listResponse, success, jsonObject. simpl.
    rewrite length_fmap. reflexivity.
  - rewrite length_take, (Permutation_length Hperm). reflexivity.
  - intros Hlen. apply take_ge. rewrite (Permutation_length Hperm). exact Hlen.
Qed.

End DefaultListing.

(** ** The round trip through the store *)

Section RoundTrip.
Context `{Platform}.

Lemma find_fresh (id : string) (docs : list task) (doc : task) :
  (forall t, t ∈ docs -> _id t <> id) -> _id doc = id ->
  existsb (hasId id) docs = false
  /\ List.find (hasId id) (docs ++ [doc]) = Some doc.
Proof.
  intros Hfresh Hdoc. induction docs as [|d docs IH]; simpl.
  - split; [reflexivity|]. unfold hasId. rewrite Hdoc, String.eqb_refl. reflexivity.
  - assert (Hd : hasId id d = false).
    { unfold hasId. apply String.eqb_neq, Hfresh, elem_of_cons. left. reflexivity. }
    rewrite Hd. simpl. apply IH. intros t Ht. apply Hfresh, elem_of_cons. right. exact Ht.
Qed.

(** The round trip of a payload that the create schema lets through and
    whose deadline is still ahead when the document is saved. *)
Lemma accepted_create_round_trip (NODE_ENV : option string)
    (st : store) (oid : string) (validatedAt now : Z)
    (body sanitized : gmap string json) (due : json) (t : Z) :
  validateRequest createTaskSchema validatedAt body = Next sanitized ->
  body !! "deadline" = Some due -> deadlineInstant due = Some t -> (now < t)%Z ->
  objectid_valid oid = true ->
  (forall d, d ∈ documents st -> _id d <> oid) ->
  exists task st1 st2,
    postTasks NODE_ENV st oid validatedAt now body
    = (st1, Return (taskResponse 201 task))
    /\ documents st1 = documents st ++ [task]
    /\ getTask NODE_ENV st1 oid = (st2, Return (taskResponse 200 task))
    /\ _id task = oid /\ createdAt task = now /\ updatedAt task = now
    /\ (exists s, body !! "title" = Some (JStr s)
                  /\ title task = JsString.trim s)
    /\ description task
       = match body !! "description" with
         | Some (JStr s) => Some (JsString.trim s)
         | _ => None
         end
    /\ (exists s, body !! "category" = Some (JStr s)
                  /\ category task = JsString.trim s)
    /\ (exists s, body !! "priority" = Some (JStr s)
                  /\ priority task = JsString.trim s)
    /\ deadline task = t
    /\ completed task
       = match body !! "completed" with
         | Some flag => default false (completedFlag flag)
         | None => false
         end.
Proof.
  intros Hvalid Hdue Ht Hahead Hoid Hfresh.
  destruct (validateRequest_Next validatedAt _ _ _ (taskSchemaFor_NoDup false) Hvalid)
    as [Hkeys _].
  assert (Hkey : forall k, k ∈ taskKeys ->
            Joi.validateKey validatedAt validationPrefs k
              (keySchema (taskSchemaFor false) k) (body !! k)
            = (sanitized !! k, [])).
  { intros k Hk. apply Hkeys, (taskSchemaFor_key false), Hk. }
  pose proof (Hkey "title" ltac:(key_in)) as Htitle.
  apply title_clean in Htitle as [(? & _) | (s1 & Hb1 & Hs1 & Hlen1)];
    [discriminate|].
  pose proof (Hkey "category" ltac:(key_in)) as Hcat.
  apply category_clean in Hcat as [(? & _) | (s3 & Hb3 & Hs3 & Hin3)];
    [discriminate|].
  pose proof (Hkey "priority" ltac:(key_in)) as Hprio.
  apply priority_clean in Hprio as [(? & _) | (s4 & Hb4 & Hs4 & Hin4)];
    [discriminate|].
  pose proof (Hkey "deadline" ltac:(key_in)) as Hdl.
  apply deadline_clean in Hdl as [(? & _) | (due' & t' & Hb5 & Ht' & Hs5 & _)];
    [discriminate|].
  assert (t' = t) as -> by congruence. clear due' Hb5 Ht'.
  pose proof (Hkey "description" ltac:(key_in)) as Hdesc.
  pose proof (Hkey "completed" ltac:(key_in)) as Hcomp.
  set (d := match body !! "description" with
            | Some (JStr s) => Some (JsString.trim s)
            | _ => None
            end).
  set (c := match body !! "completed" with
            | Some flag => default false (completedFlag flag)
            | None => false
            end).
  assert (Hd : checkString Schema.description (sanitized !! "description")
               = Schema.Ok d).
  { apply description_clean in Hdesc as [(Hb & ->) | (s2 & Hb & -> & Hlen)];
      unfold d; rewrite Hb; [reflexivity | apply checkString_description, Hlen]. }
  assert (Hc : exists co, checkCompleted (sanitized !! "completed") = Schema.Ok co
                          /\ default Schema.completedDefault co = c).
  { apply completed_clean in Hcomp as [(Hb & ->) | (flag & b & Hb & Hflag & ->)];
      unfold c; rewrite Hb.
    - exists (Some false). split; reflexivity.
    - exists (Some b). rewrite Hflag. split; reflexivity. }
  destruct Hc as (co & Hco & Hc).
  set (task := {| _id := oid; title := JsString.trim s1; description := d;
                  category := JsString.trim s3; priority := JsString.trim s4;
                  deadline := t; completed := c;
                  createdAt := now; updatedAt := now; __v := 0 |}).
  destruct (find_fresh oid (documents st) task Hfresh eq_refl) as [Hnew Hfind].
  assert (Hcreate :
    Task_create st oid now sanitized
    = ({| documents := documents st ++ [task];
          operations := operations st ++ ["create"] |}, Return task)).
  { unfold Task_create.
    rewrite Hs1, Hs3, Hs4, Hs5, Hd, Hco.
    rewrite (checkString_title s1 Hlen1), (checkString_category s3 Hin3),
      (checkString_priority s4 Hin4).
    unfold checkDeadline, castDate, Schema.deadlineValidator.
    apply Z.ltb_lt in Hahead. rewrite Hahead.
    simpl documents. rewrite Hnew, Hc. reflexivity. }
  exists task. do 2 eexists.
  split; [|split; [|split]].
  - unfold postTasks. rewrite Hvalid. unfold createTask. rewrite Hcreate.
    reflexivity.
  - reflexivity.
  - unfold getTask, getTaskById, Task_findById. rewrite Hoid.
    simpl documents. rewrite Hfind. reflexivity.
  - repeat split; eauto.
Qed.

(** A payload that meets the data model goes through the create schema. *)
Lemma valid_create_accepted (validatedAt now : Z) (body : gmap string json) :
  validCreate now body = true -> (validatedAt <= now)%Z ->
  exists sanitized due t,
    validateRequest createTaskSchema validatedAt body = Next sanitized
    /\ body !! "deadline" = Some due /\ deadlineInstant due = Some t
    /\ (now < t)%Z.
Proof.
  intros Hvalid Hclock. unfold validCreate in Hvalid.
  apply andb_true_iff in Hvalid as [Hvalid Hcompleted].
  apply andb_true_iff in Hvalid as [Hvalid Hdeadline].
  apply andb_true_iff in Hvalid as [Hvalid Hpriority].
  apply andb_true_iff in Hvalid as [Hvalid Hcategory].
  apply andb_true_iff in Hvalid as [Htitle Hdescription].
  destruct (body !! "title") as [[| | |s1| | |]|] eqn:Ht; try discriminate.
  destruct (body !! "category") as [[| | |s3| | |]|] eqn:Hc; try discriminate.
  destruct (body !! "priority") as [[| | |s4| | |]|] eqn:Hp; try discriminate.
  destruct (body !! "deadline") as [due|] eqn:Hd; [|discriminate].
  change (Some due ≫= deadlineInstant) with (deadlineInstant due) in Hdeadline.
  destruct (deadlineInstant due) as [t|] eqn:Hdue; [|discriminate].
  apply andb_true_iff in Htitle as [Hmin Hmax].
  apply Nat.leb_le in Hmin, Hmax.
  apply bool_decide_eq_true in Hcategory, Hpriority.
  apply Z.ltb_lt in Hdeadline.
  assert (Hnil : keyErrors validatedAt validationPrefs body
                   (Joi.o_keys (taskSchemaFor false)) = []).
  { apply keyErrors_nil. intros k s Hin.
    apply (taskSchemaFor_elem false) in Hin as [Hk ->].
    unfold taskKeys in Hk.
    repeat (apply elem_of_cons in Hk as [->|Hk]); [| | | | | |inversion Hk].
    - rewrite Ht, (title_accept validatedAt false s1) by lia. reflexivity.
    - destruct (body !! "description") as [[| | |s2| | |]|] eqn:Hdesc;
        try discriminate; [|reflexivity].
      rewrite (description_accept validatedAt false s2); [reflexivity|].
      apply Nat.leb_le, Hdescription.
    - rewrite Hc, (category_accept validatedAt false s3) by assumption.
      reflexivity.
    - rewrite Hp, (priority_accept validatedAt false s4) by assumption.
      reflexivity.
    - rewrite Hd, (deadline_accept validatedAt false due t Hdue) by lia.
      reflexivity.
    - destruct (body !! "completed") as [flag|] eqn:Hflag; [|reflexivity].
      apply bool_decide_eq_true in Hcompleted as [b Hb].
      rewrite (completed_accept validatedAt false flag b Hb). reflexivity. }
  destruct (validate_outcome validatedAt (taskSchemaFor false) body
              (taskSchemaFor_NoDup false)) as [_ Herror].
  rewrite Hnil in Herror.
  exists (Joi.value (Joi.validate validatedAt createTaskSchema body validationPrefs)),
    due, t.
  split; [|split; [reflexivity | split; [exact Hdue | exact Hdeadline]]].
  rewrite validateRequest_unfold.
  change (taskSchemaFor false) with createTaskSchema in Herror.
  rewrite Herror. reflexivity.
Qed.

(** The properties of the task in a task response are the fields of the
    task. *)
Lemma taskResponse_fields (code : Z) (t : task) :
  res_status (taskResponse code t) = code
  /\ getProp "status" (res_json (taskResponse code t)) = Some (JStr "success")
  /\ taskField "_id" (taskResponse code t) = Some (JStr (_id t))
  /\ taskField "title" (taskResponse code t) = Some (JStr (title t))
  /\ taskField "description" (taskResponse code t) = JStr <$> description t
  /\ taskField "category" (taskResponse code t) = Some (JStr (category t))
  /\ taskField "priority" (taskResponse code t) = Some (JStr (priority t))
  /\ taskField "deadline" (taskResponse code t) = Some (JDate (deadline t))
  /\ taskField "completed" (taskResponse code t) = Some (JBool (completed t))
  /\ taskField "createdAt" (taskResponse code t) = Some (JDate (createdAt t))
  /\ taskField "updatedAt" (taskResponse code t) = Some (JDate (updatedAt t)).
Proof.
  unfold taskField, taskOf, taskResponse, toJSON, jsonObject.
  destruct (description t); repeat split; reflexivity.
Qed.

(** C7.  A create payload that meets the data model when the document is
    saved is answered 201, and getting the generated identifier is answered
    200, both with the status string [success] and the same task in
    [data.task].  That task carries the generated identifier, the title,
    the category and the priority submitted, trimmed, the description
    likewise when one was submitted and none otherwise, the instant of the
    deadline submitted, the completion flag submitted or false, and both
    timestamps, set to the time of saving.  One document is added to the
    store, under that identifier. *)
Theorem create_then_get_returns_submitted_fields (NODE_ENV : option string)
    (st : store) (oid : string) (validatedAt now : Z)
    (body : gmap string json) :
  validCreate now body = true -> (validatedAt <= now)%Z ->
  objectid_valid oid = true ->
  existsb (hasId oid) (documents st) = false ->
  exists created fetched task st1 st2,
    postTasks NODE_ENV st oid validatedAt now body = (st1, Return created)
    /\ getTask NODE_ENV st1 oid = (st2, Return fetched)
    /\ res_status created = 201%Z /\ res_status fetched = 200%Z
    /\ getProp "status" (res_json created) = Some (JStr "success")
    /\ getProp "status" (res_json fetched) = Some (JStr "success")
    /\ is_Some (taskOf created) /\ taskOf fetched = taskOf created
    /\ taskField "_id" created = Some (JStr oid)
    /\ (exists s, body !! "title" = Some (JStr s)
                  /\ taskField "title" created = Some (JStr (JsString.trim s)))
    /\ taskField "description" created
       = match body !! "description" with
         | Some (JStr s) => Some (JStr (JsString.trim s))
         | _ => None
         end
    /\ (exists s, body !! "category" = Some (JStr s)
                  /\ taskField "category" created = Some (JStr (JsString.trim s)))
    /\ (exists s, body !! "priority" = Some (JStr s)
                  /\ taskField "priority" created = Some (JStr (JsString.trim s)))
    /\ (exists t, body !! "deadline" ≫= deadlineInstant = Some t
                  /\ taskField "deadline" created = Some (JDate t))
    /\ taskField "completed" created
       = Some (JBool match body !! "completed" with
                     | Some flag => default false (completedFlag flag)
                     | None => false
                     end)
    /\ taskField "createdAt" created = Some (JDate now)
    /\ taskField "updatedAt" created = Some (JDate now)
    /\ documents st1 = documents st ++ [task]
    /\ _id task = oid.
Proof.
  intros Hvalid Hclock Hoid Hfresh.
  destruct (valid_create_accepted validatedAt now body Hvalid Hclock)
    as (sanitized & due & t & Haccept & Hdue & Ht & Hahead).
  assert (Hnone : forall d, d ∈ documents st -> _id d <> oid).
  { intros d Hd Heq. apply list_elem_of_In in Hd.
    assert (Hex : existsb (hasId oid) (documents st) = true).
    { apply existsb_exists. exists d. split; [exact Hd|].
      unfold hasId. rewrite Heq. apply String.eqb_refl. }
    congruence. }
  destruct (accepted_create_round_trip NODE_ENV st oid validatedAt now body
              sanitized due t Haccept Hdue Ht Hahead Hoid Hnone)
    as (task & st1 & st2 & Hpost & Hdocs & Hget & Hid & Hcreated & Hupdated
        & (s1 & Hs1 & Htitle) & Hdescription & (s3 & Hs3 & Hcategory)
        & (s4 & Hs4 & Hpriority) & Hdeadline & Hcompleted).
  destruct (taskResponse_fields 201 task)
    as (C1 & C2 & C3 & C4 & C5 & C6 & C7 & C8 & C9 & C10 & C11).
  destruct (taskResponse_fields 200 task) as (F1 & F2 & _).
  exists (taskResponse 201 task), (taskResponse 200 task), task, st1, st2.
  split; [exact Hpost|]. split; [exact Hget|].
  split; [exact C1|]. split; [exact F1|].
  split; [exact C2|]. split; [exact F2|].
  split; [eexists; reflexivity|]. split; [reflexivity|].
  split; [rewrite C3, Hid; reflexivity|].
  split; [exists s1; split; [exact Hs1 | rewrite C4, Htitle; reflexivity]|].
  split.
  { rewrite C5, Hdescription.
    destruct (body !! "description") as [[]|]; reflexivity. }
  split; [exists s3; split; [exact Hs3 | rewrite C6, Hcategory; reflexivity]|].
  split; [exists s4; split; [exact Hs4 | rewrite C7, Hpriority; reflexivity]|].
  split.
  { exists t. split; [rewrite Hdue; exact Ht | rewrite C8, Hdeadline; reflexivity]. }
  split; [rewrite C9, Hcompleted; reflexivity|].
  split; [rewrite C10, Hcreated; reflexivity|].
  split; [rewrite C11, Hupdated; reflexivity|].
  split; [exact Hdocs | exact Hid].
Qed.

End RoundTrip.

(** * The claims at concrete requests

    The statements above, run on the sample platform: 2026-01-01 is the
    time of the requests, the store holds one task, or eleven. *)

(** C1, as stated, fails: an update carrying only a valid title and a
    deadline in 2020 has no other field at fault, and the update schema
    refuses it with the entry of the deadline. *)
Lemma update_past_deadline_counterexample :
  Forall (fun k => @violations Sample.platform Sample.now true
                     Sample.pastDeadlineUpdate k = [])
         ["title"; "description"; "category"; "priority"; "completed"]
  /\ @deadlineInstant Sample.platform (JStr "2020-01-01T00:00:00.000Z")
     = Some 1577836800000%Z
  /\ (1577836800000 < Sample.now)%Z
  /\ @validateRequest Sample.platform updateTaskSchema Sample.now
       Sample.pastDeadlineUpdate
     = Responded
         {| res_status := 400;
            res_json :=
              JObj [("status", JStr "error");
                    ("message", JStr "Validation error");
                    ("errors",
                     JArr [errorEntry "deadline" "Deadline must be in the future"])] |}.
Proof.
  split; [repeat constructor|].
  split; [reflexivity|]. split; [reflexivity|].
  vm_compute. reflexivity.
Qed.

Lemma update_with_past_deadline_witness :
  exists entries,
    @putTask Sample.platform None Sample.oneTask Sample.id1 Sample.now Sample.now
      Sample.pastDeadlineUpdate
    = (Sample.oneTask,
       Return {| res_status := 400;
                 res_json := JObj [("status", JStr "error");
                                   ("message", JStr "Validation error");
                                   ("errors", JArr entries)] |})
    /\ errorEntry "deadline" "Deadline must be in the future" ∈ entries.
Proof.
  destruct (@update_with_past_deadline_is_refused Sample.platform None
              Sample.oneTask Sample.id1 Sample.now Sample.now
              Sample.pastDeadlineUpdate (JStr "2020-01-01T00:00:00.000Z")
              1577836800000%Z)
    as (entries & _ & Hput & Hin & _);
    [vm_compute; reflexivity | reflexivity | vm_compute; reflexivity |].
  exists entries. split; assumption.
Defined.

(** C2, as stated, fails: of eleven stored tasks a request without
    parameters returns ten. *)
Lemma list_default_truncates_counterexample :
  length (documents Sample.elevenTasks) = 11%nat
  /\ exists tasks,
       snd (@getTasks Sample.platform None Sample.elevenTasks ∅)
       = Return {| res_status := 200;
                   res_json := JObj [("status", JStr "success");
                                     ("results", JNum 10);
                                     ("data", JObj [("tasks", JArr tasks)])] |}
       /\ length tasks = 10%nat.
Proof.
  split; [reflexivity|]. eexists. split; [vm_compute; reflexivity | reflexivity].
Qed.

(** C3, as stated, fails: a body that is not JSON is answered with a 4xx
    status code and the status string [error]. *)
Lemma malformed_json_status_counterexample :
  exists res,
    @errorHandler Sample.platform None
      (@malformedJson Sample.platform "Unexpected token i in JSON at position 1"
         "{invalid-json")
    = Return res
    /\ is4xx (res_status res)
    /\ getProp "status" (res_json res) = Some (JStr "error")
    /\ ~ (getProp "status" (res_json res) = Some (JStr "fail")
          <-> is4xx (res_status res)).
Proof.
  eexists. split; [vm_compute; reflexivity|].
  assert (H4 : is4xx 400) by (unfold is4xx; lia).
  split; [exact H4|]. split; [reflexivity|].
  simpl. intros [_ Hfail]. specialize (Hfail H4). discriminate.
Qed.



Lemma absent_is_404_present_is_success_witness :
  snd (@getTask Sample.platform None Sample.oneTask Sample.id1)
  = Return (@taskResponse Sample.platform 200
              (Sample.taskDue Sample.id1 "Test Task" 1893456000000))
  /\ snd (@getTask Sample.platform None Sample.oneTask Sample.id2)
     = Return notFoundResponse.
Proof.
  split.
  - destruct (@absent_is_404_present_is_success Sample.platform None
                Sample.oneTask Sample.now Sample.now Sample.id1 ∅)
      as ((st' & o & Hrepo & Hget) & _); [vm_compute; reflexivity|].
    rewrite Hget. vm_compute in Hrepo. injection Hrepo as _ <-. reflexivity.
  - destruct (@absent_is_404_present_is_success Sample.platform None
                Sample.oneTask Sample.now Sample.now Sample.id2 ∅)
      as ((st' & o & Hrepo & Hget) & _); [vm_compute; reflexivity|].
    rewrite Hget. vm_compute in Hrepo. injection Hrepo as _ <-. reflexivity.
Defined.

Lemma invalid_create_witness :
  exists entries,
    @postTasks Sample.platform None Sample.oneTask Sample.id2 Sample.now
      Sample.now Sample.badPriorityBody
    = (Sample.oneTask,
       Return {| res_status := 400;
                 res_json := JObj [("status", JStr "error");
                                   ("message", JStr "Validation error");
                                   ("errors", JArr entries)] |})
    /\ errorEntry "priority" "Priority must be one of: Low, Medium, High"
         ∈ entries.
Proof.
  destruct (@invalid_create_leaves_store_untouched Sample.platform None
              Sample.oneTask Sample.id2 Sample.now Sample.now
              Sample.badPriorityBody "priority")
    as (entries & Hpost & _ & _ & Hprio);
    [key_in | vm_compute; discriminate |].
  exists entries. split; [exact Hpost|].
  apply (Hprio "InvalidPriority"); [vm_compute; reflexivity|].
  apply (bool_decide_unpack _). vm_compute. exact I.
Defined.

Lemma create_then_get_witness :
  exists created fetched st1 st2,
    @postTasks Sample.platform None Sample.oneTask Sample.id2 Sample.now
      (Sample.now + 5) Sample.validBody
    = (st1, Return created)
    /\ @getTask Sample.platform None st1 Sample.id2 = (st2, Return fetched)
    /\ res_status created = 201%Z /\ res_status fetched = 200%Z
    /\ taskOf fetched = taskOf created
    /\ taskField "_id" created = Some (JStr Sample.id2)
    /\ taskField "title" created = Some (JStr "Test Task")
    /\ taskField "completed" created = Some (JBool false)
    /\ taskField "deadline" created = Some (JDate 1893456000000)
    /\ taskField "createdAt" created = Some (JDate (Sample.now + 5)).
Proof.
  destruct (@create_then_get_returns_submitted_fields Sample.platform None
              Sample.oneTask Sample.id2 Sample.now (Sample.now + 5)%Z
              Sample.validBody)
    as (created & fetched & task & st1 & st2 & Hpost & Hget & Hc & Hf & _ & _
        & _ & Hsame & Hid & (s & Hs & Htitle) & _ & _ & _ & (t & Ht & Hdue)
        & Hdone & Hat & _);
    [ vm_compute; reflexivity | vm_compute; discriminate
    | vm_compute; reflexivity | vm_compute; reflexivity | ].
  exists created, fetched, st1, st2.
  split; [exact Hpost|]. split; [exact Hget|].
  split; [exact Hc|]. split; [exact Hf|]. split; [exact Hsame|].
  split; [exact Hid|].
  vm_compute in Hs. injection Hs as <-.
  vm_compute in Ht. injection Ht as <-.
  split; [exact Htitle|]. split; [exact Hdone|].
  split; [exact Hdue | exact Hat].
Defined.

Lemma delete_existing_witness :
  exists st' res,
    @deleteTaskRoute Sample.platform None Sample.oneTask Sample.id1 = (st', Return res)
    /\ res_status res = 204%Z /\ wireBody res = None.
Proof.
  destruct (@delete_existing_is_204_without_body Sample.platform None
              Sample.oneTask Sample.id1)
    as (st' & res & Hdel & Hcode & Hbody & _);
    [ vm_compute; reflexivity
    | eexists; split; [apply list_elem_of_singleton; reflexivity | reflexivity] | ].
  exists st', res. repeat split; assumption.
Defined.

Lemma operational_error_witness :
  @errorHandler Sample.platform (Some "development")
    (@AppError Sample.platform "Task not found" 404)
  = @errorHandler Sample.platform (Some "production")
      (@AppError Sample.platform "Task not found" 404)
  /\ @errorHandler Sample.platform (Some "development")
       (@AppError Sample.platform "Task not found" 404)
     = Return notFoundResponse.
Proof.
  destruct (@operational_error_body_ignores_environment Sample.platform
              (Some "development") (Some "production")
              (@AppError Sample.platform "Task not found" 404))
    as (Hsame & _ & Hbody); [reflexivity|].
  split; [exact Hsame|]. apply (Hbody "Task not found" 404%Z). reflexivity.
Defined.

(** Two fields at fault are both reported, in the order of the schema. *)
Example two_violations_are_both_reported :
  @validateRequest Sample.platform createTaskSchema Sample.now
    (<["title" := JStr " a "]> Sample.badPriorityBody)
  = Responded
      {| res_status := 400;
         res_json :=
           JObj [("status", JStr "error");
                 ("message", JStr "Validation error");
                 ("errors",
                  JArr [errorEntry "title" "Title must be at least 3 characters long";
                        errorEntry "priority"
                          "Priority must be one of: Low, Medium, High"])] |}.
Proof. vm_compute. reflexivity. Qed.

(** An update without any known field is refused for the object as a whole. *)
Example empty_update_is_refused :
  @validateRequest Sample.platform updateTaskSchema Sample.now
    {[ "owner" := JStr "nobody" ]}
  = Responded
      {| res_status := 400;
         res_json :=
           JObj [("status", JStr "error");
                 ("message", JStr "Validation error");
                 ("errors",
                  JArr [errorEntry ""
                          "At least one field must be provided for update"])] |}.
Proof. vm_compute. reflexivity. Qed.

(** A malformed identifier is answered 400 with status [fail]; the stack is
    part of the body in development only. *)
Example cast_error_in_development :
  snd (@getTask Sample.platform (Some "development") Sample.oneTask "invalid-id")
  = Return {| res_status := 400;
              res_json :=
                JObj [("status", JStr "fail");
                      ("message", JStr "Invalid _id: invalid-id");
                      ("stack",
                       JStr "Error: Invalid _id: invalid-id at <anonymous>")] |}
  /\ snd (@getTask Sample.platform (Some "production") Sample.oneTask "invalid-id")
     = Return {| res_status := 400;
                 res_json :=
                   JObj [("status", JStr "fail");
                         ("message", JStr "Invalid _id: invalid-id")] |}.
Proof. split; vm_compute; reflexivity. Qed.

(** Deleting a task and getting it again: 204, then 404. *)
Example delete_then_get :
  let '(st, deleted) := @deleteTaskRoute Sample.platform None Sample.oneTask Sample.id1 in
  deleted = Return deletedResponse
  /\ snd (@getTask Sample.platform None st Sample.id1) = Return notFoundResponse.
Proof. vm_compute. split; reflexivity. Qed.

(** * Further properties of the code *)

(** ** Identifiers: removal and malformed identifiers *)

Section Identifiers.
Context `{Platform}.

Lemma find_after_removal (id : string) (docs : list task) :
  List.find (hasId id) (List.filter (fun d => negb (hasId id d)) docs) = None.
Proof.
  induction docs as [|d docs IH]; simpl; [reflexivity|].
  destruct (hasId id d) eqn:E; simpl; [exact IH|]. rewrite E. exact IH.
Qed.

(** X1.  Once a delete request with a well-formed identifier has been
    handled, whatever its answer, no stored document carries the identifier:
    getting it, deleting it again and updating it with a payload that
    validation lets through are all answered 404 [Task not found]. *)
Theorem deleted_task_is_gone (NODE_ENV : option string) (st : store)
    (id : string) (validatedAt now : Z) (body : gmap string json) :
  objectid_valid id = true ->
  exists st1 r,
    deleteTaskRoute NODE_ENV st id = (st1, r)
    /\ List.find (hasId id) (documents st1) = None
    /\ snd (getTask NODE_ENV st1 id) = Return notFoundResponse
    /\ snd (deleteTaskRoute NODE_ENV st1 id) = Return notFoundResponse
    /\ (forall sanitized,
          validateRequest updateTaskSchema validatedAt body = Next sanitized ->
          snd (putTask NODE_ENV st1 id validatedAt now body)
          = Return notFoundResponse).
Proof.
  intros Hid.
  assert (Hgone : exists st1 r,
             deleteTaskRoute NODE_ENV st id = (st1, r)
             /\ List.find (hasId id) (documents st1) = None).
  { unfold deleteTaskRoute, deleteTask, Task_findByIdAndDelete. rewrite Hid.
    simpl. destruct (List.find (hasId id) (documents st)) as [t|] eqn:E.
    - do 2 eexists. split; [reflexivity|]. apply find_after_removal.
    - do 2 eexists. split; [reflexivity|]. exact E. }
  destruct Hgone as (st1 & r & Hdel & Hnone).
  exists st1, r. split; [exact Hdel|]. split; [exact Hnone|].
  split; [|split].
  - unfold getTask, getTaskById, Task_findById. rewrite Hid. simpl.
    rewrite Hnone. reflexivity.
  - unfold deleteTaskRoute, deleteTask, Task_findByIdAndDelete. rewrite Hid.
    simpl. rewrite Hnone. reflexivity.
  - intros sanitized Hvalid.
    destruct (update_accepted st1 validatedAt now id body sanitized Hid Hvalid)
      as (st' & o & Hrepo & Hnothing).
    unfold putTask, updateTask. rewrite Hvalid, Hrepo.
    rewrite (proj2 Hnothing Hnone). reflexivity.
Qed.

Lemma malformed_id_answer (NODE_ENV : option string) (id : string) :
  errorHandler NODE_ENV (castError "_id" (JStr id))
  = Return (malformedIdResponse NODE_ENV id).
Proof.
  unfold errorHandler, handleError, malformedIdResponse, badRequest. simpl.
  destruct (bool_decide (NODE_ENV = Some "development")); reflexivity.
Qed.

(** X2.  An identifier that is not well formed is answered 400 with the
    status string [fail] and the message [Invalid _id: <id>] by get-by-id,
    delete and (for a payload that validation lets through) update, whether
    or not a document could have matched; the documents are left as they
    were. *)
Theorem malformed_id_is_400 (NODE_ENV : option string) (st : store)
    (id : string) (validatedAt now : Z) (body : gmap string json) :
  objectid_valid id = false ->
  failsWith 400 ("Invalid _id: " +:+ id) (malformedIdResponse NODE_ENV id)
  /\ (exists st', getTask NODE_ENV st id
                  = (st', Return (malformedIdResponse NODE_ENV id))
                  /\ documents st' = documents st)
  /\ (exists st', deleteTaskRoute NODE_ENV st id
                  = (st', Return (malformedIdResponse NODE_ENV id))
                  /\ documents st' = documents st)
  /\ (forall sanitized,
        validateRequest updateTaskSchema validatedAt body = Next sanitized ->
        exists st', putTask NODE_ENV st id validatedAt now body
                    = (st', Return (malformedIdResponse NODE_ENV id))
                    /\ documents st' = documents st).
Proof.
  intros Hid. split; [|split; [|split]].
  - unfold failsWith, malformedIdResponse, badRequest.
    destruct (bool_decide (NODE_ENV = Some "development")); repeat split.
  - unfold getTask, getTaskById, Task_findById. rewrite Hid.
    eexists. split; [unfold handled; rewrite malformed_id_answer|]; reflexivity.
  - unfold deleteTaskRoute, deleteTask, Task_findByIdAndDelete. rewrite Hid.
    eexists. split; [unfold handled; rewrite malformed_id_answer|]; reflexivity.
  - intros sanitized Hvalid.
    unfold putTask, updateTask, Task_findByIdAndUpdate. rewrite Hvalid, Hid.
    eexists.
    split; [unfold handled; simpl; rewrite malformed_id_answer|]; reflexivity.
Qed.

End Identifiers.

(** ** The validation middleware on the task schemas *)

Section ValidationFurther.
Context `{Platform}.

Local Arguments Nat.ltb : simpl never.
Local Arguments Nat.leb : simpl never.
Local Arguments Z.ltb : simpl never.
Local Arguments JsString.trim : simpl never.
Local Arguments JsString.toLowerCase : simpl never.
Local Arguments Joi.createError : simpl never.

(** A key of the update schema that the payload does not carry raises
    nothing and yields nothing. *)
Lemma update_key_absent (now : Z) (k : string) :
  k ∈ taskKeys ->
  Joi.validateKey now validationPrefs k (keySchema (taskSchemaFor true) k) None
  = (None, []).
Proof.
  intros Hk. unfold taskKeys in Hk.
  repeat (apply elem_of_cons in Hk as [->|Hk]; [reflexivity|]).
  inversion Hk.
Qed.

(** The value that validation computes, key by key. *)
Lemma sanitized_lookup (now : Z) (u : bool) (body : gmap string json) (k : string) :
  Joi.value (Joi.validate now (taskSchemaFor u) body validationPrefs) !! k
  = if bool_decide (k ∈ taskKeys)
    then fst (Joi.validateKey now validationPrefs k
                (keySchema (taskSchemaFor u) k) (body !! k))
    else None.
Proof.
  destruct (validate_outcome now (taskSchemaFor u) body (taskSchemaFor_NoDup u))
    as [Hvalue _].
  rewrite Hvalue. destruct (bool_decide (k ∈ taskKeys)) eqn:Hk.
  - apply bool_decide_eq_true in Hk.
    rewrite (lookupKey_Some _ _ _ (taskSchemaFor_NoDup u) (taskSchemaFor_key u k Hk)).
    reflexivity.
  - apply bool_decide_eq_false in Hk.
    destruct (lookupKey (Joi.o_keys (taskSchemaFor u)) k) as [s|] eqn:E;
      [|reflexivity].
    apply lookupKey_elem, taskSchemaFor_elem in E as [Hin _]. contradiction.
Qed.

(** X3.  An update payload that carries none of the six fields of the
    schema (an empty object, or unknown keys only) is refused by the
    middleware with the single entry of the object-level rule, whose field
    is the empty path, whatever the identifier; the store is untouched. *)
Theorem update_without_known_field_is_refused (NODE_ENV : option string)
    (st : store) (id : string) (validatedAt now : Z) (body : gmap string json) :
  (forall k, k ∈ taskKeys -> body !! k = None) ->
  putTask NODE_ENV st id validatedAt now body
  = (st, Return (refusedWith
                   [errorEntry "" "At least one field must be provided for update"])).
Proof.
  intros Hnone.
  assert (Hnil : keyErrors validatedAt validationPrefs body
                   (Joi.o_keys (taskSchemaFor true)) = []).
  { apply keyErrors_nil. intros k s Hin.
    apply taskSchemaFor_elem in Hin as [Hk ->].
    rewrite (Hnone k Hk), (update_key_absent validatedAt k Hk). reflexivity. }
  assert (Hempty : Joi.value (Joi.validate validatedAt (taskSchemaFor true) body
                                validationPrefs) = ∅).
  { apply map_eq. intros k. rewrite sanitized_lookup, lookup_empty.
    destruct (bool_decide (k ∈ taskKeys)) eqn:Hk; [|reflexivity].
    apply bool_decide_eq_true in Hk.
    rewrite (Hnone k Hk), (update_key_absent validatedAt k Hk). reflexivity. }
  destruct (validate_outcome validatedAt (taskSchemaFor true) body
              (taskSchemaFor_NoDup true)) as [_ Herror].
  rewrite Hnil, Hempty in Herror.
  unfold putTask. rewrite validateRequest_unfold.
  change updateTaskSchema with (taskSchemaFor true). rewrite Herror.
  reflexivity.
Qed.

(** X4.  A create payload that lacks the title, the category, the
    priority or the deadline is refused with an entry [<Field> is required]
    for that field, and the store is untouched. *)
Theorem missing_required_field_is_reported (NODE_ENV : option string)
    (st : store) (oid : string) (validatedAt now : Z)
    (body : gmap string json) (k m : string) :
  (k, m) ∈ requiredFields -> body !! k = None ->
  exists entries,
    postTasks NODE_ENV st oid validatedAt now body
    = (st, Return (refusedWith entries))
    /\ errorEntry k m ∈ entries.
Proof.
  intros Hk Hnone.
  assert (Hkey : k ∈ taskKeys).
  { unfold requiredFields in Hk.
    repeat (apply elem_of_cons in Hk as [[= -> ->]|Hk]; [key_in|]).
    inversion Hk. }
  assert (Hviol : violations validatedAt false body k
                  = [{| Joi.path := [k]; Joi.type := "any.required";
                        Joi.message := m |}]).
  { unfold violations. rewrite Hnone. unfold requiredFields in Hk.
    repeat (apply elem_of_cons in Hk as [[= -> ->]|Hk]; [reflexivity|]).
    inversion Hk. }
  destruct (violation_refused validatedAt false body k Hkey) as [res Hres];
    [rewrite Hviol; discriminate|].
  destruct (refusal_entries validatedAt false body res Hres)
    as (entries & -> & _ & Hall & _).
  exists entries. split.
  - unfold postTasks. change createTaskSchema with (taskSchemaFor false).
    rewrite Hres. reflexivity.
  - apply (Hall k {| Joi.path := [k]; Joi.type := "any.required";
                     Joi.message := m |} Hkey).
    rewrite Hviol. apply elem_of_cons. left. reflexivity.
Qed.

(** X5.  A create payload whose deadline denotes an instant before the
    time of validation is refused with the entry [Deadline must be in the
    future], and the store is untouched. *)
Theorem create_with_past_deadline_is_refused (NODE_ENV : option string)
    (st : store) (oid : string) (validatedAt now : Z)
    (body : gmap string json) (raw : json) (t : Z) :
  body !! "deadline" = Some raw -> deadlineInstant raw = Some t ->
  (t < validatedAt)%Z ->
  exists entries,
    postTasks NODE_ENV st oid validatedAt now body
    = (st, Return (refusedWith entries))
    /\ errorEntry "deadline" "Deadline must be in the future" ∈ entries.
Proof.
  intros Hbody Hraw Hlt.
  assert (Hviol : violations validatedAt false body "deadline"
                  = [{| Joi.path := ["deadline"]; Joi.type := "date.min";
                        Joi.message := "Deadline must be in the future" |}]).
  { unfold violations.
    rewrite Hbody, (deadline_past validatedAt false raw t Hraw Hlt).
    reflexivity. }
  destruct (violation_refused validatedAt false body "deadline") as [res Hres];
    [key_in | rewrite Hviol; discriminate |].
  destruct (refusal_entries validatedAt false body res Hres)
    as (entries & -> & _ & Hall & _).
  exists entries. split.
  - unfold postTasks. change createTaskSchema with (taskSchemaFor false).
    rewrite Hres. reflexivity.
  - apply (Hall "deadline"
             {| Joi.path := ["deadline"]; Joi.type := "date.min";
                Joi.message := "Deadline must be in the future" |});
      [key_in|].
    rewrite Hviol. apply elem_of_cons. left. reflexivity.
Qed.

(** What the task schemas let through, key by key. *)
Lemma sanitized_keys (now : Z) (u : bool) (body sanitized : gmap string json) :
  validateRequest (taskSchemaFor u) now body = Next sanitized ->
  (forall k, k ∈ taskKeys ->
     Joi.validateKey now validationPrefs k
       (keySchema (taskSchemaFor u) k) (body !! k) = (sanitized !! k, []))
  /\ (forall k, k ∉ taskKeys -> sanitized !! k = None)
  /\ (u = true -> sanitized <> ∅).
Proof.
  intros Hvalid.
  destruct (validateRequest_Next now _ _ _ (taskSchemaFor_NoDup u) Hvalid)
    as [Hkeys Hrest].
  split; [|split].
  - intros k Hk. apply Hkeys, taskSchemaFor_key, Hk.
  - intros k Hk. apply Hrest.
    replace (Joi.o_keys (taskSchemaFor u)).*1 with taskKeys
      by (destruct u; reflexivity).
    exact Hk.
  - intros -> ->.
    rewrite validateRequest_unfold in Hvalid.
    destruct (validate_outcome now (taskSchemaFor true) body
                (taskSchemaFor_NoDup true)) as [_ Herror].
    destruct (Joi.error _) as [details|] eqn:E; [discriminate|].
    injection Hvalid as Hvalue.
    change (taskSchemaFor true) with updateTaskSchema in Herror.
    rewrite Hvalue in Herror.
    destruct (keyErrors _ _ _ _); discriminate.
Qed.

(** X6.  What the middleware hands to the controller is typed and within
    the bounds of the schema: title, description, category and priority are
    trimmed strings (3 to 100 characters, at most 500 characters, a
    category, a priority), the deadline is a date not before the time of
    validation, [completed] is a boolean.  On create the five fields
    title, category, priority, deadline and [completed] are all present; on
    update at least one field of the schema is. *)
Theorem sanitized_payload_meets_the_schema (now : Z) (u : bool)
    (body sanitized : gmap string json) :
  validateRequest (taskSchemaFor u) now body = Next sanitized ->
  (forall x, sanitized !! "title" = Some x ->
     exists s, x = JStr s /\ (3 <= String.length s <= 100)%nat
               /\ JsString.trim s = s)
  /\ (forall x, sanitized !! "description" = Some x ->
        exists s, x = JStr s /\ (String.length s <= 500)%nat
                  /\ JsString.trim s = s)
  /\ (forall x, sanitized !! "category" = Some x ->
        exists s, x = JStr s /\ s ∈ categories)
  /\ (forall x, sanitized !! "priority" = Some x ->
        exists s, x = JStr s /\ s ∈ priorities)
  /\ (forall x, sanitized !! "deadline" = Some x ->
        exists t, x = JDate t /\ (now <= t)%Z)
  /\ (forall x, sanitized !! "completed" = Some x -> exists b, x = JBool b)
  /\ (u = false ->
      Forall (fun k => is_Some (sanitized !! k))
             ["title"; "category"; "priority"; "deadline"; "completed"])
  /\ (u = true -> exists k, k ∈ taskKeys /\ is_Some (sanitized !! k)).
Proof.
  intros Hvalid.
  destruct (sanitized_keys now u body sanitized Hvalid) as (Hkey & Hrest & Hsize).
  pose proof (Hkey "title" ltac:(key_in)) as Ht. apply title_clean in Ht.
  pose proof (Hkey "description" ltac:(key_in)) as Hd. apply description_clean in Hd.
  pose proof (Hkey "category" ltac:(key_in)) as Hc. apply category_clean in Hc.
  pose proof (Hkey "priority" ltac:(key_in)) as Hp. apply priority_clean in Hp.
  pose proof (Hkey "deadline" ltac:(key_in)) as Hdl. apply deadline_clean in Hdl.
  pose proof (Hkey "completed" ltac:(key_in)) as Hco. apply completed_clean in Hco.
  repeat split.
  - intros x Hx. destruct Ht as [(_ & _ & ?) | (s & _ & ? & Hlen)]; [congruence|].
    exists (JsString.trim s). split; [congruence|].
    split; [exact Hlen | apply trim_idempotent].
  - intros x Hx. destruct Hd as [(_ & ?) | (s & _ & ? & Hlen)]; [congruence|].
    exists (JsString.trim s). split; [congruence|].
    split; [exact Hlen | apply trim_idempotent].
  - intros x Hx. destruct Hc as [(_ & _ & ?) | (s & _ & ? & Hin)]; [congruence|].
    exists (JsString.trim s). split; [congruence | exact Hin].
  - intros x Hx. destruct Hp as [(_ & _ & ?) | (s & _ & ? & Hin)]; [congruence|].
    exists (JsString.trim s). split; [congruence | exact Hin].
  - intros x Hx.
    destruct Hdl as [(_ & _ & ?) | (raw & t & _ & _ & ? & Hle)]; [congruence|].
    exists t. split; [congruence | exact Hle].
  - intros x Hx. destruct Hco as [(_ & ?) | (raw & b & _ & _ & ?)].
    + destruct u; [congruence|]. exists false. congruence.
    + exists b. congruence.
  - intros ->.
    destruct Ht as [(? & _) | (s1 & _ & E1 & _)]; [discriminate|].
    destruct Hc as [(? & _) | (s3 & _ & E3 & _)]; [discriminate|].
    destruct Hp as [(? & _) | (s4 & _ & E4 & _)]; [discriminate|].
    destruct Hdl as [(? & _) | (raw & t & _ & _ & E5 & _)]; [discriminate|].
    assert (E6 : is_Some (sanitized !! "completed")).
    { destruct Hco as [(_ & ->) | (flag & b & _ & _ & ->)]; eauto. }
    repeat (apply Forall_cons; split); [| | | | |apply Forall_nil_2];
      first [exact E6 | rewrite E1 | rewrite E3 | rewrite E4 | rewrite E5]; eauto.
  - intros ->. apply map_choose in Hsize as (k & x & Hx); [|reflexivity].
    exists k. split; [|eauto].
    destruct (decide (k ∈ taskKeys)) as [Hk|Hk]; [exact Hk|].
    rewrite (Hrest k Hk) in Hx. discriminate.
Qed.

(** X7.  Validation is idempotent on its own output: a payload that the
    middleware let through is let through unchanged when validated again
    with the same schema, at the same time or at any earlier one. *)
Theorem sanitized_payload_validates_to_itself (now earlier : Z) (u : bool)
    (body sanitized : gmap string json) :
  validateRequest (taskSchemaFor u) now body = Next sanitized ->
  (earlier <= now)%Z ->
  validateRequest (taskSchemaFor u) earlier sanitized = Next sanitized.
Proof.
  intros Hvalid Hclock.
  destruct (sanitized_keys now u body sanitized Hvalid) as (Hkey & Hrest & Hsize).
  assert (Hagain : forall k, k ∈ taskKeys ->
            Joi.validateKey earlier validationPrefs k
              (keySchema (taskSchemaFor u) k) (sanitized !! k)
            = (sanitized !! k, [])).
  { intros k Hk. pose proof (Hkey k Hk) as Hfirst. unfold taskKeys in Hk.
    repeat (apply elem_of_cons in Hk as [->|Hk]); [| | | | | |inversion Hk].
    - apply title_clean in Hfirst as [(-> & _ & ->) | (s & _ & -> & Hlen)];
        [reflexivity|].
      rewrite (title_accept earlier u (JsString.trim s)), trim_idempotent;
        [reflexivity | rewrite trim_idempotent; exact Hlen].
    - apply description_clean in Hfirst as [(_ & ->) | (s & _ & -> & Hlen)];
        [destruct u; reflexivity|].
      rewrite (description_accept earlier u (JsString.trim s)), trim_idempotent;
        [reflexivity | rewrite trim_idempotent; exact Hlen].
    - apply category_clean in Hfirst as [(-> & _ & ->) | (s & _ & -> & Hin)];
        [reflexivity|].
      rewrite (category_accept earlier u (JsString.trim s)), trim_idempotent;
        [reflexivity | rewrite trim_idempotent; exact Hin].
    - apply priority_clean in Hfirst as [(-> & _ & ->) | (s & _ & -> & Hin)];
        [reflexivity|].
      rewrite (priority_accept earlier u (JsString.trim s)), trim_idempotent;
        [reflexivity | rewrite trim_idempotent; exact Hin].
    - apply deadline_clean in Hfirst
        as [(-> & _ & ->) | (raw & t & _ & _ & -> & Hle)]; [reflexivity|].
      apply (deadline_accept earlier u (JDate t) t); [reflexivity | lia].
    - apply completed_clean in Hfirst as [(_ & ->) | (raw & b & _ & _ & ->)].
      + destruct u; reflexivity.
      + apply (completed_accept earlier u (JBool b) b). reflexivity. }
  assert (Hnil : keyErrors earlier validationPrefs sanitized
                   (Joi.o_keys (taskSchemaFor u)) = []).
  { apply keyErrors_nil. intros k s Hin.
    apply taskSchemaFor_elem in Hin as [Hk ->].
    rewrite (Hagain k Hk). reflexivity. }
  assert (Hsame : Joi.value (Joi.validate earlier (taskSchemaFor u) sanitized
                               validationPrefs) = sanitized).
  { apply map_eq. intros k. rewrite sanitized_lookup.
    destruct (bool_decide (k ∈ taskKeys)) eqn:Hk.
    - apply bool_decide_eq_true in Hk. rewrite (Hagain k Hk). reflexivity.
    - apply bool_decide_eq_false in Hk. symmetry. apply Hrest, Hk. }
  destruct (validate_outcome earlier (taskSchemaFor u) sanitized
              (taskSchemaFor_NoDup u)) as [_ Herror].
  rewrite Hnil, Hsame in Herror.
  rewrite validateRequest_unfold, Hsame.
  assert (Hnone : Joi.error (Joi.validate earlier (taskSchemaFor u) sanitized
                               validationPrefs) = None).
  { rewrite Herror. destruct u; [|reflexivity].
    change (Joi.o_min (taskSchemaFor true)) with (Some 1%nat).
    assert (Hpos : size sanitized <> 0%nat).
    { intros Hzero. apply map_size_empty_iff in Hzero. exact (Hsize eq_refl Hzero). }
    cbv beta iota.
    match goal with
    | |- context [if ?b then _ else _] => destruct b eqn:E
    end; [apply Nat.ltb_lt in E; lia | reflexivity]. }
  rewrite Hnone. reflexivity.
Qed.

(** Replace the schema of a key by the record it evaluates to. *)
Ltac evaluate_schema :=
  repeat match goal with
         | |- context [keySchema ?o ?k] =>
             let s := eval vm_compute in (keySchema o k) in
             change (keySchema o k) with s
         end.

(** X8.  A title that is empty once trimmed is refused, with [Title is
    required] on create and [Title cannot be empty] on update, whereas a
    description that is empty once trimmed raises nothing and goes on as
    the empty string. *)
Theorem blank_title_is_refused_blank_description_is_kept (now : Z) (u : bool)
    (body : gmap string json) (s : string) :
  JsString.trim s = "" ->
  (body !! "title" = Some (JStr s) ->
   exists entries,
     validateRequest (taskSchemaFor u) now body = Responded (refusedWith entries)
     /\ errorEntry "title" (if u then "Title cannot be empty"
                            else "Title is required") ∈ entries)
  /\ (body !! "description" = Some (JStr s) ->
      violations now u body "description" = []
      /\ forall sanitized,
           validateRequest (taskSchemaFor u) now body = Next sanitized ->
           sanitized !! "description" = Some (JStr "")).
Proof.
  intros Hblank. split.
  - intros Hbody.
    set (d := {| Joi.path := ["title"]; Joi.type := "string.empty";
                 Joi.message := if u then "Title cannot be empty"
                                else "Title is required" |}).
    assert (Hviol : violations now u body "title" = [d]).
    { unfold violations. rewrite Hbody.
      destruct u; unfold taskSchemaFor; evaluate_schema; cbn;
        rewrite Hblank; reflexivity. }
    destruct (violation_refused now u body "title") as [res Hres];
      [key_in | rewrite Hviol; discriminate |].
    destruct (refusal_entries now u body res Hres)
      as (entries & -> & _ & Hall & _).
    exists entries. split; [exact Hres|].
    apply (Hall "title" d); [key_in|].
    rewrite Hviol. apply elem_of_cons. left. reflexivity.
  - intros Hbody.
    assert (Hkept : Joi.validateKey now validationPrefs "description"
                      (keySchema (taskSchemaFor u) "description")
                      (body !! "description")
                    = (Some (JStr ""), [])).
    { rewrite Hbody, (description_accept now u s), Hblank;
        [reflexivity | rewrite Hblank; simpl; lia]. }
    split.
    + unfold violations. rewrite Hkept. reflexivity.
    + intros sanitized Hvalid.
      destruct (sanitized_keys now u body sanitized Hvalid) as (Hkey & _ & _).
      pose proof (Hkey "description" ltac:(key_in)) as Hd.
      rewrite Hkept in Hd. congruence.
Qed.

End ValidationFurther.

(** ** The validation contract *)

Section Contract.
Context `{Platform}.
Variable now : Z.

Local Arguments Nat.ltb : simpl never.
Local Arguments Nat.leb : simpl never.
Local Arguments Z.ltb : simpl never.
Local Arguments JsString.trim : simpl never.
Local Arguments JsString.toLowerCase : simpl never.

(** Replace the schema of a key by the record it evaluates to. *)
Ltac evaluate_field :=
  unfold taskSchemaFor;
  repeat match goal with
         | |- context [keySchema ?o ?k] =>
             let s := eval vm_compute in (keySchema o k) in
             change (keySchema o k) with s
         end.

Ltac contradictory_field :=
  exfalso;
  repeat match goal with
         | E : _ && true = _ |- _ => rewrite andb_true_r in E
         | E : String.eqb _ _ = true |- _ => apply String.eqb_eq in E
         | E : (_ <? _)%nat = true |- _ => apply Nat.ltb_lt in E
         | E : bool_decide (_ ∈ [ _ ]) = true |- _ =>
             apply bool_decide_eq_true, list_elem_of_singleton in E
         | E : bool_decide (_ ∈ [ _ ]) = false |- _ =>
             apply bool_decide_eq_false in E;
             rewrite list_elem_of_singleton in E
         | E : JsString.trim _ = _ |- _ => rewrite E in *
         end;
  simpl in *; first [lia | contradiction | discriminate | congruence].

(** What the engine computes for a key of a task schema is what the
    contract asks: the entries of its problems, and its sanitized value
    when it has none. *)
Lemma key_meets_contract (u : bool) (k : string) (item : option json) :
  k ∈ taskKeys ->
  formatDetail <$> snd (Joi.validateKey now validationPrefs k
                          (keySchema (taskSchemaFor u) k) item)
  = errorEntry k <$> specifiedProblems now u k item
  /\ (specifiedProblems now u k item = [] ->
      fst (Joi.validateKey now validationPrefs k
             (keySchema (taskSchemaFor u) k) item)
      = specifiedValue u k item).
Proof.
  intros Hk. unfold taskKeys in Hk.
  repeat (apply elem_of_cons in Hk as [->|Hk]); [| | | | | |inversion Hk].
  all: destruct u, item as [[]|]; evaluate_field; cbn;
    unfold Joi.createError, categories, priorities; cbn;
    repeat (case_match; simplify_eq); cbn; split; try reflexivity;
    try discriminate; contradictory_field.
Qed.

Lemma taskSchemaFor_keys (u : bool) :
  Joi.o_keys (taskSchemaFor u)
  = (fun k => (k, keySchema (taskSchemaFor u) k)) <$> taskKeys.
Proof. destruct u; reflexivity. Qed.

(** The errors of the keys, as entries, are the entries of the problems of
    the fields. *)
Lemma entries_meet_contract (u : bool) (raw : gmap string json) :
  formatDetail <$> keyErrors now validationPrefs raw (Joi.o_keys (taskSchemaFor u))
  = flat_map (fun k => errorEntry k <$> specifiedProblems now u k (raw !! k))
             taskKeys.
Proof.
  rewrite taskSchemaFor_keys. unfold keyErrors.
  assert (Hall : Forall (fun k => k ∈ taskKeys) taskKeys)
    by (apply Forall_forall; auto).
  revert Hall. generalize taskKeys at 2 3 4. intros ks Hks.
  induction ks as [|k ks IH]; [reflexivity|].
  apply Forall_cons in Hks as [Hk Hks].
  rewrite fmap_cons. simpl. rewrite fmap_app, (IH Hks).
  destruct (key_meets_contract u k (raw !! k) Hk) as [-> _]. reflexivity.
Qed.

Lemma no_entry_no_problem (u : bool) (raw : gmap string json) (k : string) :
  flat_map (fun k => errorEntry k <$> specifiedProblems now u k (raw !! k))
           taskKeys = [] ->
  k ∈ taskKeys -> specifiedProblems now u k (raw !! k) = [].
Proof.
  generalize taskKeys. intros ks Hnil Hk.
  induction ks as [|k' ks IH]; [inversion Hk|].
  simpl in Hnil. apply app_eq_nil in Hnil as [Hhere Hrest].
  apply elem_of_cons in Hk as [->|Hk]; [|apply IH; assumption].
  apply fmap_nil_inv in Hhere. exact Hhere.
Qed.

(** C8.  For every raw mapping, the validator of the create or of the
    update schema, as the middleware runs it, meets the contract stated in
    the specification's words.  It refuses the mapping exactly when the
    contract finds a problem, and the entries of the refusal are then all
    the problems of all the fields, in the order of the schema and whatever
    the other fields are: no field is skipped after a first violation.
    Otherwise it hands on the sanitized mapping, in which every field of
    the schema submitted is kept with its string trimmed, its deadline as a
    date and its flag as a boolean, [completed] is false by default on
    create, and every other key is gone. *)
Theorem validation_reports_every_violation (forUpdate : bool)
    (raw : gmap string json) :
  match validateRequest (taskSchemaFor forUpdate) now raw with
  | Next sanitized =>
      specifiedEntries now forUpdate raw = []
      /\ forall k, sanitized !! k
                   = if bool_decide (k ∈ taskKeys)
                     then specifiedValue forUpdate k (raw !! k)
                     else None
  | Responded res =>
      specifiedEntries now forUpdate raw <> []
      /\ res = refusedWith (specifiedEntries now forUpdate raw)
  end.
Proof.
  pose proof (entries_meet_contract forUpdate raw) as Hentries.
  destruct (validate_outcome now (taskSchemaFor forUpdate) raw
              (taskSchemaFor_NoDup forUpdate)) as [_ Herror].
  rewrite validateRequest_unfold.
  unfold specifiedEntries.
  remember (flat_map (fun k => errorEntry k
                                 <$> specifiedProblems now forUpdate k (raw !! k))
                     taskKeys) as entries eqn:Hdef.
  destruct (keyErrors now validationPrefs raw (Joi.o_keys (taskSchemaFor forUpdate)))
    as [|d ds] eqn:Hkeys.
  - change (formatDetail <$> []) with (@nil json) in Hentries. subst entries.
    symmetry in Hentries.
    assert (Hvalue : forall k,
               Joi.value (Joi.validate now (taskSchemaFor forUpdate) raw
                            validationPrefs) !! k
               = if bool_decide (k ∈ taskKeys)
                 then specifiedValue forUpdate k (raw !! k)
                 else None).
    { intros k. rewrite sanitized_lookup.
      destruct (bool_decide (k ∈ taskKeys)) eqn:Hk; [|reflexivity].
      apply bool_decide_eq_true in Hk.
      apply (key_meets_contract forUpdate k (raw !! k) Hk).
      apply no_entry_no_problem; assumption. }
    rewrite Hentries. cbv iota.
    destruct forUpdate; cbn [andb].
    + change (Joi.o_min (taskSchemaFor true)) with (Some 1%nat) in Herror.
      cbv beta iota in Herror.
      remember (forallb (fun k => match raw !! k with
                                  | None => true
                                  | Some _ => false
                                  end) taskKeys) as none eqn:Hnone.
      symmetry in Hnone. destruct none.
      * assert (Hempty : Joi.value (Joi.validate now (taskSchemaFor true) raw
                                      validationPrefs) = ∅).
        { apply map_eq. intros k. rewrite Hvalue, lookup_empty.
          destruct (bool_decide (k ∈ taskKeys)) eqn:Hk; [|reflexivity].
          apply bool_decide_eq_true in Hk.
          rewrite forallb_forall in Hnone.
          specialize (Hnone k (proj1 (list_elem_of_In _ _) Hk)).
          destruct (raw !! k); [discriminate|].
          unfold taskKeys in Hk.
          repeat (apply elem_of_cons in Hk as [->|Hk]; [reflexivity|]).
          inversion Hk. }
        rewrite Hempty in Herror. rewrite Herror.
        split; [discriminate | reflexivity].
      * assert (Hsome : size (Joi.value (Joi.validate now (taskSchemaFor true) raw
                                           validationPrefs)) <> 0%nat).
        { intros Hzero. apply map_size_empty_iff in Hzero.
          assert (Hex : exists k, k ∈ taskKeys /\ is_Some (raw !! k)).
          { apply not_true_iff_false in Hnone.
            destruct (decide (Exists (fun k => is_Some (raw !! k)) taskKeys))
              as [Hex|Hno].
            - apply Exists_exists in Hex. exact Hex.
            - contradiction Hnone. apply forallb_forall. intros k Hk.
              destruct (raw !! k) eqn:E; [|reflexivity].
              contradiction Hno. apply Exists_exists. exists k.
              split; [apply list_elem_of_In, Hk | rewrite E; eauto]. }
          destruct Hex as (k & Hk & [v Hv]).
          pose proof (sanitized_lookup now true raw k) as Hk'.
          rewrite (bool_decide_eq_true_2 _ Hk), Hv, Hzero, lookup_empty in Hk'.
          destruct (validateKey_present now validationPrefs k
                      (keySchema (taskSchemaFor true) k) v) as (x & es & Hx).
          rewrite Hx in Hk'. discriminate. }
        match type of Herror with
        | context [if ?b then _ else _] => destruct b eqn:Hsize
        end; [apply Nat.ltb_lt in Hsize; lia|].
        rewrite Herror. split; [reflexivity | exact Hvalue].
    + change (Joi.o_min (taskSchemaFor false)) with (@None nat) in Herror.
      cbv beta iota in Herror. rewrite Herror.
      split; [reflexivity | exact Hvalue].
  - rewrite Herror. subst entries. rewrite fmap_cons in Hentries.
    rewrite <- Hentries. split; [discriminate | reflexivity].
Qed.

End Contract.

(** ** The messages of the task schemas *)

Section SchemaMessages.
Context `{Platform}.
Variable now : Z.

Local Arguments Nat.ltb : simpl never.
Local Arguments Nat.leb : simpl never.
Local Arguments Z.ltb : simpl never.
Local Arguments JsString.trim : simpl never.
Local Arguments JsString.toLowerCase : simpl never.

(** Replace the schema of a key by the record it evaluates to. *)
Ltac evaluate_key :=
  unfold violations, taskSchemaFor;
  repeat match goal with
         | |- context [keySchema ?o ?k] =>
             let s := eval vm_compute in (keySchema o k) in
             change (keySchema o k) with s
         end.

Ltac contradictory_test :=
  exfalso;
  repeat match goal with
         | E : _ && true = _ |- _ => rewrite andb_true_r in E
         | E : String.eqb _ _ = true |- _ => apply String.eqb_eq in E
         | E : String.eqb _ _ = false |- _ => apply String.eqb_neq in E
         | E : (_ <? _)%nat = true |- _ => apply Nat.ltb_lt in E
         | E : (_ <? _)%nat = false |- _ => apply Nat.ltb_ge in E
         | E : bool_decide (_ ∈ [ _ ]) = true |- _ =>
             apply bool_decide_eq_true, list_elem_of_singleton in E
         | E : JsString.trim _ = _ |- _ => rewrite E in *
         end;
  simpl in *; first [lia | contradiction | discriminate | congruence].

(** An error raised for a key is an entry of the refusal. *)
Lemma violation_reported (u : bool) (body : gmap string json) (k : string)
    (d : Joi.detail) :
  k ∈ taskKeys -> d ∈ violations now u body k ->
  reports now u body k (Joi.message d).
Proof.
  intros Hk Hd.
  destruct (violation_refused now u body k Hk) as [res Hres].
  { intros Hnil. rewrite Hnil in Hd. inversion Hd. }
  destruct (refusal_entries now u body res Hres)
    as (entries & -> & _ & Hall & _).
  exists entries. split; [exact Hres | apply Hall; assumption].
Qed.

(** X19.  The length bounds of the string fields, on the trimmed value: a
    title of 1 or 2 characters and a title of more than 100 characters are
    refused with their own messages, a title of 3 to 100 characters raises
    nothing; a description of more than 500 characters is refused, one of
    at most 500 raises nothing.  Both schemas agree. *)
Theorem string_length_bounds_are_reported (u : bool)
    (body : gmap string json) (s : string) :
  (body !! "title" = Some (JStr s) ->
   ((0 < String.length (JsString.trim s) < 3)%nat ->
    reports now u body "title" "Title must be at least 3 characters long")
   /\ ((100 < String.length (JsString.trim s))%nat ->
       reports now u body "title" "Title cannot be more than 100 characters")
   /\ ((3 <= String.length (JsString.trim s) <= 100)%nat ->
       violations now u body "title" = []))
  /\ (body !! "description" = Some (JStr s) ->
      ((500 < String.length (JsString.trim s))%nat ->
       reports now u body "description"
         "Description cannot be more than 500 characters")
      /\ ((String.length (JsString.trim s) <= 500)%nat ->
          violations now u body "description" = [])).
Proof.
  split; intros Hbody.
  - split; [|split].
    + intros Hlen.
      apply (violation_reported u body "title"
               {| Joi.path := ["title"]; Joi.type := "string.min";
                  Joi.message := "Title must be at least 3 characters long" |});
        [key_in|].
      unfold violations. rewrite Hbody. destruct u; evaluate_key; cbn;
        repeat (case_match; simplify_eq);
        first [apply list_elem_of_singleton; reflexivity | contradictory_test].
    + intros Hlen.
      apply (violation_reported u body "title"
               {| Joi.path := ["title"]; Joi.type := "string.max";
                  Joi.message := "Title cannot be more than 100 characters" |});
        [key_in|].
      unfold violations. rewrite Hbody. destruct u; evaluate_key; cbn;
        repeat (case_match; simplify_eq);
        first [apply list_elem_of_singleton; reflexivity | contradictory_test].
    + intros Hlen. unfold violations.
      rewrite Hbody, (title_accept now u s Hlen). reflexivity.
  - split.
    + intros Hlen.
      apply (violation_reported u body "description"
               {| Joi.path := ["description"]; Joi.type := "string.max";
                  Joi.message := "Description cannot be more than 500 characters" |});
        [key_in|].
      unfold violations. rewrite Hbody. destruct u; evaluate_key; cbn;
        repeat (case_match; simplify_eq);
        first [apply list_elem_of_singleton; reflexivity | contradictory_test].
    + intros Hlen. unfold violations.
      rewrite Hbody, (description_accept now u s Hlen). reflexivity.
Qed.

(** X20.  A field of the wrong type is refused with the message of its
    type: [<Field> must be a string] for a title, description, category or
    priority that is not a string, [Completed must be a boolean value] for
    a flag that is neither a boolean nor the text of one, [Deadline must be
    in ISO format (YYYY-MM-DD)] for a string that is not an ISO date and
    [Deadline must be a valid date] for any other value that is not a
    date. *)
Theorem ill_typed_fields_are_reported (u : bool) (body : gmap string json)
    (k : string) (v : json) :
  body !! k = Some v ->
  (forall m, (k, m) ∈ stringFields -> (forall s, v <> JStr s) ->
     reports now u body k m)
  /\ (k = "completed" -> completedFlag v = None ->
      reports now u body k "Completed must be a boolean value")
  /\ (k = "deadline" -> deadlineInstant v = None ->
      reports now u body k
        match v with
        | JStr _ => "Deadline must be in ISO format (YYYY-MM-DD)"
        | _ => "Deadline must be a valid date"
        end).
Proof.
  intros Hbody. split; [|split].
  - intros m Hk Hv.
    assert (Hkey : k ∈ taskKeys).
    { unfold stringFields in Hk.
      repeat (apply elem_of_cons in Hk as [[= -> ->]|Hk]; [key_in|]).
      inversion Hk. }
    apply (violation_reported u body k
             {| Joi.path := [k]; Joi.type := "string.base"; Joi.message := m |} Hkey).
    unfold violations. rewrite Hbody. unfold stringFields in Hk.
    repeat (apply elem_of_cons in Hk as [[= -> ->]|Hk];
            [destruct u, v; try solve [exfalso; eapply Hv; reflexivity];
             evaluate_key; cbn; unfold Joi.createError; cbn;
             first [apply elem_of_cons; left; reflexivity
                   | apply elem_of_cons; right; apply elem_of_cons; left;
                     reflexivity]|]).
    inversion Hk.
  - intros -> Hflag.
    apply (violation_reported u body "completed"
             {| Joi.path := ["completed"]; Joi.type := "boolean.base";
                Joi.message := "Completed must be a boolean value" |});
      [key_in|].
    unfold violations. rewrite Hbody.
    destruct u, v; simpl in Hflag; try discriminate;
      evaluate_key; cbn; repeat (case_match; simplify_eq);
      unfold Joi.createError; cbn; apply elem_of_cons; left; reflexivity.
  - intros -> Hdate.
    apply (violation_reported u body "deadline"
             {| Joi.path := ["deadline"];
                Joi.type := match v with JStr _ => "date.format" | _ => "date.base" end;
                Joi.message :=
                  match v with
                  | JStr _ => "Deadline must be in ISO format (YYYY-MM-DD)"
                  | _ => "Deadline must be a valid date"
                  end |});
      [key_in|].
    unfold violations. rewrite Hbody.
    destruct u, v; simpl in Hdate; try discriminate;
      evaluate_key; cbn; rewrite ?Hdate; unfold Joi.createError; cbn;
      apply elem_of_cons; left; reflexivity.
Qed.

End SchemaMessages.

(** ** The storage layer *)

Section StorageFurther.
Context `{Platform}.

Lemma firstFailure_None (checks : list (bool * string)) :
  firstFailure checks = None -> Forall (fun c => fst c = true) checks.
Proof.
  induction checks as [|[passed m] checks IH]; simpl; intros Hnone.
  - apply Forall_nil_2.
  - destruct passed; [|discriminate].
    apply Forall_cons. split; [reflexivity | apply IH, Hnone].
Qed.

(** A string that a String path accepts passed every validator of the
    path, and is trimmed where the path trims. *)
Lemma checkString_Ok (p : Schema.stringPath) (v : option json) (s : string) :
  checkString p v = Schema.Ok (Some s) ->
  Forall (fun c => fst c = true) (stringValidators p s)
  /\ (Schema.trim p = true -> JsString.trim s = s).
Proof.
  unfold checkString. intros Hok.
  destruct v as [j|]; [|destruct (Schema.required p); discriminate].
  assert (Hcast : match castString j with
                  | Some s0 =>
                      match firstFailure
                              (stringValidators p
                                 (if Schema.trim p then JsString.trim s0 else s0)) with
                      | Some m => Schema.Rejected m
                      | None => Schema.Ok
                                  (Some (if Schema.trim p then JsString.trim s0 else s0))
                      end
                  | None => Schema.CastFailure j
                  end = Schema.Ok (Some s)).
  { destruct j; try exact Hok. destruct (Schema.required p); discriminate. }
  clear Hok. destruct (castString j) as [s0|]; [|discriminate].
  destruct (firstFailure _) eqn:Hfirst; [discriminate|].
  injection Hcast as <-. split; [apply firstFailure_None, Hfirst|].
  intros ->. apply trim_idempotent.
Qed.

Lemma title_stored (v : option json) (s : string) :
  checkString Schema.title v = Schema.Ok (Some s) ->
  s <> "" /\ (String.length s <= 100)%nat /\ JsString.trim s = s.
Proof.
  intros Hok. apply checkString_Ok in Hok as [Hall Htrim].
  unfold stringValidators in Hall. simpl in Hall.
  apply Forall_cons in Hall as [Hne Hall]. apply Forall_cons in Hall as [Hlen _].
  simpl in Hne, Hlen. split; [|split; [apply Nat.leb_le, Hlen | apply Htrim; reflexivity]].
  intros ->. discriminate.
Qed.

Lemma description_stored (v : option json) (s : string) :
  checkString Schema.description v = Schema.Ok (Some s) ->
  (String.length s <= 500)%nat /\ JsString.trim s = s.
Proof.
  intros Hok. apply checkString_Ok in Hok as [Hall Htrim].
  unfold stringValidators in Hall. simpl in Hall.
  apply Forall_cons in Hall as [Hlen _]. simpl in Hlen.
  split; [apply Nat.leb_le, Hlen | apply Htrim; reflexivity].
Qed.

Lemma category_stored (v : option json) (s : string) :
  checkString Schema.category v = Schema.Ok (Some s) -> s ∈ categories.
Proof.
  intros Hok. apply checkString_Ok in Hok as [Hall _].
  unfold stringValidators in Hall. simpl in Hall.
  apply Forall_cons in Hall as [_ Hall]. apply Forall_cons in Hall as [Hin _].
  simpl in Hin. apply bool_decide_eq_true in Hin. exact Hin.
Qed.

Lemma priority_stored (v : option json) (s : string) :
  checkString Schema.priority v = Schema.Ok (Some s) -> s ∈ priorities.
Proof.
  intros Hok. apply checkString_Ok in Hok as [Hall _].
  unfold stringValidators in Hall. simpl in Hall.
  apply Forall_cons in Hall as [_ Hall]. apply Forall_cons in Hall as [Hin _].
  simpl in Hin. apply bool_decide_eq_true in Hin. exact Hin.
Qed.

(** [Task.create] either appends one document that meets the schema, under
    an identifier that no stored document carries, or throws and leaves the
    documents as they were. *)
Lemma Task_create_cases (st st' : store) (oid : string) (now : Z)
    (fields : gmap string json) (r : completion task) :
  Task_create st oid now fields = (st', r) ->
  (exists doc, r = Return doc /\ documents st' = documents st ++ [doc]
               /\ conforming doc /\ _id doc = oid
               /\ existsb (hasId oid) (documents st) = false)
  \/ (exists e, r = Throw e) /\ documents st' = documents st.
Proof.
  unfold Task_create. intros Hrun.
  destruct (checkString Schema.title (fields !! "title")) as [[t|]| |] eqn:Ht;
    try (injection Hrun as <- <-; right; split; [eauto | reflexivity]).
  destruct (checkString Schema.description (fields !! "description"))
    as [d| |] eqn:Hd;
    try (injection Hrun as <- <-; right; split; [eauto | reflexivity]).
  destruct (checkString Schema.category (fields !! "category"))
    as [[c|]| |] eqn:Hc;
    try (injection Hrun as <- <-; right; split; [eauto | reflexivity]).
  destruct (checkString Schema.priority (fields !! "priority"))
    as [[p|]| |] eqn:Hp;
    try (injection Hrun as <- <-; right; split; [eauto | reflexivity]).
  destruct (checkDeadline true now (fields !! "deadline")) as [[dl|]| |] eqn:Hdl;
    try (injection Hrun as <- <-; right; split; [eauto | reflexivity]).
  destruct (checkCompleted (fields !! "completed")) as [co| |] eqn:Hco;
    try (injection Hrun as <- <-; right; split; [eauto | reflexivity]).
  simpl documents in Hrun.
  destruct (existsb (hasId oid) (documents st)) eqn:Hfresh;
    injection Hrun as <- <-; [right; split; [eauto | reflexivity]|].
  left. eexists. split; [reflexivity|]. split; [reflexivity|].
  split; [|split; reflexivity].
  unfold conforming. simpl.
  destruct (title_stored _ _ Ht) as (H1 & H2 & H3).
  split; [exact H1|]. split; [exact H2|]. split; [exact H3|].
  split; [|split; [exact (category_stored _ _ Hc) | exact (priority_stored _ _ Hp)]].
  intros s ->. exact (description_stored _ _ Hd).
Qed.

Lemma updated_Ok {A} (check : option json -> Schema.outcome A)
    (v : option json) (t : option A) :
  updated check v = Schema.Ok t ->
  t = None \/ exists x, t = Some x /\ check v = Schema.Ok x.
Proof.
  unfold updated. destruct v as [j|]; [|intros [= <-]; left; reflexivity].
  destruct (check (Some j)) as [x| |]; try discriminate.
  intros [= <-]. right. exists x. split; reflexivity.
Qed.

Lemma replaceFirst_identifiers (id : string) (doc old : task) (docs : list task) :
  List.find (hasId id) docs = Some old -> _id doc = _id old ->
  _id <$> replaceFirst id doc docs = _id <$> docs.
Proof.
  intros Hfind Hid. induction docs as [|d docs IH]; simpl in *; [discriminate|].
  destruct (hasId id d).
  - injection Hfind as ->. rewrite !fmap_cons, Hid. reflexivity.
  - rewrite !fmap_cons, IH by exact Hfind. reflexivity.
Qed.

Lemma replaceFirst_conforming (id : string) (doc : task) (docs : list task) :
  conforming doc -> Forall conforming docs ->
  Forall conforming (replaceFirst id doc docs).
Proof.
  intros Hdoc. induction docs as [|d docs IH]; simpl; intros Hall; [exact Hall|].
  apply Forall_cons in Hall as [Hd Hall].
  destruct (hasId id d); apply Forall_cons; split; auto.
Qed.

Lemma replaceFirst_length (id : string) (doc : task) (docs : list task) :
  length (replaceFirst id doc docs) = length docs.
Proof.
  induction docs as [|d docs IH]; simpl; [reflexivity|].
  destruct (hasId id d); simpl; [reflexivity | rewrite IH; reflexivity].
Qed.

(** [Task.findByIdAndUpdate] either rewrites the first document that
    carries the identifier, keeping its identifier and what the schema
    guarantees, or returns nothing or throws and leaves the documents as
    they were. *)
Lemma Task_findByIdAndUpdate_cases (st st' : store) (now : Z) (id : string)
    (update : gmap string json) (r : completion (option task)) :
  Task_findByIdAndUpdate st now id update = (st', r) ->
  (exists old doc,
     r = Return (Some doc)
     /\ List.find (hasId id) (documents st) = Some old
     /\ documents st' = replaceFirst id doc (documents st)
     /\ _id doc = _id old
     /\ (conforming old -> conforming doc))
  \/ (r = Return None \/ exists e, r = Throw e) /\ documents st' = documents st.
Proof.
  unfold Task_findByIdAndUpdate. intros Hrun.
  destruct (objectid_valid id); simpl negb in Hrun; cbv iota in Hrun;
    [|injection Hrun as <- <-; right; split; [eauto | reflexivity]].
  destruct (castFailure "title" _ ++ _) as [|e es];
    [|injection Hrun as <- <-; right; split; [eauto | reflexivity]].
  destruct (updated (checkString Schema.title) (update !! "title"))
    as [t| |] eqn:Ht;
    try (injection Hrun as <- <-; right; split; [eauto | reflexivity]).
  destruct (updated (checkString Schema.description) (update !! "description"))
    as [d| |] eqn:Hd;
    try (injection Hrun as <- <-; right; split; [eauto | reflexivity]).
  destruct (updated (checkString Schema.category) (update !! "category"))
    as [c| |] eqn:Hc;
    try (injection Hrun as <- <-; right; split; [eauto | reflexivity]).
  destruct (updated (checkString Schema.priority) (update !! "priority"))
    as [p| |] eqn:Hp;
    try (injection Hrun as <- <-; right; split; [eauto | reflexivity]).
  destruct (updated (checkDeadline false now) (update !! "deadline"))
    as [dl| |] eqn:Hdl;
    try (injection Hrun as <- <-; right; split; [eauto | reflexivity]).
  destruct (updated checkCompleted (update !! "completed")) as [co| |] eqn:Hco;
    try (injection Hrun as <- <-; right; split; [eauto | reflexivity]).
  simpl documents in Hrun.
  destruct (List.find (hasId id) (documents st)) as [old|] eqn:Hfind;
    injection Hrun as <- <-; [|right; split; [eauto | reflexivity]].
  left. exists old. eexists. split; [reflexivity|]. split; [reflexivity|].
  split; [reflexivity|]. split; [reflexivity|].
  intros (H1 & H2 & H3 & H4 & H5 & H6). unfold conforming. simpl.
  assert (Htitle : default (title old) (mjoin t) <> ""
                   /\ (String.length (default (title old) (mjoin t)) <= 100)%nat
                   /\ JsString.trim (default (title old) (mjoin t))
                      = default (title old) (mjoin t)).
  { apply updated_Ok in Ht as [-> | ([s|] & -> & Hs)]; simpl; auto.
    exact (title_stored _ _ Hs). }
  destruct Htitle as (T1 & T2 & T3).
  split; [exact T1|]. split; [exact T2|]. split; [exact T3|].
  split; [|split].
  - intros s Hs. apply updated_Ok in Hd as [-> | (x & -> & Hx)]; simpl in Hs.
    + exact (H4 s Hs).
    + subst x. exact (description_stored _ _ Hx).
  - apply updated_Ok in Hc as [-> | ([s|] & -> & Hs)]; simpl; auto.
    exact (category_stored _ _ Hs).
  - apply updated_Ok in Hp as [-> | ([s|] & -> & Hs)]; simpl; auto.
    exact (priority_stored _ _ Hs).
Qed.

Lemma filter_conforming (f : task -> bool) (docs : list task) :
  Forall conforming docs -> Forall conforming (List.filter f docs).
Proof.
  induction docs as [|d docs IH]; simpl; intros Hall; [exact Hall|].
  apply Forall_cons in Hall as [Hd Hall].
  destruct (f d); [apply Forall_cons; split|]; auto.
Qed.

Lemma filter_sublist (f : task -> bool) (docs : list task) :
  sublist (List.filter f docs) docs.
Proof.
  induction docs as [|d docs IH]; simpl; [constructor|].
  destruct (f d); [apply sublist_skip | apply sublist_cons]; exact IH.
Qed.

(** [Task.findByIdAndDelete] keeps a sublist of the documents, and all of
    them unless it returns a task. *)
Lemma Task_findByIdAndDelete_cases (st st' : store) (id : string)
    (r : completion (option task)) :
  Task_findByIdAndDelete st id = (st', r) ->
  (exists t, r = Return (Some t)
             /\ documents st'
                = List.filter (fun d => negb (hasId id d)) (documents st))
  \/ (r = Return None \/ exists e, r = Throw e) /\ documents st' = documents st.
Proof.
  unfold Task_findByIdAndDelete. intros Hrun.
  destruct (objectid_valid id);
    [|injection Hrun as <- <-; right; split; [eauto | reflexivity]].
  simpl documents in Hrun.
  destruct (List.find (hasId id) (documents st)) as [t|];
    injection Hrun as <- <-; [|right; split; [eauto | reflexivity]].
  left. exists t. split; reflexivity.
Qed.

End StorageFurther.

(** ** The routes and the store *)

Section RoutesFurther.
Context `{Platform}.

Lemma postTasks_cases (NODE_ENV : option string) (st st' : store) (oid : string)
    (validatedAt now : Z) (body : gmap string json) (r : completion response) :
  postTasks NODE_ENV st oid validatedAt now body = (st', r) ->
  (exists doc, r = Return (taskResponse 201 doc)
               /\ documents st' = documents st ++ [doc]
               /\ conforming doc /\ _id doc = oid
               /\ existsb (hasId oid) (documents st) = false)
  \/ documents st' = documents st.
Proof.
  unfold postTasks, createTask.
  destruct (validateRequest createTaskSchema validatedAt body) as [res|sanitized];
    [intros [= <- <-]; right; reflexivity|].
  destruct (Task_create st oid now sanitized) as [st1 r1] eqn:Hrun.
  apply Task_create_cases in Hrun
    as [(doc & -> & Hdocs & Hdoc & Hid & Hfresh) | [[e ->] Hdocs]];
    simpl; intros [= <- <-].
  - left. exists doc. split; [reflexivity|]. split; [exact Hdocs|].
    split; [exact Hdoc|]. split; [exact Hid | exact Hfresh].
  - right. exact Hdocs.
Qed.

Lemma putTask_cases (NODE_ENV : option string) (st st' : store) (id : string)
    (validatedAt now : Z) (body : gmap string json) (r : completion response) :
  putTask NODE_ENV st id validatedAt now body = (st', r) ->
  (exists old doc,
     r = Return (taskResponse 200 doc)
     /\ List.find (hasId id) (documents st) = Some old
     /\ documents st' = replaceFirst id doc (documents st)
     /\ _id doc = _id old
     /\ (conforming old -> conforming doc))
  \/ documents st' = documents st.
Proof.
  unfold putTask, updateTask.
  destruct (validateRequest updateTaskSchema validatedAt body) as [res|sanitized];
    [intros [= <- <-]; right; reflexivity|].
  destruct (Task_findByIdAndUpdate st now id sanitized) as [st1 r1] eqn:Hrun.
  apply Task_findByIdAndUpdate_cases in Hrun
    as [(old & doc & -> & Hfind & Hdocs & Hid & Hdoc) | [[-> | [e ->]] Hdocs]];
    simpl; intros [= <- <-].
  - left. exists old, doc. split; [reflexivity|]. split; [exact Hfind|].
    split; [exact Hdocs|]. split; [exact Hid | exact Hdoc].
  - right. exact Hdocs.
  - right. exact Hdocs.
Qed.

Lemma deleteTaskRoute_cases (NODE_ENV : option string) (st st' : store)
    (id : string) (r : completion response) :
  deleteTaskRoute NODE_ENV st id = (st', r) ->
  r = Return deletedResponse
  /\ documents st' = List.filter (fun d => negb (hasId id d)) (documents st)
  \/ documents st' = documents st.
Proof.
  unfold deleteTaskRoute, deleteTask.
  destruct (Task_findByIdAndDelete st id) as [st1 r1] eqn:Hrun.
  apply Task_findByIdAndDelete_cases in Hrun
    as [(t & -> & Hdocs) | [[-> | [e ->]] Hdocs]];
    simpl; intros [= <- <-].
  - left. split; [reflexivity | exact Hdocs].
  - right. exact Hdocs.
  - right. exact Hdocs.
Qed.

Lemma getTask_documents (NODE_ENV : option string) (st : store) (id : string) :
  documents (fst (getTask NODE_ENV st id)) = documents st.
Proof.
  unfold getTask, getTaskById, Task_findById.
  destruct (objectid_valid id); [|reflexivity].
  simpl. destruct (List.find (hasId id) (documents st)); reflexivity.
Qed.

Lemma getTasks_documents (NODE_ENV : option string) (st : store)
    (query : gmap string string) :
  documents (fst (getTasks NODE_ENV st query)) = documents st.
Proof.
  unfold getTasks, getAllTasks, Query.exec.
  repeat case_match; simplify_eq; reflexivity.
Qed.

(** X9.  The documents change only together with a success response:
    create either leaves them as they were or appends the task it answers
    with 201, update either leaves them or replaces the first document of
    the identifier by the task it answers with 200, delete either leaves
    them or removes the documents of the identifier and answers 204, and
    get-by-id and list never change them. *)
Theorem documents_change_only_with_success (NODE_ENV : option string)
    (st : store) (oid id : string) (validatedAt now : Z)
    (body : gmap string json) (query : gmap string string) :
  (forall st' r,
     postTasks NODE_ENV st oid validatedAt now body = (st', r) ->
     documents st' = documents st
     \/ exists doc, r = Return (taskResponse 201 doc)
                    /\ documents st' = documents st ++ [doc])
  /\ (forall st' r,
        putTask NODE_ENV st id validatedAt now body = (st', r) ->
        documents st' = documents st
        \/ exists doc, r = Return (taskResponse 200 doc)
                       /\ documents st' = replaceFirst id doc (documents st))
  /\ (forall st' r,
        deleteTaskRoute NODE_ENV st id = (st', r) ->
        documents st' = documents st
        \/ r = Return deletedResponse
           /\ documents st'
              = List.filter (fun d => negb (hasId id d)) (documents st))
  /\ documents (fst (getTask NODE_ENV st id)) = documents st
  /\ documents (fst (getTasks NODE_ENV st query)) = documents st.
Proof.
  split; [|split; [|split; [|split]]].
  - intros st' r Hrun.
    apply postTasks_cases in Hrun as [(doc & -> & Hdocs & _) | Hdocs]; eauto.
  - intros st' r Hrun.
    apply putTask_cases in Hrun as [(old & doc & -> & _ & Hdocs & _) | Hdocs];
      eauto.
  - intros st' r Hrun.
    apply deleteTaskRoute_cases in Hrun as [[-> Hdocs] | Hdocs]; eauto.
  - apply getTask_documents.
  - apply getTasks_documents.
Qed.

(** X10.  What the storage schema asks of the string paths is an
    invariant of the collection under the three writing routes, for any
    request body: a non-empty trimmed title of at most 100 characters, a
    trimmed description of at most 500 characters if any, a category and a
    priority of their enumerations. *)
Theorem routes_keep_documents_conforming (NODE_ENV : option string)
    (st : store) (oid id : string) (validatedAt now : Z)
    (body : gmap string json) :
  Forall conforming (documents st) ->
  Forall conforming
    (documents (fst (postTasks NODE_ENV st oid validatedAt now body)))
  /\ Forall conforming
       (documents (fst (putTask NODE_ENV st id validatedAt now body)))
  /\ Forall conforming (documents (fst (deleteTaskRoute NODE_ENV st id))).
Proof.
  intros Hall. split; [|split].
  - destruct (postTasks NODE_ENV st oid validatedAt now body) as [st' r] eqn:Hrun;
      simpl fst.
    apply postTasks_cases in Hrun as [(doc & _ & -> & Hdoc & _) | ->];
      [|exact Hall].
    apply Forall_app. split; [exact Hall|].
    apply Forall_cons. split; [exact Hdoc | apply Forall_nil_2].
  - destruct (putTask NODE_ENV st id validatedAt now body) as [st' r] eqn:Hrun;
      simpl fst.
    apply putTask_cases in Hrun
      as [(old & doc & _ & Hfind & -> & _ & Hdoc) | ->]; [|exact Hall].
    apply replaceFirst_conforming; [|exact Hall].
    apply Hdoc. apply find_some in Hfind as [Hin _].
    rewrite Forall_forall in Hall. apply Hall, list_elem_of_In, Hin.
  - destruct (deleteTaskRoute NODE_ENV st id) as [st' r] eqn:Hrun;
      simpl fst.
    apply deleteTaskRoute_cases in Hrun as [[_ ->] | ->]; [|exact Hall].
    apply filter_conforming, Hall.
Qed.

(** X11.  The writing routes keep the identifiers of the stored documents
    pairwise distinct: create refuses an identifier that is taken, update
    keeps the identifier of the document it rewrites, delete only
    removes. *)
Theorem routes_keep_identifiers_unique (NODE_ENV : option string)
    (st : store) (oid id : string) (validatedAt now : Z)
    (body : gmap string json) :
  NoDup (identifiers st) ->
  NoDup (identifiers (fst (postTasks NODE_ENV st oid validatedAt now body)))
  /\ NoDup (identifiers (fst (putTask NODE_ENV st id validatedAt now body)))
  /\ NoDup (identifiers (fst (deleteTaskRoute NODE_ENV st id))).
Proof.
  unfold identifiers. intros Hnd. split; [|split].
  - destruct (postTasks NODE_ENV st oid validatedAt now body) as [st' r] eqn:Hrun;
      simpl fst.
    apply postTasks_cases in Hrun as [(doc & _ & -> & _ & Hid & Hfresh) | ->];
      [|exact Hnd].
    rewrite fmap_app. apply NoDup_app. split; [exact Hnd|].
    split; [|apply NoDup_singleton].
    intros x Hx Hdoc. apply list_elem_of_singleton in Hdoc. simpl in Hdoc.
    apply list_elem_of_fmap in Hx as (d & Hd & Hin).
    assert (Hex : existsb (hasId oid) (documents st) = true).
    { apply existsb_exists. exists d. split; [apply list_elem_of_In, Hin|].
      unfold hasId. apply String.eqb_eq. congruence. }
    congruence.
  - destruct (putTask NODE_ENV st id validatedAt now body) as [st' r] eqn:Hrun;
      simpl fst.
    apply putTask_cases in Hrun
      as [(old & doc & _ & Hfind & -> & Hid & _) | ->]; [|exact Hnd].
    rewrite (replaceFirst_identifiers id doc old _ Hfind Hid). exact Hnd.
  - destruct (deleteTaskRoute NODE_ENV st id) as [st' r] eqn:Hrun;
      simpl fst.
    apply deleteTaskRoute_cases in Hrun as [[_ ->] | ->]; [|exact Hnd].
    eapply sublist_NoDup; [exact Hnd | apply fmap_sublist, filter_sublist].
Qed.

End RoutesFurther.

(** ** Validated payloads at the storage layer *)

Section ValidatedPayloads.
Context `{Platform}.

(** How the storage layer reads each path of a payload that the create
    schema let through. *)
Lemma sanitized_create_paths (validatedAt : Z) (body sanitized : gmap string json) :
  validateRequest createTaskSchema validatedAt body = Next sanitized ->
  exists s1 d s3 s4 raw t co,
    checkString Schema.title (sanitized !! "title") = Schema.Ok (Some s1)
    /\ checkString Schema.description (sanitized !! "description") = Schema.Ok d
    /\ checkString Schema.category (sanitized !! "category") = Schema.Ok (Some s3)
    /\ checkString Schema.priority (sanitized !! "priority") = Schema.Ok (Some s4)
    /\ body !! "deadline" = Some raw /\ deadlineInstant raw = Some t
    /\ sanitized !! "deadline" = Some (JDate t)
    /\ checkCompleted (sanitized !! "completed") = Schema.Ok co.
Proof.
  intros Hvalid.
  destruct (validateRequest_Next validatedAt _ _ _ (taskSchemaFor_NoDup false) Hvalid)
    as [Hkeys _].
  assert (Hkey : forall k, k ∈ taskKeys ->
            Joi.validateKey validatedAt validationPrefs k
              (keySchema (taskSchemaFor false) k) (body !! k)
            = (sanitized !! k, [])).
  { intros k Hk. apply Hkeys, (taskSchemaFor_key false), Hk. }
  pose proof (Hkey "title" ltac:(key_in)) as Ht.
  apply title_clean in Ht as [(? & _) | (s1 & _ & Hs1 & Hlen1)]; [discriminate|].
  pose proof (Hkey "description" ltac:(key_in)) as Hd.
  pose proof (Hkey "category" ltac:(key_in)) as Hc.
  apply category_clean in Hc as [(? & _) | (s3 & _ & Hs3 & Hin3)]; [discriminate|].
  pose proof (Hkey "priority" ltac:(key_in)) as Hp.
  apply priority_clean in Hp as [(? & _) | (s4 & _ & Hs4 & Hin4)]; [discriminate|].
  pose proof (Hkey "deadline" ltac:(key_in)) as Hdl.
  apply deadline_clean in Hdl as [(? & _) | (raw & t & Hraw & Ht & Hs5 & _)];
    [discriminate|].
  pose proof (Hkey "completed" ltac:(key_in)) as Hco.
  assert (Hd' : exists d, checkString Schema.description (sanitized !! "description")
                          = Schema.Ok d).
  { apply description_clean in Hd as [(_ & ->) | (s2 & _ & -> & Hlen)];
      [eexists; reflexivity|].
    rewrite (checkString_description s2 Hlen). eauto. }
  assert (Hco' : exists co, checkCompleted (sanitized !! "completed") = Schema.Ok co).
  { apply completed_clean in Hco as [(_ & ->) | (flag & b & _ & _ & ->)];
      eexists; reflexivity. }
  destruct Hd' as [d Hd'], Hco' as [co Hco'].
  exists (JsString.trim s1), d, (JsString.trim s3), (JsString.trim s4), raw, t, co.
  rewrite Hs1, Hs3, Hs4.
  rewrite (checkString_title s1 Hlen1), (checkString_category s3 Hin3),
    (checkString_priority s4 Hin4).
  repeat split; assumption.
Qed.

(** X12.  The two layers compare the deadline with the clock differently:
    a create payload that the middleware let through (deadline not before
    the time of validation) and whose deadline is not after the time of
    saving reaches the model, which refuses it; the answer is 400 with
    status [fail] and message [Invalid input data: Deadline must be a
    future date], and no document is added. *)
Theorem deadline_reached_before_saving_is_refused (NODE_ENV : option string)
    (st : store) (oid : string) (validatedAt now : Z)
    (body sanitized : gmap string json) (raw : json) (t : Z) :
  validateRequest createTaskSchema validatedAt body = Next sanitized ->
  body !! "deadline" = Some raw -> deadlineInstant raw = Some t ->
  (t <= now)%Z ->
  postTasks NODE_ENV st oid validatedAt now body
  = (logged "create" st,
     Return (badRequest NODE_ENV
               "Invalid input data: Deadline must be a future date")).
Proof.
  intros Hvalid Hraw Ht Hreached.
  destruct (sanitized_create_paths validatedAt body sanitized Hvalid)
    as (s1 & d & s3 & s4 & raw' & t' & co & H1 & H2 & H3 & H4 & Hraw' & Ht'
        & H5 & H6).
  assert (t' = t) as -> by congruence.
  assert (Hdl : checkDeadline true now (sanitized !! "deadline")
                = Schema.Rejected Schema.deadlineMessage).
  { rewrite H5. unfold checkDeadline, castDate, Schema.deadlineValidator.
    destruct (Z.ltb_spec now t); [lia | reflexivity]. }
  unfold postTasks, createTask, Task_create. rewrite Hvalid.
  rewrite H1, H2, H3, H4, Hdl, H6.
  unfold handled, errorHandler, handleError, badRequest. simpl.
  destruct (bool_decide (NODE_ENV = Some "development")); reflexivity.
Qed.

(** X13.  An update that validation lets through, on a well-formed
    identifier that a document carries, is answered 200 with the rewritten
    document: the fields that the payload names take the submitted values
    (strings trimmed), every other field keeps its stored value, the
    identifier, the creation time and the version are kept, [updatedAt] is
    the time of the update, and the collection keeps its length. *)
Theorem update_changes_named_fields_only (NODE_ENV : option string)
    (st : store) (id : string) (validatedAt now : Z)
    (body sanitized : gmap string json) (old : task) :
  objectid_valid id = true ->
  validateRequest updateTaskSchema validatedAt body = Next sanitized ->
  List.find (hasId id) (documents st) = Some old ->
  exists doc st',
    putTask NODE_ENV st id validatedAt now body
    = (st', Return (taskResponse 200 doc))
    /\ documents st' = replaceFirst id doc (documents st)
    /\ length (documents st') = length (documents st)
    /\ _id doc = _id old /\ createdAt doc = createdAt old
    /\ __v doc = __v old /\ updatedAt doc = now
    /\ title doc = match body !! "title" with
                   | Some (JStr s) => JsString.trim s
                   | _ => title old
                   end
    /\ description doc = match body !! "description" with
                         | Some (JStr s) => Some (JsString.trim s)
                         | _ => description old
                         end
    /\ category doc = match body !! "category" with
                      | Some (JStr s) => JsString.trim s
                      | _ => category old
                      end
    /\ priority doc = match body !! "priority" with
                      | Some (JStr s) => JsString.trim s
                      | _ => priority old
                      end
    /\ deadline doc = default (deadline old) (body !! "deadline" ≫= deadlineInstant)
    /\ completed doc = default (completed old) (body !! "completed" ≫= completedFlag).
Proof.
  intros Hid Hvalid Hfind.
  destruct (validateRequest_Next validatedAt _ _ _ (taskSchemaFor_NoDup true) Hvalid)
    as [Hkeys _].
  assert (Hkey : forall k, k ∈ taskKeys ->
            Joi.validateKey validatedAt validationPrefs k
              (keySchema (taskSchemaFor true) k) (body !! k)
            = (sanitized !! k, [])).
  { intros k Hk. apply Hkeys, (taskSchemaFor_key true), Hk. }
  assert (Ht : updated (checkString Schema.title) (sanitized !! "title")
               = Schema.Ok match body !! "title" with
                           | Some (JStr s) => Some (Some (JsString.trim s))
                           | _ => None
                           end).
  { pose proof (Hkey "title" ltac:(key_in)) as Hk.
    apply title_clean in Hk as [(_ & -> & ->) | (s & -> & -> & Hlen)];
      [reflexivity|].
    unfold updated. rewrite (checkString_title s Hlen). reflexivity. }
  assert (Hd : updated (checkString Schema.description) (sanitized !! "description")
               = Schema.Ok match body !! "description" with
                           | Some (JStr s) => Some (Some (JsString.trim s))
                           | _ => None
                           end).
  { pose proof (Hkey "description" ltac:(key_in)) as Hk.
    apply description_clean in Hk as [(-> & ->) | (s & -> & -> & Hlen)];
      [reflexivity|].
    unfold updated. rewrite (checkString_description s Hlen). reflexivity. }
  assert (Hc : updated (checkString Schema.category) (sanitized !! "category")
               = Schema.Ok match body !! "category" with
                           | Some (JStr s) => Some (Some (JsString.trim s))
                           | _ => None
                           end).
  { pose proof (Hkey "category" ltac:(key_in)) as Hk.
    apply category_clean in Hk as [(_ & -> & ->) | (s & -> & -> & Hin)];
      [reflexivity|].
    unfold updated. rewrite (checkString_category s Hin). reflexivity. }
  assert (Hp : updated (checkString Schema.priority) (sanitized !! "priority")
               = Schema.Ok match body !! "priority" with
                           | Some (JStr s) => Some (Some (JsString.trim s))
                           | _ => None
                           end).
  { pose proof (Hkey "priority" ltac:(key_in)) as Hk.
    apply priority_clean in Hk as [(_ & -> & ->) | (s & -> & -> & Hin)];
      [reflexivity|].
    unfold updated. rewrite (checkString_priority s Hin). reflexivity. }
  assert (Hdl : updated (checkDeadline false now) (sanitized !! "deadline")
                = Schema.Ok (Some <$> (body !! "deadline" ≫= deadlineInstant))).
  { pose proof (Hkey "deadline" ltac:(key_in)) as Hk.
    apply deadline_clean in Hk as [(_ & -> & ->) | (raw & t & -> & Hraw & -> & _)];
      [reflexivity|].
    simpl. rewrite Hraw. reflexivity. }
  assert (Hco : updated checkCompleted (sanitized !! "completed")
                = Schema.Ok (Some <$> (body !! "completed" ≫= completedFlag))).
  { pose proof (Hkey "completed" ltac:(key_in)) as Hk.
    apply completed_clean in Hk as [(-> & ->) | (raw & b & -> & Hraw & ->)];
      [reflexivity|].
    simpl. rewrite Hraw. reflexivity. }
  unfold putTask, updateTask, Task_findByIdAndUpdate.
  rewrite Hvalid, Hid, Ht, Hd, Hc, Hp, Hdl, Hco. simpl. rewrite Hfind.
  do 2 eexists. split; [reflexivity|]. simpl.
  split; [reflexivity|]. split; [apply replaceFirst_length|].
  repeat (split; [reflexivity|]).
  split; [destruct (body !! "title") as [[]|]; reflexivity|].
  split; [destruct (body !! "description") as [[]|]; reflexivity|].
  split; [destruct (body !! "category") as [[]|]; reflexivity|].
  split; [destruct (body !! "priority") as [[]|]; reflexivity|].
  split.
  - destruct (body !! "deadline" ≫= deadlineInstant); reflexivity.
  - destruct (body !! "completed" ≫= completedFlag); reflexivity.
Qed.

End ValidatedPayloads.

(** ** Listing: the window of a page *)

Section ListingFurther.
Context `{Platform}.

Local Arguments Query.window : simpl never.
Local Arguments merge_sort : simpl never.

Lemma buildQuery_window (query : gmap string string) :
  let page := orElse (query !! "page" ≫= JsString.parseInt) 1 in
  let limit := orElse (query !! "limit" ≫= JsString.parseInt) 10 in
  Query.skipArg (buildQuery query) = Some ((page - 1) * limit)%Z
  /\ Query.limitArg (buildQuery query) = Some limit.
Proof.
  unfold buildQuery.
  destruct (query !! "sort") as [s|]; [destruct (JsString.truthy s)|];
    (destruct (query !! "fields") as [f|]; [destruct (JsString.truthy f)|]);
    split; reflexivity.
Qed.

Lemma orElse_not_zero (n : option Z) (d : Z) : d <> 0%Z -> orElse n d <> 0%Z.
Proof. intros Hd. destruct n as [[| |]|]; simpl; [exact Hd | | | exact Hd]; discriminate. Qed.

Lemma window_length (skipArg : option Z) (limit : Z) (docs : list task) :
  limit <> 0%Z ->
  (length (Query.window skipArg (Some limit) docs) <= Z.to_nat (Z.abs limit))%nat
  /\ (length (Query.window skipArg (Some limit) docs) <= length docs)%nat.
Proof.
  intros Hlimit. unfold Query.window.
  assert (Hrest : (length (skipn (Z.to_nat (default 0%Z skipArg)) docs)
                   <= length docs)%nat).
  { rewrite length_skipn. lia. }
  destruct limit; [contradiction| |]; rewrite length_firstn; lia.
Qed.

Lemma cast_error_answer (NODE_ENV : option string) (k : string) (v : json) :
  errorHandler NODE_ENV (castError k v)
  = Return (badRequest NODE_ENV ("Invalid " +:+ k +:+ ": " +:+ toText (Some v))).
Proof.
  unfold errorHandler, handleError, badRequest. simpl.
  destruct (bool_decide (NODE_ENV = Some "development")); reflexivity.
Qed.

Lemma server_error_answer (NODE_ENV : option string) (code : Z) (m : string) :
  code <> 11000%Z ->
  exists res, errorHandler NODE_ENV (mongoServerError code m) = Return res
              /\ res_status res = 500%Z.
Proof.
  intros Hcode. unfold errorHandler. simpl.
  rewrite bool_decide_eq_false_2 by congruence.
  unfold handleError. simpl. eexists. split; reflexivity.
Qed.

(** X14.  A successful list response carries in [results] the number of
    tasks in [data.tasks], and that number exceeds neither the limit in
    force (the [limit] parameter, or 10 when it is missing, not a number or
    zero; never zero itself) nor the number of stored documents. *)
Theorem list_results_are_bounded (NODE_ENV : option string) (st : store)
    (query : gmap string string) (res : response) :
  snd (getTasks NODE_ENV st query) = Return res -> res_status res = 200%Z ->
  let limit := orElse (query !! "limit" ≫= JsString.parseInt) 10 in
  exists tasks,
    res = listEnvelope tasks
    /\ limit <> 0%Z
    /\ (length tasks <= Z.to_nat (Z.abs limit))%nat
    /\ (length tasks <= length (documents st))%nat.
Proof.
  intros Hres Hcode limit.
  destruct (buildQuery_window query) as [_ Hlimit]. fold limit in Hlimit.
  assert (Hnz : limit <> 0%Z) by (apply orElse_not_zero; discriminate).
  unfold getTasks, getAllTasks, Query.exec in Hres. rewrite Hlimit in Hres.
  destruct (Query.castConditions _) as [[k v]|tests].
  { simpl in Hres. rewrite cast_error_answer in Hres.
    injection Hres as <-. discriminate. }
  destruct (Query.parseSelect _) as [keep|].
  2:{ simpl in Hres.
      destruct (server_error_answer NODE_ENV 31254
                  "Cannot mix inclusion and exclusion in projection")
        as (r & Hr & Hs); [discriminate|].
      rewrite Hr in Hres. injection Hres as <-. rewrite Hs in Hcode. discriminate. }
  destruct (_ <? 0)%Z.
  { simpl in Hres.
    destruct (server_error_answer NODE_ENV 51024
                "BSON field 'skip' value must be >= 0")
      as (r & Hr & Hs); [discriminate|].
    rewrite Hr in Hres. injection Hres as <-. rewrite Hs in Hcode. discriminate. }
  simpl in Hres. injection Hres as <-.
  eexists. split; [reflexivity|]. split; [exact Hnz|].
  rewrite length_fmap.
  match goal with
  | |- context [Query.window ?s _ ?docs] =>
      destruct (window_length s limit docs Hnz) as [Hmax Hdocs]
  end.
  split; [exact Hmax|].
  etransitivity; [exact Hdocs|].
  rewrite merge_sort_Permutation. apply List.filter_length_le.
Qed.

Lemma firstn_add (A : Type) (a b : nat) (xs : list A) :
  firstn a xs ++ firstn b (skipn a xs) = firstn (a + b) xs.
Proof.
  revert xs. induction a as [|a IH]; intros xs; [reflexivity|].
  destruct xs as [|x xs]; simpl.
  - rewrite firstn_nil. reflexivity.
  - rewrite IH. reflexivity.
Qed.

(** X15.  With page p >= 1 and limit l >= 1, the page is the l documents
    that follow the first (p - 1) * l of the sorted matches, page p + 1
    starts where page p ends, so that two consecutive pages are 2 * l
    consecutive matches with none skipped or repeated, and a page past the
    end is empty. *)
Theorem consecutive_pages_partition (query : gmap string string)
    (next : string) (p l : Z) (sorted : list task) :
  (1 <= p)%Z -> (1 <= l)%Z ->
  query !! "page" ≫= JsString.parseInt = Some p ->
  query !! "limit" ≫= JsString.parseInt = Some l ->
  JsString.parseInt next = Some (p + 1)%Z ->
  let start := Z.to_nat ((p - 1) * l) in
  pageOf query sorted = firstn (Z.to_nat l) (skipn start sorted)
  /\ pageOf query sorted ++ pageOf (<["page" := next]> query) sorted
     = firstn (2 * Z.to_nat l) (skipn start sorted)
  /\ ((length sorted <= start)%nat -> pageOf query sorted = []).
Proof.
  intros Hp Hl Hpage Hlimit Hnext start.
  assert (Hfirst : pageOf query sorted = firstn (Z.to_nat l) (skipn start sorted)).
  { unfold pageOf. destruct (buildQuery_window query) as [-> ->].
    rewrite Hpage, Hlimit. unfold Query.window.
    destruct p as [|p|p]; try lia. destruct l as [|l|l]; try lia. reflexivity. }
  assert (Hsecond : pageOf (<["page" := next]> query) sorted
                    = firstn (Z.to_nat l) (skipn (start + Z.to_nat l) sorted)).
  { unfold pageOf.
    destruct (buildQuery_window (<["page" := next]> query)) as [-> ->].
    rewrite lookup_insert_eq, lookup_insert_ne by discriminate.
    simpl. rewrite Hnext, Hlimit. unfold Query.window.
    replace (orElse (Some (p + 1)%Z) 1) with (p + 1)%Z
      by (destruct p as [|p|p]; try lia; destruct p; reflexivity).
    replace (orElse (Some l) 10) with l by (destruct l; try lia; reflexivity).
    simpl default.
    replace (Z.to_nat ((p + 1 - 1) * l)) with (start + Z.to_nat l)%nat
      by (unfold start; nia).
    destruct l as [|l|l]; try lia. reflexivity. }
  split; [exact Hfirst|]. split.
  - rewrite Hfirst, Hsecond, <- drop_drop.
    replace (2 * Z.to_nat l)%nat with (Z.to_nat l + Z.to_nat l)%nat by lia.
    apply firstn_add.
  - intros Hshort. rewrite Hfirst, skipn_all2 by exact Hshort. apply firstn_nil.
Qed.

End ListingFurther.

(** ** The error handler *)

Section ErrorsFurther.
Context `{Platform}.

Lemma getProp_jsonObject_absent (k : string) (props : list (string * option json)) :
  (forall p, p ∈ props -> fst p = k -> snd p = None) ->
  getProp k (jsonObject props) = None.
Proof.
  unfold jsonObject, getProp. induction props as [|[k' [v|]] props IH];
    intros Hk; simpl.
  - reflexivity.
  - destruct (String.eqb_spec k' k) as [->|Hne].
    + specialize (Hk (k, Some v) ltac:(apply elem_of_cons; left; reflexivity) eq_refl).
      discriminate.
    + apply IH. intros p Hp. apply Hk, elem_of_cons. right. exact Hp.
  - apply IH. intros p Hp. apply Hk, elem_of_cons. right. exact Hp.
Qed.

(** X16.  Unless NODE_ENV is [development], no response of the error
    handler has a [stack] property, whatever the error. *)
Theorem no_stack_outside_development (NODE_ENV : option string)
    (err : JsError.t) (res : response) :
  NODE_ENV <> Some "development" ->
  errorHandler NODE_ENV err = Return res ->
  getProp "stack" (res_json res) = None.
Proof.
  intros Henv. unfold errorHandler.
  destruct (if instanceOf err JsError.ValidationError
            then handleValidationError err
            else Return _) as [e1|]; [|discriminate].
  destruct (if bool_decide (JsError.code err = Some 11000%Z)
            then handleDuplicateFieldError err
            else Return e1) as [e2|]; [|discriminate].
  destruct (instanceOf err JsError.SyntaxError && _ && _).
  - intros [= <-]. reflexivity.
  - destruct (JsError.isOperational err).
    + unfold send. destruct (JsError.statusCode err); [|discriminate].
      intros [= <-]. cbn [res_json]. apply getProp_jsonObject_absent.
      intros p Hp Hk.
      repeat (apply elem_of_cons in Hp as [->|Hp]; [discriminate|]).
      inversion Hp.
    + unfold handleError, send.
      rewrite (bool_decide_eq_false_2 _ Henv).
      intros [= <-]. cbn [res_json]. apply getProp_jsonObject_absent.
      intros p Hp Hk.
      repeat (apply elem_of_cons in Hp as [->|Hp]; [first [discriminate | reflexivity]|]).
      inversion Hp.
Qed.

(** X17.  The handler of duplicate keys reads the first quoted substring
    out of the driver message: for an error with code 11000 whose message
    is missing or has no quoted substring, the error handler throws instead
    of answering. *)
Theorem duplicate_key_without_quoted_value_throws (NODE_ENV : option string)
    (err : JsError.t) :
  JsError.code err = Some 11000%Z ->
  (forall m, JsError.errmsg err = Some m -> regexp_first_quoted m = None) ->
  exists e, errorHandler NODE_ENV err = Throw e.
Proof.
  intros Hcode Hquote. unfold errorHandler.
  destruct (if instanceOf err JsError.ValidationError
            then handleValidationError err
            else Return _) as [e1|e1]; [|eauto].
  rewrite (bool_decide_eq_true_2 _ Hcode).
  unfold handleDuplicateFieldError.
  destruct (JsError.errmsg err) as [m|]; [|eauto].
  rewrite (Hquote m eq_refl). eauto.
Qed.

Lemma messages_of_failures (failures : list (string * string)) :
  (fun kv : string * json => joinText (getProp "message" (snd kv)))
    <$> (pathFailure <$> failures)
  = failures.*2.
Proof.
  induction failures as [|[p m] failures IH]; [reflexivity|].
  rewrite !fmap_cons, IH. reflexivity.
Qed.

(** X18.  A storage validation error is answered 400 with status [fail]
    and the messages of all the paths that failed, in order, joined by a
    full stop and a space after [Invalid input data: ]. *)
Theorem storage_validation_error_lists_every_message
    (NODE_ENV : option string) (prefix : string)
    (failures : list (string * string)) :
  errorHandler NODE_ENV (validationError prefix (pathFailure <$> failures))
  = Return (badRequest NODE_ENV
              ("Invalid input data: " +:+ JsString.join ". " failures.*2)).
Proof.
  unfold errorHandler, handleValidationError. simpl.
  rewrite messages_of_failures.
  unfold handleError, badRequest. simpl.
  destruct (bool_decide (NODE_ENV = Some "development")); reflexivity.
Qed.

End ErrorsFurther.

(** ** Listing: order and contents *)

Section ListingOrder.
Context `{Platform}.

Local Arguments Query.window : simpl never.
Local Arguments merge_sort : simpl never.

Lemma compareField_antisym (f : string) (a b : task) :
  Query.compareField f b a = CompOpp (Query.compareField f a b).
Proof.
  unfold Query.compareField.
  repeat match goal with
         | |- context [String.eqb f ?k] => destruct (String.eqb f k)
         end;
    try apply String.compare_antisym; try apply Z.compare_antisym;
    try reflexivity.
  - destruct (description a), (description b); simpl;
      try reflexivity. apply String.compare_antisym.
  - destruct (completed a), (completed b); reflexivity.
Qed.

Lemma compareBy_antisym (spec : list (string * Query.sortOrder)) (a b : task) :
  Query.compareBy spec b a = CompOpp (Query.compareBy spec a b).
Proof.
  induction spec as [|[f o] spec IH]; simpl; [reflexivity|].
  rewrite (compareField_antisym f a b), IH.
  destruct o, (Query.compareField f a b); reflexivity.
Qed.

Lemma precedes_total (spec : list (string * Query.sortOrder)) :
  Total (Query.precedes spec).
Proof.
  intros a b. unfold Query.precedes. rewrite (compareBy_antisym spec a b).
  destruct (Query.compareBy spec a b); simpl; auto; left; discriminate.
Qed.

Lemma Sorted_skipn {A} (R : relation A) (n : nat) (l : list A) :
  Sorted R l -> Sorted R (skipn n l).
Proof.
  revert l. induction n as [|n IH]; intros l Hl; [exact Hl|].
  destruct l as [|x l]; [exact Hl|]. simpl. apply IH.
  apply Sorted_inv in Hl as [Hl _]. exact Hl.
Qed.

Lemma Sorted_firstn {A} (R : relation A) (n : nat) (l : list A) :
  Sorted R l -> Sorted R (firstn n l).
Proof.
  revert n. induction l as [|x l IH]; intros n Hl.
  - rewrite firstn_nil. constructor.
  - destruct n as [|n]; simpl; [constructor|].
    apply Sorted_inv in Hl as [Hl Hhd]. constructor; [apply IH, Hl|].
    destruct Hhd as [|y l' Hxy]; [rewrite firstn_nil; constructor|].
    destruct n; simpl; constructor. exact Hxy.
Qed.

Lemma window_sorted (R : relation task) (skipArg limitArg : option Z)
    (docs : list task) :
  Sorted R docs -> Sorted R (Query.window skipArg limitArg docs).
Proof.
  intros Hs. unfold Query.window.
  destruct limitArg as [[| |]|];
    first [apply Sorted_firstn, Sorted_skipn, Hs | apply Sorted_skipn, Hs].
Qed.

Lemma window_subseteq (skipArg limitArg : option Z) (docs : list task) :
  Query.window skipArg limitArg docs ⊆ docs.
Proof.
  unfold Query.window.
  destruct limitArg as [[| |]|];
    first [ etransitivity; [apply subseteq_take | apply subseteq_drop]
          | apply subseteq_drop ].
Qed.

(** X21.  A successful list response lists stored documents only, each of
    which satisfies every condition of the filter, in the order that the
    sort argument asks for: every listed task precedes the next one for the
    sort keys, whatever the page and the limit. *)
Theorem list_returns_sorted_matches (NODE_ENV : option string) (st : store)
    (query : gmap string string) (res : response) :
  snd (getTasks NODE_ENV st query) = Return res -> res_status res = 200%Z ->
  exists (page : list task) (tests : list (task -> bool))
         (keep : list (string * json) -> list (string * json)),
    Query.castConditions (map_to_list (Query.conditions (buildQuery query)))
    = inr tests
    /\ Query.parseSelect (default "" (Query.selectArg (buildQuery query)))
       = Some keep
    /\ res = listEnvelope (Query.project keep ∘ toJSON <$> page)
    /\ Sorted (Query.precedes
                 (Query.parseSort (default "" (Query.sortArg (buildQuery query)))))
              page
    /\ forall t, t ∈ page ->
         t ∈ documents st /\ Forall (fun test => test t = true) tests.
Proof.
  intros Hres Hcode.
  unfold getTasks, getAllTasks, Query.exec in Hres.
  destruct (Query.castConditions _) as [[k v]|tests] eqn:Htests.
  { simpl in Hres. rewrite cast_error_answer in Hres.
    injection Hres as <-. discriminate. }
  destruct (Query.parseSelect _) as [keep|] eqn:Hkeep.
  2:{ simpl in Hres.
      destruct (server_error_answer NODE_ENV 31254
                  "Cannot mix inclusion and exclusion in projection")
        as (r & Hr & Hs); [discriminate|].
      rewrite Hr in Hres. injection Hres as <-. rewrite Hs in Hcode. discriminate. }
  destruct (_ <? 0)%Z.
  { simpl in Hres.
    destruct (server_error_answer NODE_ENV 51024
                "BSON field 'skip' value must be >= 0")
      as (r & Hr & Hs); [discriminate|].
    rewrite Hr in Hres. injection Hres as <-. rewrite Hs in Hcode. discriminate. }
  simpl in Hres. injection Hres as <-.
  eexists. exists tests, keep. split; [reflexivity|]. split; [reflexivity|].
  split; [reflexivity|]. split.
  - apply window_sorted, Sorted_merge_sort, precedes_total.
  - intros t Ht. apply window_subseteq in Ht.
    rewrite merge_sort_Permutation in Ht.
    apply list_elem_of_In, filter_In in Ht as [Hin Hall].
    split; [apply list_elem_of_In, Hin|].
    apply Forall_forall. intros test Htest.
    rewrite forallb_forall in Hall. apply Hall, list_elem_of_In, Htest.
Qed.

End ListingOrder.

(** ** Every request is answered *)

Section Answers.
Context `{Platform}.





End Answers.

(** ** The further properties at concrete requests *)

Lemma deleted_task_is_gone_witness :
  exists st1 r,
    @deleteTaskRoute Sample.platform None Sample.oneTask Sample.id1 = (st1, r)
    /\ snd (@getTask Sample.platform None st1 Sample.id1) = Return notFoundResponse
    /\ snd (@deleteTaskRoute Sample.platform None st1 Sample.id1)
       = Return notFoundResponse.
Proof.
  destruct (@deleted_task_is_gone Sample.platform None Sample.oneTask Sample.id1
              Sample.now Sample.now ∅)
    as (st1 & r & Hdel & _ & Hget & Hagain & _); [vm_compute; reflexivity|].
  exists st1, r. repeat split; assumption.
Defined.

Lemma malformed_id_is_400_witness :
  exists st',
    @getTask Sample.platform None Sample.oneTask "invalid-id"
    = (st', Return (@malformedIdResponse Sample.platform None "invalid-id"))
    /\ documents st' = documents Sample.oneTask.
Proof.
  destruct (@malformed_id_is_400 Sample.platform None Sample.oneTask "invalid-id"
              Sample.now Sample.now ∅)
    as (_ & Hget & _); [vm_compute; reflexivity|].
  exact Hget.
Defined.

Lemma update_without_known_field_witness :
  @putTask Sample.platform None Sample.oneTask Sample.id1 Sample.now Sample.now
    {[ "owner" := JStr "nobody" ]}
  = (Sample.oneTask,
     Return (refusedWith
               [errorEntry "" "At least one field must be provided for update"])).
Proof.
  apply (@update_without_known_field_is_refused Sample.platform).
  intros k Hk. unfold taskKeys in Hk.
  repeat (apply elem_of_cons in Hk as [->|Hk]; [vm_compute; reflexivity|]).
  inversion Hk.
Defined.

Lemma missing_required_field_witness :
  exists entries,
    @postTasks Sample.platform None Sample.oneTask Sample.id2 Sample.now
      Sample.now (delete "title" Sample.validBody)
    = (Sample.oneTask, Return (refusedWith entries))
    /\ errorEntry "title" "Title is required" ∈ entries.
Proof.
  apply (@missing_required_field_is_reported Sample.platform).
  - apply elem_of_cons. left. reflexivity.
  - vm_compute. reflexivity.
Defined.

Lemma create_with_past_deadline_witness :
  exists entries,
    @postTasks Sample.platform None Sample.oneTask Sample.id2 Sample.now
      Sample.now (<["deadline" := JStr "2020-01-01T00:00:00.000Z"]> Sample.validBody)
    = (Sample.oneTask, Return (refusedWith entries))
    /\ errorEntry "deadline" "Deadline must be in the future" ∈ entries.
Proof.
  apply (@create_with_past_deadline_is_refused Sample.platform None
           Sample.oneTask Sample.id2 Sample.now Sample.now _
           (JStr "2020-01-01T00:00:00.000Z") 1577836800000%Z).
  - vm_compute. reflexivity.
  - reflexivity.
  - vm_compute. reflexivity.
Defined.

Lemma sanitized_payload_meets_the_schema_witness :
  exists sanitized,
    @validateRequest Sample.platform createTaskSchema Sample.now Sample.validBody
    = Next sanitized
    /\ (exists s, sanitized !! "title" = Some (JStr s)
                  /\ (3 <= String.length s <= 100)%nat)
    /\ (exists t, sanitized !! "deadline" = Some (JDate t) /\ (Sample.now <= t)%Z).
Proof.
  destruct (@validateRequest Sample.platform createTaskSchema Sample.now
              Sample.validBody) as [res|sanitized] eqn:Hvalid;
    [vm_compute in Hvalid; discriminate|].
  exists sanitized. split; [reflexivity|].
  destruct (@sanitized_payload_meets_the_schema Sample.platform Sample.now false
              Sample.validBody sanitized Hvalid)
    as (Htitle & _ & _ & _ & Hdeadline & _ & Hall & _).
  specialize (Hall eq_refl).
  apply Forall_cons in Hall as [[x Hx] Hall].
  apply Forall_cons in Hall as [_ Hall]. apply Forall_cons in Hall as [_ Hall].
  apply Forall_cons in Hall as [[y Hy] _].
  destruct (Htitle x Hx) as (s & -> & Hlen & _).
  destruct (Hdeadline y Hy) as (t & -> & Hle).
  split; [exists s; split; assumption | exists t; split; assumption].
Defined.

Lemma sanitized_payload_validates_to_itself_witness :
  exists sanitized,
    @validateRequest Sample.platform createTaskSchema Sample.now Sample.validBody
    = Next sanitized
    /\ @validateRequest Sample.platform createTaskSchema (Sample.now - 1000)
         sanitized
       = Next sanitized.
Proof.
  destruct (@validateRequest Sample.platform createTaskSchema Sample.now
              Sample.validBody) as [res|sanitized] eqn:Hvalid;
    [vm_compute in Hvalid; discriminate|].
  exists sanitized. split; [reflexivity|].
  apply (@sanitized_payload_validates_to_itself Sample.platform Sample.now
           (Sample.now - 1000) false Sample.validBody sanitized Hvalid).
  vm_compute. discriminate.
Defined.

Lemma blank_title_witness :
  exists entries,
    @validateRequest Sample.platform updateTaskSchema Sample.now
      {[ "title" := JStr "   " ]}
    = Responded (refusedWith entries)
    /\ errorEntry "title" "Title cannot be empty" ∈ entries.
Proof.
  destruct (@blank_title_is_refused_blank_description_is_kept Sample.platform
              Sample.now true {[ "title" := JStr "   " ]} "   ")
    as [Htitle _]; [reflexivity|].
  apply Htitle. vm_compute. reflexivity.
Defined.

Lemma routes_keep_documents_conforming_witness :
  Forall conforming
    (documents (fst (@postTasks Sample.platform None Sample.oneTask Sample.id2
                       Sample.now Sample.now Sample.validBody))).
Proof.
  destruct (@routes_keep_documents_conforming Sample.platform None
              Sample.oneTask Sample.id2 Sample.id1 Sample.now Sample.now
              Sample.validBody)
    as [Hpost _]; [|exact Hpost].
  apply Forall_cons. split; [|apply Forall_nil_2].
  unfold conforming. simpl.
  split; [discriminate|]. split; [lia|]. split; [reflexivity|].
  split; [intros d; discriminate|].
  split; apply (bool_decide_unpack _); vm_compute; exact I.
Defined.

Lemma routes_keep_identifiers_unique_witness :
  NoDup (identifiers
           (fst (@postTasks Sample.platform None Sample.oneTask Sample.id2
                   Sample.now Sample.now Sample.validBody))).
Proof.
  destruct (@routes_keep_identifiers_unique Sample.platform None
              Sample.oneTask Sample.id2 Sample.id1 Sample.now Sample.now
              Sample.validBody)
    as [Hpost _]; [|exact Hpost].
  apply (bool_decide_unpack _). vm_compute. exact I.
Defined.

Lemma deadline_reached_before_saving_witness :
  @postTasks Sample.platform None Sample.oneTask Sample.id2
    1893456000000 1893456000000 Sample.validBody
  = (logged "create" Sample.oneTask,
     Return (@badRequest Sample.platform None
               "Invalid input data: Deadline must be a future date")).
Proof.
  destruct (@validateRequest Sample.platform createTaskSchema 1893456000000
              Sample.validBody) as [res|sanitized] eqn:Hvalid;
    [vm_compute in Hvalid; discriminate|].
  apply (@deadline_reached_before_saving_is_refused Sample.platform None
           Sample.oneTask Sample.id2 1893456000000 1893456000000
           Sample.validBody sanitized (JStr "2030-01-01T00:00:00.000Z")
           1893456000000%Z Hvalid).
  - vm_compute. reflexivity.
  - reflexivity.
  - lia.
Defined.

Lemma update_changes_named_fields_only_witness :
  exists doc st',
    @putTask Sample.platform None Sample.oneTask Sample.id1 Sample.now
      (Sample.now + 5) {[ "title" := JStr " Renamed " ]}
    = (st', Return (@taskResponse Sample.platform 200 doc))
    /\ title doc = "Renamed" /\ category doc = "Work"
    /\ deadline doc = 1893456000000%Z /\ updatedAt doc = (Sample.now + 5)%Z.
Proof.
  destruct (@validateRequest Sample.platform updateTaskSchema Sample.now
              {[ "title" := JStr " Renamed " ]}) as [res|sanitized] eqn:Hvalid;
    [vm_compute in Hvalid; discriminate|].
  destruct (@update_changes_named_fields_only Sample.platform None
              Sample.oneTask Sample.id1 Sample.now (Sample.now + 5)%Z
              {[ "title" := JStr " Renamed " ]} sanitized
              (Sample.taskDue Sample.id1 "Test Task" 1893456000000))
    as (doc & st' & Hput & _ & _ & _ & _ & _ & Hat & Htitle & _ & Hcat & _
        & Hdue & _);
    [vm_compute; reflexivity | exact Hvalid | vm_compute; reflexivity |].
  exists doc, st'. split; [exact Hput|].
  split; [exact Htitle|]. split; [exact Hcat|]. split; [exact Hdue | exact Hat].
Defined.

Lemma list_results_are_bounded_witness :
  exists tasks,
    snd (@getTasks Sample.platform None Sample.elevenTasks {[ "limit" := "3" ]})
    = Return (listEnvelope tasks)
    /\ (length tasks <= 3)%nat.
Proof.
  destruct (snd (@getTasks Sample.platform None Sample.elevenTasks
                   {[ "limit" := "3" ]})) as [res|e] eqn:Hres;
    [|vm_compute in Hres; discriminate].
  assert (Hcode : res_status res = 200%Z).
  { vm_compute in Hres. injection Hres as <-. reflexivity. }
  destruct (@list_results_are_bounded Sample.platform None Sample.elevenTasks
              {[ "limit" := "3" ]} res Hres Hcode)
    as (tasks & -> & _ & Hmax & _).
  exists tasks. split; [reflexivity | exact Hmax].
Defined.

Lemma consecutive_pages_partition_witness :
  pageOf {[ "page" := "2"; "limit" := "3" ]} (documents Sample.elevenTasks)
  ++ pageOf {[ "page" := "3"; "limit" := "3" ]} (documents Sample.elevenTasks)
  = firstn 6 (skipn 3 (documents Sample.elevenTasks)).
Proof.
  destruct (consecutive_pages_partition {[ "page" := "2"; "limit" := "3" ]}
              "3" 2 3 (documents Sample.elevenTasks))
    as (_ & Hpair & _);
    [lia | lia | vm_compute; reflexivity | vm_compute; reflexivity
    | vm_compute; reflexivity |].
  replace ({[ "page" := "3"; "limit" := "3" ]} : gmap string string)
    with (<["page" := "3"]> ({[ "page" := "2"; "limit" := "3" ]}
                               : gmap string string))
    by (vm_compute; reflexivity).
  exact Hpair.
Defined.

Lemma no_stack_outside_development_witness :
  exists res,
    @errorHandler Sample.platform (Some "production")
      (@castError Sample.platform "_id" (JStr "invalid-id"))
    = Return res
    /\ getProp "stack" (res_json res) = None.
Proof.
  eexists. split; [vm_compute; reflexivity|].
  apply (@no_stack_outside_development Sample.platform (Some "production")
           (@castError Sample.platform "_id" (JStr "invalid-id")));
    [discriminate | vm_compute; reflexivity].
Defined.

Lemma duplicate_key_without_quoted_value_witness :
  exists e,
    @errorHandler Sample.platform None
      (@mongoServerError Sample.platform 11000
         "E11000 duplicate key error collection: tasks index: n_1 dup key: { n: 1 }")
    = Throw e.
Proof.
  apply (@duplicate_key_without_quoted_value_throws Sample.platform).
  - reflexivity.
  - intros m [= <-]. vm_compute. reflexivity.
Defined.

Lemma ill_typed_fields_are_reported_witness :
  @reports Sample.platform Sample.now true {[ "title" := JNum 5 ]}
    "title" "Title must be a string".
Proof.
  destruct (@ill_typed_fields_are_reported Sample.platform Sample.now true
              {[ "title" := JNum 5 ]} "title" (JNum 5))
    as [Hstring _]; [vm_compute; reflexivity|].
  apply Hstring; [apply elem_of_cons; left; reflexivity | discriminate].
Defined.

Lemma list_returns_sorted_matches_witness :
  exists page keep,
    snd (@getTasks Sample.platform None Sample.elevenTasks
           {[ "sort" := "-deadline" ]})
    = Return (listEnvelope (Query.project keep ∘ toJSON <$> page))
    /\ Sorted (Query.precedes [("deadline", Query.Descending)]) page.
Proof.
  destruct (snd (@getTasks Sample.platform None Sample.elevenTasks
                   {[ "sort" := "-deadline" ]})) as [res|e] eqn:Hres;
    [|vm_compute in Hres; discriminate].
  assert (Hcode : res_status res = 200%Z).
  { vm_compute in Hres. injection Hres as <-. reflexivity. }
  destruct (@list_returns_sorted_matches Sample.platform None
              Sample.elevenTasks {[ "sort" := "-deadline" ]} res Hres Hcode)
    as (page & tests & keep & _ & _ & -> & Hsorted & _).
  exists page, keep. split; [reflexivity | exact Hsorted].
Defined.

